(** * NoteGraphee: the image-analysis backend (backend/server.js)

    A shallow embedding of the request-orchestration code of the Express
    server: upload ingestion (multer configuration and the error
    middleware), image preprocessing, the Ollama inference client, file
    cleanup, the two analysis endpoints, the informational endpoints and
    the shutdown sweep; and of the parts of the web client
    (ImageAnalyzer.jsx) that decide what a request carries: file selection,
    the prompt field, the status indicator and the history.

    JavaScript effects are modelled by a state-and-exception monad over a
    [World] that holds the upload directory, a logical clock and the trace
    of external calls.  Everything the server cannot decide itself (replies
    of the Ollama backend, the outcome of sharp, I/O faults, the system
    time, generated identifiers) is read from an [Env], indexed by the
    clock, so that every sequence of outcomes is covered and every
    definition still computes.  Console output and the timestamps of the
    JSON bodies are left out. *)

From stdpp Require Import base strings list gmap pretty.
From Stdlib Require Import ZArith Ascii.
From Stdlib.Strings Require Import Byte.

Local Open Scope Z_scope.

Abbreviation Bytes := (list Byte.byte).

(** ** String helpers of the JavaScript runtime *)

Module Js.

(** [s.includes(sub)]: [sub] occurs somewhere in [s]. *)
Fixpoint includes (s sub : string) : bool :=
  String.prefix sub s ||
  match s with
  | EmptyString => false
  | String _ s' => includes s' sub
  end.

(** [s.split(sep)[0]] for a one-character separator: the text before the
    first separator, the whole string when there is none. *)
Fixpoint splitHead (sep : ascii) (s : string) : string :=
  match s with
  | EmptyString => EmptyString
  | String c s' => if Ascii.eqb c sep then EmptyString else String c (splitHead sep s')
  end.

Definition lowerAscii (c : ascii) : ascii :=
  let n := nat_of_ascii c in
  if (Nat.leb 65 n && Nat.leb n 90)%bool then ascii_of_nat (n + 32) else c.

(** [s.toLowerCase()], on the ASCII letters.  The allowed extensions are
    ASCII and no other character lower-cases to one of their letters. *)
Fixpoint toLowerCase (s : string) : string :=
  match s with
  | EmptyString => EmptyString
  | String c s' => String (lowerAscii c) (toLowerCase s')
  end.

Fixpoint hasSlash (s : string) : bool :=
  match s with
  | EmptyString => false
  | String c s' => Ascii.eqb c "/" || hasSlash s'
  end.

(** The text after the last ['/'] (the last path segment). *)
Fixpoint basename (s : string) : string :=
  match s with
  | EmptyString => EmptyString
  | String c s' =>
      if hasSlash s' then basename s'
      else if Ascii.eqb c "/" then s' else s
  end.

(** From the last ['.'] of [s] to its end; [None] when [s] has no dot. *)
Fixpoint lastDot (s : string) : option string :=
  match s with
  | EmptyString => None
  | String c s' =>
      match lastDot s' with
      | Some e => Some e
      | None => if Ascii.eqb c "." then Some s else None
      end
  end.

(** [path.extname(p)] for a path without trailing separator: from the last
    dot of the last path segment to the end; empty when there is no dot,
    when the only dot is the segment's first character, or when the segment
    is [".."]. *)
Definition extname (p : string) : string :=
  match basename p with
  | EmptyString => EmptyString
  | String c rest =>
      if String.eqb (String c rest) ".." then EmptyString
      else
        match lastDot rest with
        | Some e => e
        | None => EmptyString
        end
  end.

(** [arr.join(sep)]. *)
Fixpoint join (sep : string) (l : list string) : string :=
  match l with
  | [] => ""
  | [x] => x
  | x :: r => x +:+ sep +:+ join sep r
  end.

Definition base64Alphabet : string :=
  "ABCDEFGHIJKLMNOPQRSTUVWXYZabcdefghijklmnopqrstuvwxyz0123456789+/".

Definition sextet (n : N) : ascii :=
  default "="%char (String.get (N.to_nat (N.land n 63)) base64Alphabet).

(** [buffer.toString('base64')] *)
Fixpoint base64 (l : Bytes) : string :=
  match l with
  | [] => ""
  | [a] =>
      let a := Byte.to_N a in
      String (sextet (N.shiftr a 2)) (String (sextet (N.shiftl a 4)) "==")
  | [a; b] =>
      let a := Byte.to_N a in
      let b := Byte.to_N b in
      String (sextet (N.shiftr a 2))
        (String (sextet (N.lor (N.shiftl a 4) (N.shiftr b 4)))
           (String (sextet (N.shiftl b 2)) "="))
  | a :: b :: c :: r =>
      let a := Byte.to_N a in
      let b := Byte.to_N b in
      let c := Byte.to_N c in
      String (sextet (N.shiftr a 2))
        (String (sextet (N.lor (N.shiftl a 4) (N.shiftr b 4)))
           (String (sextet (N.lor (N.shiftl b 2) (N.shiftr c 6)))
              (String (sextet c) (base64 r))))
  end.

(** A string is truthy when it is not empty. *)
Definition truthy (s : string) : bool := negb (String.eqb s "").

End Js.

(** ** Data model *)

(** A thrown JavaScript error, as far as the server observes it:
    [error instanceof multer.MulterError], [error.code], [error.message]. *)
Record JsError := mkError {
  isMulterError : bool;
  code : option string;
  message : string;
}.

(** [new Error(msg)] *)
Definition newError (msg : string) : JsError :=
  {| isMulterError := false; code := None; message := msg |}.

(** A [TypeError] raised by reading a property of [undefined]. *)
Definition typeError (prop : string) : JsError :=
  newError ("Cannot read properties of undefined (reading '" +:+ prop +:+ "')").

Inductive Result (A : Type) : Type :=
| Ok (a : A)
| Throw (e : JsError).
Arguments Ok {A} a.
Arguments Throw {A} e.

(** [GET /api/tags]: [{models: [{name, ...}]}]. A missing property is [None]. *)
Record ModelEntry := { name : option string }.
Record TagsData := { models : option (list ModelEntry) }.
Record TagsResponse := { tags_status : Z; tags_data : option TagsData }.

(** [POST /api/generate] *)
Record GenerateOptions := { temperature : string; top_p : string; max_tokens : Z }.
Record Payload := {
  model : string;
  prompt : string;
  images : list string;
  stream : bool;
  options : GenerateOptions;
}.
Record GenerateData := { response : option string }.
Record GenerateResponse := { gen_data : option GenerateData }.

(** How a [POST /api/generate] ends: with a reply, with a transport error,
    or with the request's [timeout] elapsing first. *)
Inductive PostOutcome :=
| Replied (r : GenerateResponse)
| Failed (e : JsError)
| TimedOut.

(** [req.file] / an element of [req.files], as multer fills it in. *)
Record UploadedFile := {
  path : string;
  originalname : string;
  size : Z;
}.

(** A file part of a multipart request, before multer has seen it. *)
Record FilePart := {
  part_originalname : string;
  part_bytes : Bytes;
}.

(** An element of [results] in the batch response.  [processingTimeMs] is
    the difference of the two [Date.now()] readings; the server prints it in
    seconds with one decimal. *)
Inductive Outcome :=
| OutcomeSuccess (filename summary : string) (processingTimeMs fileSize : Z)
| OutcomeFailure (filename error : string).

Definition success (r : Outcome) : bool :=
  match r with OutcomeSuccess _ _ _ _ => true | OutcomeFailure _ _ => false end.

Definition filename (r : Outcome) : string :=
  match r with OutcomeSuccess f _ _ _ => f | OutcomeFailure f _ => f end.

(** JSON bodies sent by the server (timestamps left out). *)
Inductive Body :=
| BodyError (error : string)
| BodyErrorMessage (error msg : string)
| BodyAnalysis (summary fname : string) (fileSize processingTimeMs : Z) (modelName : string)
| BodyBatch (ok : bool) (results : list Outcome) (total successful failed : Z).

Record Response := { status : Z; body : Body }.

(** External calls, in the order they are issued. *)
Inductive Event :=
| EvGetTags
| EvSharp (input output : string) (maxWidth : Z)
| EvReadFile (p : string)
| EvGenerate (payload : Payload)
| EvUnlink (p : string)
| EvWriteFile (p : string)
| EvSend (r : Response).

Record World := mkWorld {
  files : gmap string Bytes;
  clock : nat;
  trace : list Event;
}.

(** [process.env], after [parseInt] where the server applies it
    ([None]: unset, or [NaN] for the parsed size). *)
Record ProcessEnv := {
  env_UPLOAD_DIR : option string;
  env_MAX_FILE_SIZE : option Z;
  env_GEMMA_MODEL : option string;
  env_NODE_ENV : option string;
}.

(** What the outside world answers at each tick of the clock:
    - [tagsReply], [generateReply]: the Ollama backend;
    - [sharpReply]: sharp, given the bytes of the input image;
    - [readFault], [unlinkFault]: an I/O error of [fs.readFile] and
      [fs.unlink] other than a missing file;
    - [sendFault]: an error of [res.json];
    - [dateNow], [uuidv4]: the system time in milliseconds, a fresh
      identifier;
    - [showMegabytes bytes]: the text of [`${bytes / 1024 / 1024}`]. *)
Record Env := {
  processEnv : ProcessEnv;
  tagsReply : nat -> JsError + TagsResponse;
  generateReply : nat -> Payload -> PostOutcome;
  sharpReply : nat -> Bytes -> JsError + Bytes;
  readFault : nat -> option JsError;
  unlinkFault : nat -> option JsError;
  sendFault : nat -> option JsError;
  dateNow : nat -> Z;
  uuidv4 : nat -> string;
  showMegabytes : Z -> string;
}.

(** ** The effect monad: state passing with exceptions *)

Definition M (A : Type) : Type := World -> Result A * World.

Definition ret {A} (a : A) : M A := fun w => (Ok a, w).

Definition throw {A} (e : JsError) : M A := fun w => (Throw e, w).

Definition bind {A B} (m : M A) (k : A -> M B) : M B :=
  fun w =>
    match m w with
    | (Ok a, w') => k a w'
    | (Throw e, w') => (Throw e, w')
    end.

(** [try { m } catch (error) { h error }] *)
Definition tryCatch {A} (m : M A) (h : JsError -> M A) : M A :=
  fun w =>
    match m w with
    | (Ok a, w') => (Ok a, w')
    | (Throw e, w') => h e w'
    end.

(** [try { m } finally { f }]: [f] runs on both exits; an error of [f]
    replaces the outcome of [m]. *)
Definition tryFinally {A} (m : M A) (f : M unit) : M A :=
  fun w =>
    let '(r, w') := m w in
    match f w' with
    | (Ok _, w'') => (r, w'')
    | (Throw e, w'') => (Throw e, w'')
    end.

Notation "'let*' x ':=' m 'in' k" := (bind m (fun x => k))
  (at level 10, x name, m at level 100, k at level 200).

(** [for (const x of l) await f(x)] *)
Fixpoint forEach {A} (f : A -> M unit) (l : list A) : M unit :=
  match l with
  | [] => ret tt
  | x :: r => let* _ := f x in forEach f r
  end.

(** [arr.some(p)] for a predicate that may throw: stops at the first hit. *)
Fixpoint arraySome {A} (p : A -> M bool) (l : list A) : M bool :=
  match l with
  | [] => ret false
  | x :: r => let* b := p x in if b then ret true else arraySome p r
  end.

(** One external call: the clock advances and the call is recorded. *)
Definition step (ev : Event) (w : World) : World :=
  {| files := files w; clock := S (clock w); trace := trace w ++ [ev] |}.

Definition tick (w : World) : World :=
  {| files := files w; clock := S (clock w); trace := trace w |}.

Definition setFiles (fs : gmap string Bytes) (w : World) : World :=
  {| files := fs; clock := clock w; trace := trace w |}.

Section Server.

Context (env : Env).

(** ** Configuration (server.js, lines 14-23) *)

(** [v || d] for an optional string: the default replaces [undefined] and
    the empty string. *)
Definition orElse (v : option string) (d : string) : string :=
  match v with
  | Some s => if Js.truthy s then s else d
  | None => d
  end.

Definition UPLOAD_DIR : string := orElse (env_UPLOAD_DIR (processEnv env)) "./uploads".

Definition MAX_FILE_SIZE : Z :=
  match env_MAX_FILE_SIZE (processEnv env) with
  | Some n => if n =? 0 then 16 * 1024 * 1024 else n
  | None => 16 * 1024 * 1024
  end.

Definition GEMMA_MODEL : string := orElse (env_GEMMA_MODEL (processEnv env)) "gemma3:4b".

Definition ALLOWED_EXTENSIONS : list string :=
  [".png"; ".jpg"; ".jpeg"; ".gif"; ".webp"].

Definition DEFAULT_PROMPT : string :=
  "Analyze this image and provide a detailed summary".

(** ** External calls *)

(** [axios.get(`${OLLAMA_BASE_URL}/api/tags`)] *)
Definition axiosGetTags : M TagsResponse :=
  fun w =>
    match tagsReply env (clock w) with
    | inl e => (Throw e, step EvGetTags w)
    | inr r => (Ok r, step EvGetTags w)
    end.

(** The error axios (^1.6.0 in package.json) rejects with when the
    [timeout] of a request elapses; [transitional.clarifyTimeoutError] is
    not set by the server, so the code is [ECONNABORTED]. *)
Definition axiosTimeoutError (timeout : Z) : JsError :=
  {| isMulterError := false;
     code := Some "ECONNABORTED";
     message := "timeout of " +:+ pretty timeout +:+ "ms exceeded" |}.

(** [axios.post(`${OLLAMA_BASE_URL}/api/generate`, payload, {timeout, headers})] *)
Definition axiosPostGenerate (payload : Payload) (timeout : Z) : M GenerateResponse :=
  fun w =>
    let w' := step (EvGenerate payload) w in
    match generateReply env (clock w) payload with
    | Replied r => (Ok r, w')
    | Failed e => (Throw e, w')
    | TimedOut => (Throw (axiosTimeoutError timeout), w')
    end.

(** [sharp(input).resize(maxWidth, ...).jpeg({quality: 85}).toFile(output)]:
    fails when the input is missing or cannot be decoded or encoded, and then
    writes nothing. *)
Definition sharpToFile (input : string) (maxWidth : Z) (output : string) : M unit :=
  fun w =>
    let w' := step (EvSharp input output maxWidth) w in
    match files w !! input with
    | None => (Throw (newError ("Input file is missing: " +:+ input)), w')
    | Some b =>
        match sharpReply env (clock w) b with
        | inl e => (Throw e, w')
        | inr jpeg => (Ok tt, setFiles (<[output := jpeg]> (files w)) w')
        end
    end.

Definition enoent (syscall p : string) : JsError :=
  {| isMulterError := false;
     code := Some "ENOENT";
     message := "ENOENT: no such file or directory, " +:+ syscall +:+ " '" +:+ p +:+ "'" |}.

(** [fs.readFile(p)] *)
Definition fsReadFile (p : string) : M Bytes :=
  fun w =>
    let w' := step (EvReadFile p) w in
    match readFault env (clock w) with
    | Some e => (Throw e, w')
    | None =>
        match files w !! p with
        | None => (Throw (enoent "open" p), w')
        | Some b => (Ok b, w')
        end
    end.

(** [fs.unlink(p)] *)
Definition fsUnlink (p : string) : M unit :=
  fun w =>
    let w' := step (EvUnlink p) w in
    match unlinkFault env (clock w) with
    | Some e => (Throw e, w')
    | None =>
        match files w !! p with
        | None => (Throw (enoent "unlink" p), w')
        | Some _ => (Ok tt, setFiles (delete p (files w)) w')
        end
    end.

(** [Date.now()] *)
Definition DateNow : M Z := fun w => (Ok (dateNow env (clock w)), tick w).

(** [res.status(s).json(b)] *)
Definition resJson (s : Z) (b : Body) : M Response :=
  fun w =>
    let r := {| status := s; body := b |} in
    match sendFault env (clock w) with
    | Some e => (Throw e, tick w)
    | None => (Ok r, step (EvSend r) w)
    end.

(** ** Utility functions (server.js, lines 66-192) *)

Definition convertImageToBase64 (filePath : string) : M string :=
  tryCatch
    (let* buffer := fsReadFile filePath in
     ret (Js.base64 buffer))
    (fun error => throw (newError ("Failed to read image file: " +:+ message error))).

Definition optimizeImage (inputPath outputPath : string) (maxWidth : option Z) : M string :=
  let maxWidth := default 1024 maxWidth in
  tryCatch
    (let* _ := sharpToFile inputPath maxWidth outputPath in
     ret outputPath)
    (fun error => ret inputPath).

Definition checkOllamaHealth : M bool :=
  tryCatch
    (let* response := axiosGetTags in
     ret (tags_status response =? 200))
    (fun error => ret false).

Definition checkModelAvailability (modelName : string) : M bool :=
  tryCatch
    (let* response := axiosGetTags in
     match tags_data response with
     | None => throw (typeError "models")
     | Some data =>
         let models := default [] (models data) in
         arraySome
           (fun model =>
              match name model with
              | None => throw (typeError "includes")
              | Some n => ret (Js.includes n (Js.splitHead ":" modelName))
              end)
           models
     end)
    (fun error => ret false).

Definition generatePayload (prompt imageBase64 : string) : Payload :=
  {| model := GEMMA_MODEL;
     prompt := prompt;
     images := [imageBase64];
     stream := false;
     options := {| temperature := "0.7"; top_p := "0.9"; max_tokens := 500 |} |}.

(** The [catch] block of [callGemma3Vision] (lines 175-183). *)
Definition onInferenceError {A} (error : JsError) : M A :=
  if bool_decide (code error = Some "ECONNREFUSED") then
    throw (newError "Cannot connect to Ollama. Make sure Ollama is running on port 11434")
  else if bool_decide (code error = Some "ETIMEDOUT") then
    throw (newError "Analysis timed out. Try with a smaller image or simpler prompt")
  else
    throw (newError ("Gemma3 analysis failed: " +:+ message error)).

Definition callGemma3Vision (imagePath : string) (prompt : option string) : M string :=
  let prompt := default DEFAULT_PROMPT prompt in
  tryCatch
    (let* isOllamaHealthy := checkOllamaHealth in
     if negb isOllamaHealthy then
       throw (newError "Ollama server is not running. Please start Ollama with: ollama serve")
     else
     let* isModelAvailable := checkModelAvailability GEMMA_MODEL in
     if negb isModelAvailable then
       throw (newError ("Model " +:+ GEMMA_MODEL +:+ " not found. Please install with: ollama pull "
                        +:+ GEMMA_MODEL))
     else
     let optimizedPath := imagePath +:+ "_optimized.jpg" in
     let* finalImagePath := optimizeImage imagePath optimizedPath None in
     let* imageBase64 := convertImageToBase64 finalImagePath in
     let payload := generatePayload prompt imageBase64 in
     let* response := axiosPostGenerate payload 120000 in
     let* _ :=
       if negb (String.eqb finalImagePath imagePath) then
         tryCatch (fsUnlink finalImagePath) (fun cleanupError => ret tt)
       else ret tt in
     match gen_data response with
     | Some {| response := Some text |} =>
         if Js.truthy text then ret text
         else throw (newError "Invalid response from Ollama")
     | _ => throw (newError "Invalid response from Ollama")
     end)
    onInferenceError.

Definition cleanupFile (filePath : string) : M unit :=
  tryCatch (fsUnlink filePath) (fun error => ret tt).

(** ** Upload ingestion (server.js, lines 40-64)

    multer itself is an external package (1.4.5-lts.1 in package.json, on
    busboy 1.x).  Its pipeline is written out as the package behaves: per
    file part the file-count limit, then [fileFilter], then the disk storage
    engine, which streams the part to [destination/filename].  busboy counts
    the bytes of the part as they arrive and raises its limit event as soon
    as the count reaches [limits.fileSize]: a part of exactly the limit is
    refused like a longer one.  The part is then cut at the limit and multer
    gives up with [LIMIT_FILE_SIZE]; whenever multer gives up it removes
    what the request has written so far, the cut file included, before it
    passes the error on.  A limit below zero is never reached by the count,
    and the part is passed on. *)

Definition multerError (c msg : string) : JsError :=
  {| isMulterError := true; code := Some c; message := msg |}.

Definition fileFilter (originalname : string) : Result bool :=
  let ext := Js.toLowerCase (Js.extname originalname) in
  if existsb (String.eqb ext) ALLOWED_EXTENSIONS then Ok true
  else Throw (newError ("File type not allowed. Use: " +:+ Js.join ", " ALLOWED_EXTENSIONS)).

(** [storage.filename]: [`${uuidv4()}${path.extname(file.originalname)}`] *)
Definition storageFilename (originalname : string) : M string :=
  fun w => (Ok (uuidv4 env (clock w) +:+ Js.extname originalname), tick w).

(** [DiskStorage._handleFile], writing the bytes [written]. *)
Definition storageHandleFile (originalname : string) (written : Bytes) : M UploadedFile :=
  let* uniqueName := storageFilename originalname in
  let p := UPLOAD_DIR +:+ "/" +:+ uniqueName in
  fun w =>
    (Ok {| path := p;
           originalname := originalname;
           size := Z.of_nat (length written) |},
     setFiles (<[p := written]> (files w)) (step (EvWriteFile p) w)).

(** [DiskStorage._removeFile]; multer collects the error, if any. *)
Definition storageRemoveFile (f : UploadedFile) : M unit :=
  tryCatch (fsUnlink (path f)) (fun error => ret tt).

Definition multerAbort {A} (staged : list UploadedFile) (e : JsError) : M A :=
  let* _ := forEach storageRemoveFile staged in
  throw e.

Fixpoint multerUpload (maxCount : nat) (parts : list FilePart)
    (staged : list UploadedFile) {struct parts} : M (list UploadedFile) :=
  match parts with
  | [] => ret staged
  | part :: rest =>
      match maxCount with
      | O => multerAbort staged (multerError "LIMIT_UNEXPECTED_FILE" "Unexpected field")
      | S n =>
          match fileFilter (part_originalname part) with
          | Throw e => multerAbort staged e
          | Ok _ =>
              if ((0 <? MAX_FILE_SIZE) &&
                  (MAX_FILE_SIZE <=? Z.of_nat (length (part_bytes part))))%bool then
                let* file :=
                  storageHandleFile (part_originalname part)
                    (take (Z.to_nat MAX_FILE_SIZE) (part_bytes part)) in
                multerAbort (staged ++ [file])
                  (multerError "LIMIT_FILE_SIZE" "File too large")
              else
                let* file :=
                  storageHandleFile (part_originalname part) (part_bytes part) in
                multerUpload n rest (staged ++ [file])
          end
      end
  end.

(** ** Routes (server.js, lines 257-379) *)

(** The body of one loop iteration of [POST /batch-analyze]. *)
Definition batchItem (file : UploadedFile) (prompt : string)
    (results : list Outcome) : M (list Outcome) :=
  tryFinally
    (tryCatch
       (let* startTime := DateNow in
        let* summary := callGemma3Vision (path file) (Some prompt) in
        let* endTime := DateNow in
        ret (results ++ [OutcomeSuccess (originalname file) summary
                           (endTime - startTime) (size file)]))
       (fun error =>
          ret (results ++ [OutcomeFailure (originalname file) (message error)])))
    (cleanupFile (path file)).

Fixpoint batchLoop (uploadedFiles : list UploadedFile) (prompt : string)
    (results : list Outcome) : M (list Outcome) :=
  match uploadedFiles with
  | [] => ret results
  | file :: rest =>
      let* results' := batchItem file prompt results in
      batchLoop rest prompt results'
  end.

Definition successCount (results : list Outcome) : Z :=
  Z.of_nat (length (List.filter success results)).

(** Lines 319-364: the loop, the tally and the response. *)
Definition runBatch (uploadedFiles : list UploadedFile) (bodyPrompt : option string)
    : M Response :=
  let prompt := orElse bodyPrompt DEFAULT_PROMPT in
  let* results := batchLoop uploadedFiles prompt [] in
  let total := Z.of_nat (length uploadedFiles) in
  resJson 200 (BodyBatch true results total (successCount results)
                 (total - successCount results)).

Definition batchAnalyzeHandler (reqFiles : option (list UploadedFile))
    (bodyPrompt : option string) : M Response :=
  let uploadedFiles := default [] reqFiles in
  tryCatch
    (if (length uploadedFiles =? 0)%nat then
       resJson 400 (BodyError "No image files provided")
     else runBatch uploadedFiles bodyPrompt)
    (fun error =>
       let* _ := forEach (fun file => cleanupFile (path file)) uploadedFiles in
       resJson 500 (BodyError (message error))).

(** [filePath] is assigned right after the guard on [req.file], before
    anything can throw: at the [finally] it holds the upload's path exactly
    when there is an upload. *)
Definition analyzeImageHandler (reqFile : option UploadedFile)
    (bodyPrompt : option string) : M Response :=
  tryFinally
    (tryCatch
       (match reqFile with
        | None => resJson 400 (BodyError "No image file provided")
        | Some file =>
            let prompt := orElse bodyPrompt DEFAULT_PROMPT in
            let* startTime := DateNow in
            let* summary := callGemma3Vision (path file) (Some prompt) in
            let* endTime := DateNow in
            resJson 200 (BodyAnalysis summary (originalname file) (size file)
                           (endTime - startTime) GEMMA_MODEL)
        end)
       (fun error => resJson 500 (BodyError (message error))))
    (match reqFile with
     | Some file => if Js.truthy (path file) then cleanupFile (path file) else ret tt
     | None => ret tt
     end).

(** Error handling middleware (lines 394-413). *)
Definition errorMiddleware (error : JsError) : M Response :=
  if isMulterError error then
    if bool_decide (code error = Some "LIMIT_FILE_SIZE") then
      resJson 400 (BodyError ("File too large. Maximum size is "
                              +:+ showMegabytes env MAX_FILE_SIZE +:+ "MB"))
    else resJson 400 (BodyError ("Upload error: " +:+ message error))
  else
    resJson 500 (BodyErrorMessage "Internal server error"
                   (if bool_decide (env_NODE_ENV (processEnv env) = Some "development")
                    then message error else "Something went wrong")).

(** [app.post(route, upload..., handler)]: an error of the upload
    middleware goes to the error middleware and the handler never runs; an
    error escaping the asynchronous handler is not routed anywhere. *)
Definition route {A} (upload : M A) (handler : A -> M Response) : M Response :=
  fun w =>
    match upload w with
    | (Ok a, w') => handler a w'
    | (Throw e, w') => errorMiddleware e w'
    end.

(** [POST /analyze-image], [upload.single('image')] *)
Definition postAnalyzeImage (parts : list FilePart) (bodyPrompt : option string)
    : M Response :=
  route (multerUpload 1 parts []) (fun fs => analyzeImageHandler (head fs) bodyPrompt).

(** [POST /batch-analyze], [upload.array('images', 10)] *)
Definition postBatchAnalyze (parts : list FilePart) (bodyPrompt : option string)
    : M Response :=
  route (multerUpload 10 parts []) (fun fs => batchAnalyzeHandler (Some fs) bodyPrompt).

End Server.

(** ** Vocabulary of the specification *)

(** The model listing a [GET /api/tags] reply carries ([[]] when the request
    fails or the body has no [models]). *)
Definition listing (env : Env) (w : World) : list ModelEntry :=
  match tagsReply env (clock w) with
  | inr {| tags_data := Some data |} => default [] (models data)
  | _ => []
  end.

(** The requested model's base name: the part before the [':'] tag. *)
Definition baseName (modelId : string) : string := Js.splitHead ":" modelId.

(** An entry matches the base name as a prefix of its name. *)
Definition matchesAsPrefix (modelId : string) (entry : ModelEntry) : Prop :=
  ∃ n post, name entry = Some n ∧ n = baseName modelId +:+ post.

(** An entry matches the base name as a substring of its name. *)
Definition matchesAsSubstring (modelId : string) (entry : ModelEntry) : Prop :=
  ∃ n pre post, name entry = Some n ∧ n = pre +:+ baseName modelId +:+ post.

Definition isWhitespace (c : ascii) : bool :=
  let n := nat_of_ascii c in
  (Nat.eqb n 32 || (Nat.leb 9 n && Nat.leb n 13))%bool.

(** A blank prompt: empty, or made of white space only. *)
Fixpoint isBlank (s : string) : bool :=
  match s with
  | EmptyString => true
  | String c s' => isWhitespace c && isBlank s'
  end.

Definition isGenerate (ev : Event) : bool :=
  match ev with EvGenerate _ => true | _ => false end.

(** The events a computation adds to the trace of the world it starts in. *)
Definition issued {A} (m : M A) (w : World) : list Event :=
  drop (length (trace w)) (trace (m w).2).

(** [w'] is [w] after some more external calls, all of which satisfy [P]. *)
Definition grows (P : Event → Prop) (w w' : World) : Prop :=
  ∃ evs, trace w' = trace w ++ evs ∧ Forall P evs.

(** Every external call a computation issues satisfies [P]. *)
Definition emits {A} (P : Event → Prop) (m : M A) : Prop :=
  ∀ w, grows P w (m w).2.

(** A generate call carries the prompt [pr]. *)
Definition carriesPrompt (pr : string) (ev : Event) : Prop :=
  match ev with
  | EvGenerate payload => prompt payload = pr
  | _ => True
  end.

(** The run of [callGemma3Vision] passes both checks, preprocessing and
    encoding, and is about to post [payload] in world [w4]; [finalImagePath]
    is the file whose bytes the payload carries. *)
Definition reachesGenerate (env : Env) (imagePath : string) (pr : option string)
    (w : World) (finalImagePath : string) (payload : Payload) (w4 : World) : Prop :=
  ∃ w1 w2 w3 imageBase64,
    checkOllamaHealth env w = (Ok true, w1) ∧
    checkModelAvailability env (GEMMA_MODEL env) w1 = (Ok true, w2) ∧
    optimizeImage env imagePath (imagePath +:+ "_optimized.jpg") None w2
      = (Ok finalImagePath, w3) ∧
    convertImageToBase64 env finalImagePath w3 = (Ok imageBase64, w4) ∧
    payload = generatePayload env (default (DEFAULT_PROMPT) pr) imageBase64.

(** The world after the optimized copy, if there is one, has been removed
    (lines 160-167). *)
Definition afterCopyCleanup (env : Env) (imagePath fp : string) (w : World) : World :=
  if negb (String.eqb fp imagePath) then (cleanupFile env fp w).2 else w.

(** A malformed or empty body of the generate reply. *)
Definition invalidBody (resp : GenerateResponse) : Prop :=
  gen_data resp = None ∨
  ∃ d, gen_data resp = Some d ∧ (response d = None ∨ response d = Some "").

(** Entry [i] of the listing contains the base name, and every entry before
    it carries a name. *)
Definition firstMatch (modelId : string) (l : list ModelEntry) (i : nat) : Prop :=
  (∃ entry, l !! i = Some entry ∧ matchesAsSubstring modelId entry) ∧
  ∀ j entry, (j < i)%nat → l !! j = Some entry → is_Some (name entry).

(** The outcome the batch loop records for [file]. *)
Definition failureOf (file : UploadedFile) (e : JsError) : Outcome :=
  OutcomeFailure (originalname file) (message e).

(** ** Concrete scenarios *)

Module Scenario.

Definition penv : ProcessEnv :=
  {| env_UPLOAD_DIR := None; env_MAX_FILE_SIZE := None;
     env_GEMMA_MODEL := None; env_NODE_ENV := None |}.

(** A backend that lists the models [names]. *)
Definition tagsOk (names : list string) : JsError + TagsResponse :=
  inr {| tags_status := 200;
         tags_data := Some {| models := Some ((λ n, {| name := Some n |}) <$> names) |} |}.

Definition connRefused : JsError :=
  {| isMulterError := false; code := Some "ECONNREFUSED";
     message := "connect ECONNREFUSED 127.0.0.1:11434" |}.

Definition timedOut : JsError :=
  {| isMulterError := false; code := Some "ETIMEDOUT";
     message := "connect ETIMEDOUT 127.0.0.1:11434" |}.

Definition socketHangUp : JsError :=
  {| isMulterError := false; code := Some "ECONNRESET"; message := "socket hang up" |}.

Definition answer (text : string) : PostOutcome :=
  Replied {| gen_data := Some {| response := Some text |} |}.

Definition emptyBody : PostOutcome := Replied {| gen_data := None |}.

Definition jpeg : Bytes := [xff; xd8; xff; xe0].

Definition sharpOk : nat → Bytes → JsError + Bytes := λ _ _, inr jpeg.

Definition sharpFails : nat → Bytes → JsError + Bytes :=
  λ _ _, inl (newError "Input buffer contains unsupported image format").

(** An environment without I/O faults.  [showMegabytes] is exact for a
    limit of 4 bytes and for whole numbers of MiB. *)
Definition mkEnv (p : ProcessEnv) (tags : JsError + TagsResponse)
    (sharp : nat → Bytes → JsError + Bytes)
    (gen : Payload → PostOutcome) : Env :=
  {| processEnv := p;
     tagsReply := λ _, tags;
     generateReply := λ _, gen;
     sharpReply := sharp;
     readFault := λ _, None;
     unlinkFault := λ _, None;
     sendFault := λ _, None;
     dateNow := λ n, 1700000000000 + 250 * Z.of_nat n;
     uuidv4 := λ n, "5f0c1d2e-7a3b-4c4d-8e9f-00000000000" +:+ pretty n;
     showMegabytes := λ bytes,
       if bytes =? 4 then "0.000003814697265625" else pretty (bytes / 1048576) |}.

Definition disk (l : list (string * Bytes)) : World :=
  {| files := list_to_map l; clock := 0; trace := [] |}.

Definition png : Bytes := [x89; x50; x4e; x47].

Definition upload (p orig : string) : UploadedFile :=
  {| path := p; originalname := orig; size := 4 |}.

(** sharp keeps the image recognisable: a JPEG header before the input. *)
Definition sharpCopy : nat → Bytes → JsError + Bytes := λ _ b, inr (jpeg ++ b).

Definition hugePng : Bytes := [x89; x50; x4e; x47; x00; x00].

(** A backend that times out on the huge image and answers the others. *)
Definition slowOnHuge (payload : Payload) : PostOutcome :=
  if bool_decide (images payload = [Js.base64 (jpeg ++ hugePng)]) then TimedOut
  else answer "Handwritten lecture notes".

Definition batchEnv : Env :=
  mkEnv penv (tagsOk ["gemma3:4b"]) sharpCopy slowOnHuge.

Definition backendDown : Env :=
  mkEnv penv (inl connRefused) sharpCopy slowOnHuge.

Definition batchDisk : World :=
  disk [("uploads/1.png", png); ("uploads/2.png", hugePng); ("uploads/3.png", png)].

End Scenario.

(** ** The informational routes (server.js, lines 196-255 and 381-392) *)

(** [process.env] of the backend address. *)
Record NetEnv := {
  env_OLLAMA_HOST : option string;
  env_OLLAMA_PORT : option string;
}.

(** JSON bodies of [GET /health], [GET /status] and [GET /models]
    (timestamps left out). *)
Inductive InfoBody :=
| HealthReport (status : string) (api ollama : bool) (modelField maxFileSize : string)
    (allowedExtensions : list string) (ollamaUrl configModel : string)
| HealthError (status msg : string)
| StatusReport (running : bool) (url : string) (availableModels : list (option string))
    (currentModel : string) (modelAvailable : bool)
| ModelsReport (data : option TagsData)
| InfoError (error msg : string).

Section Info.

Context (env : Env) (net : NetEnv).

Definition OLLAMA_HOST : string := orElse (env_OLLAMA_HOST net) "localhost".
Definition OLLAMA_PORT : string := orElse (env_OLLAMA_PORT net) "11434".
Definition OLLAMA_BASE_URL : string := "http://" +:+ OLLAMA_HOST +:+ ":" +:+ OLLAMA_PORT.

(** [res.status(s).json(b)] for an informational body. *)
Definition sendInfo (s : Z) (b : InfoBody) : M (Z * InfoBody) :=
  fun w =>
    match sendFault env (clock w) with
    | Some e => (Throw e, tick w)
    | None => (Ok (s, b), tick w)
    end.

(** [GET /health] *)
Definition healthHandler : M (Z * InfoBody) :=
  tryCatch
    (let* ollamaHealthy := checkOllamaHealth env in
     let* modelAvailable := checkModelAvailability env (GEMMA_MODEL env) in
     sendInfo 200
       (HealthReport "healthy" true ollamaHealthy
          (if modelAvailable then GEMMA_MODEL env else "not_available")
          (showMegabytes env (MAX_FILE_SIZE env) +:+ "MB")
          ALLOWED_EXTENSIONS OLLAMA_BASE_URL (GEMMA_MODEL env)))
    (fun error => sendInfo 500 (HealthError "error" (message error))).

(** [response.data.models?.map(m => m.name) || []] *)
Definition modelNames (response : TagsResponse) : M (list (option string)) :=
  match tags_data response with
  | None => throw (typeError "models")
  | Some data =>
      ret (match models data with
           | Some l => List.map name l
           | None => []
           end)
  end.

(** [m => m.includes(GEMMA_MODEL.split(':')[0])] on an entry of
    [availableModels]. *)
Definition includesBaseName (m : option string) : M bool :=
  match m with
  | None => throw (typeError "includes")
  | Some n => ret (Js.includes n (Js.splitHead ":" (GEMMA_MODEL env)))
  end.

(** [GET /status] *)
Definition statusHandler : M (Z * InfoBody) :=
  tryCatch
    (let* ollamaHealthy := checkOllamaHealth env in
     let* availableModels :=
       if ollamaHealthy then
         tryCatch
           (let* response := axiosGetTags env in modelNames response)
           (fun error => ret [])
       else ret [] in
     let* modelAvailable := arraySome includesBaseName availableModels in
     sendInfo 200
       (StatusReport ollamaHealthy OLLAMA_BASE_URL availableModels
          (GEMMA_MODEL env) modelAvailable))
    (fun error => sendInfo 500 (InfoError "Failed to check system status" (message error))).

(** [GET /models] *)
Definition modelsHandler : M (Z * InfoBody) :=
  tryCatch
    (let* response := axiosGetTags env in
     sendInfo 200 (ModelsReport (tags_data response)))
    (fun error => sendInfo 500 (InfoError "Failed to fetch models" (message error))).

End Info.

(** ** Graceful shutdown (server.js, lines 474-490) *)

(** [s] without the prefix [p], when it has it. *)
Fixpoint stripPrefix (p s : string) : option string :=
  match p with
  | EmptyString => Some s
  | String a p' =>
      match s with
      | EmptyString => None
      | String b s' => if Ascii.eqb a b then stripPrefix p' s' else None
      end
  end.

(** The entry of directory [dir] that leads to the file [key]: its name when
    the file lies in [dir] itself, the name of a subdirectory otherwise. *)
Definition entryOf (dir key : string) : option string :=
  Js.splitHead "/" <$> stripPrefix (dir +:+ "/") key.

(** The names [fs.readdir(dir)] lists. *)
Definition entries (dir : string) (fs : gmap string Bytes) : list string :=
  remove_dups (filter (λ n, n ≠ "") (omap (λ kv, entryOf dir kv.1) (map_to_list fs))).

Section Shutdown.

Context (env : Env).

(** [fs.readdir(dir)]; [fault] is its error, if it has one. *)
Definition fsReaddir (dir : string) (fault : option JsError) : M (list string) :=
  fun w =>
    match fault with
    | Some e => (Throw e, tick w)
    | None => (Ok (entries dir (files w)), tick w)
    end.

(** The [SIGINT] handler; its value is the exit code.  [path.join] is
    written as the storage engine writes it, [dir/name]. *)
Definition shutdown (readdirFault : option JsError) : M Z :=
  let* _ :=
    tryCatch
      (let* names := fsReaddir (UPLOAD_DIR env) readdirFault in
       forEach (fun file => cleanupFile env (UPLOAD_DIR env +:+ "/" +:+ file)) names)
      (fun error => ret tt) in
  ret 0.

End Shutdown.

(** ** The web client (ImageAnalyzer.jsx) *)

Module Client.

(** White space as [String.prototype.trim] sees it, at the head of a UTF-8
    string: the rest of the string behind one white-space character. *)
Definition dropWhitespace (s : string) : option string :=
  match s with
  | String c r =>
      let n := nat_of_ascii c in
      if (Nat.eqb n 32 || (Nat.leb 9 n && Nat.leb n 13))%bool then Some r
      else
        match n, r with
        | 194%nat, String c2 r2 =>
            if Nat.eqb (nat_of_ascii c2) 160 then Some r2 else None
        | 225%nat, String c2 (String c3 r3) =>
            if (Nat.eqb (nat_of_ascii c2) 154 && Nat.eqb (nat_of_ascii c3) 128)%bool
            then Some r3 else None
        | 226%nat, String c2 (String c3 r3) =>
            let n2 := nat_of_ascii c2 in
            let n3 := nat_of_ascii c3 in
            if (Nat.eqb n2 128 &&
                ((Nat.leb 128 n3 && Nat.leb n3 138) || Nat.eqb n3 168 || Nat.eqb n3 169
                 || Nat.eqb n3 175))%bool then Some r3
            else if (Nat.eqb n2 129 && Nat.eqb n3 159)%bool then Some r3
            else None
        | 227%nat, String c2 (String c3 r3) =>
            if (Nat.eqb (nat_of_ascii c2) 128 && Nat.eqb (nat_of_ascii c3) 128)%bool
            then Some r3 else None
        | 239%nat, String c2 (String c3 r3) =>
            if (Nat.eqb (nat_of_ascii c2) 187 && Nat.eqb (nat_of_ascii c3) 191)%bool
            then Some r3 else None
        | _, _ => None
        end
  | EmptyString => None
  end.

(** [s.trimStart()], by fuel: one unit per byte is enough. *)
Fixpoint trimStartFuel (fuel : nat) (s : string) : string :=
  match fuel with
  | O => s
  | S fuel' =>
      match dropWhitespace s with
      | Some r => trimStartFuel fuel' r
      | None => s
      end
  end.

Definition trimStart (s : string) : string := trimStartFuel (String.length s) s.

(** [s.trimEnd()]: the string up to the point from which only white space
    follows. *)
Fixpoint trimEnd (s : string) : string :=
  match s with
  | EmptyString => EmptyString
  | String c r =>
      if String.eqb (trimStart s) "" then EmptyString else String c (trimEnd r)
  end.

(** [s.trim()] *)
Definition trim (s : string) : string := trimEnd (trimStart s).

(** The [prompt] field of the form [analyzeImage] posts: appended only
    [if (customPrompt.trim())]. *)
Definition formPrompt (customPrompt : string) : option string :=
  if Js.truthy (trim customPrompt) then Some customPrompt else None.

(** The [prompt] the history entry shows: [customPrompt || '...'] *)
Definition historyPrompt (customPrompt : string) : string :=
  if Js.truthy customPrompt then customPrompt
  else "Analyze this image and provide a detailed summary".

(** [setHistory(prev => [item, ...prev.slice(0, 4)])] *)
Definition pushHistory {A} (item : A) (prev : list A) : list A :=
  item :: take 4 prev.

(** [checkApiHealth]: the status indicator after [fetch('/health')], given
    the HTTP status of the response ([None]: the fetch was rejected). *)
Definition checkApiHealth (response : option Z) : string :=
  match response with
  | Some s => if ((200 <=? s) && (s <=? 299))%bool then "online" else "offline"
  | None => "offline"
  end.




End Client.

(** ** Vocabulary of the further properties *)

(** A computation changes no file outside the paths [S]. *)
Definition touches {A} (S : string → Prop) (m : M A) : Prop :=
  ∀ w q, ¬ S q → files (m w).2 !! q = files w !! q.

(** The path of the optimized copy of [imagePath]. *)
Definition copyOf (imagePath : string) : string := imagePath +:+ "_optimized.jpg".

(** The calls of one analysis, in the order the client issues them. *)
Definition clientCalls (imagePath fp : string) (payload : Payload) : list Event :=
  [EvGetTags; EvGetTags; EvSharp imagePath (copyOf imagePath) 1024;
   EvReadFile fp; EvGenerate payload; EvUnlink (copyOf imagePath)].

(** The liveness check fails at every tick. *)
Definition alwaysDown (env : Env) : Prop :=
  ∀ n, match tagsReply env n with
       | inl _ => True
       | inr r => tags_status r ≠ 200
       end.

Definition livenessMessage : string :=
  "Gemma3 analysis failed: Ollama server is not running. Please start Ollama with: ollama serve".

(** In the listing, an entry without a name comes before any entry whose
    name contains the base name of the model. *)
Definition unnamedFirst (modelId : string) (l : list ModelEntry) : Prop :=
  ∃ i, l !! i = Some {| name := None |} ∧
       ∀ j entry, (j < i)%nat → l !! j = Some entry →
         ∃ n, name entry = Some n ∧ Js.includes n (baseName modelId) = false.

(** A listing request, [GET /api/tags]. *)
Definition listingOnly (ev : Event) : Prop := ev = EvGetTags.

(** A computation issues at most [n] calls that satisfy [f]. *)
Definition issuesAtMost {A} (f : Event → bool) (n : nat) (m : M A) : Prop :=
  ∀ w, ∃ evs, trace (m w).2 = trace w ++ evs ∧ (length (List.filter f evs) ≤ n)%nat.

(** What the batch records for [file] while the backend is down. *)
Definition downOutcome (file : UploadedFile) : Outcome :=
  OutcomeFailure (originalname file) livenessMessage.

(** The calls of one batch item while the backend is down: the liveness
    probe, then the unlink of the upload. *)
Definition downCalls (file : UploadedFile) : list Event :=
  [EvGetTags; EvUnlink (path file)].

(** A file part multer lets through under a positive limit: allowed
    extension, size below the limit. *)
Definition acceptable (env : Env) (part : FilePart) : Prop :=
  fileFilter (part_originalname part) = Ok true ∧
  Z.of_nat (length (part_bytes part)) < MAX_FILE_SIZE env.

(** * Properties *)

(** ** Strings *)

Lemma append_cons (c : ascii) (s t : string) : String c s +:+ t = String c (s +:+ t).
Proof. reflexivity. Qed.

Lemma prefix_spec (b s : string) :
  String.prefix b s = true ↔ ∃ post, s = b +:+ post.
Proof.
  revert s. induction b as [|c b IH]; intros [|d s]; simpl.
  - split; [intros _; by exists "" | done].
  - split; [intros _; by exists (String d s) | done].
  - split; [done | intros [post H]; discriminate].
  - setoid_rewrite append_cons.
    destruct (Ascii.ascii_dec c d) as [->|Hne].
    + rewrite IH. split; intros [post H]; exists post; congruence.
    + split; [done | intros [post H]; congruence].
Qed.

Lemma includes_empty (b : string) : Js.includes "" b = String.prefix b "" || false.
Proof. reflexivity. Qed.

Lemma includes_cons (c : ascii) (s b : string) :
  Js.includes (String c s) b = String.prefix b (String c s) || Js.includes s b.
Proof. reflexivity. Qed.

Lemma includes_spec (s b : string) :
  Js.includes s b = true ↔ ∃ pre post, s = pre +:+ b +:+ post.
Proof.
  induction s as [|c s IH].
  - rewrite includes_empty, orb_false_r, prefix_spec. split.
    + intros [post H]. by exists "", post.
    + intros [[|d pre] [post H]]; [by exists post | discriminate].
  - rewrite includes_cons, orb_true_iff, prefix_spec, IH. split.
    + intros [[post H] | (pre & post & H)].
      * by exists "", post.
      * exists (String c pre), post. by rewrite append_cons, H.
    + intros ([|d pre] & post & H).
      * left. by exists post.
      * right. exists pre, post. rewrite append_cons in H. congruence.
Qed.

Lemma append_suffix_neq (s t : string) : t ≠ "" → s +:+ t ≠ s.
Proof.
  intros Ht H. apply Ht. clear Ht.
  induction s as [|c s IH]; [done|].
  apply IH. rewrite append_cons in H. congruence.
Qed.

(** ** The monad *)

Lemma bind_ok {A B} (m : M A) (k : A → M B) w a w' :
  m w = (Ok a, w') → bind m k w = k a w'.
Proof. unfold bind. by intros ->. Qed.

Lemma bind_throw {A B} (m : M A) (k : A → M B) w e w' :
  m w = (Throw e, w') → bind m k w = (Throw e, w').
Proof. unfold bind. by intros ->. Qed.

Lemma tryCatch_ok {A} (m : M A) h w a w' :
  m w = (Ok a, w') → tryCatch m h w = (Ok a, w').
Proof. unfold tryCatch. by intros ->. Qed.

Lemma tryCatch_throw {A} (m : M A) h w e w' :
  m w = (Throw e, w') → tryCatch m h w = h e w'.
Proof. unfold tryCatch. by intros ->. Qed.

(** ** Traces only grow *)

Lemma grows_refl P w : grows P w w.
Proof. exists []. by rewrite app_nil_r. Qed.

Lemma grows_trans P w1 w2 w3 : grows P w1 w2 → grows P w2 w3 → grows P w1 w3.
Proof.
  intros (e1 & H1 & F1) (e2 & H2 & F2). exists (e1 ++ e2). split.
  - by rewrite H2, H1, app_assoc.
  - by apply Forall_app.
Qed.

Lemma grows_weaken (P Q : Event → Prop) w w' :
  (∀ ev, P ev → Q ev) → grows P w w' → grows Q w w'.
Proof.
  intros HPQ (evs & H & F). exists evs. split; [done|].
  eapply Forall_impl; eauto.
Qed.

Lemma grows_step P ev w : P ev → grows P w (step ev w).
Proof. intros H. exists [ev]. split; [done | by constructor]. Qed.

Lemma grows_tick P w : grows P w (tick w).
Proof. exists []. by rewrite app_nil_r. Qed.

Lemma grows_setFiles P fs w w' : grows P w w' → grows P w (setFiles fs w').
Proof. intros (evs & H & F). by exists evs. Qed.

Lemma emits_ret {A} P (a : A) : emits P (ret a).
Proof. intros w. apply grows_refl. Qed.

Lemma emits_throw {A} P e : emits P (@throw A e).
Proof. intros w. apply grows_refl. Qed.

Lemma emits_bind {A B} P (m : M A) (k : A → M B) :
  emits P m → (∀ a, emits P (k a)) → emits P (bind m k).
Proof.
  intros Hm Hk w. unfold bind. specialize (Hm w).
  destruct (m w) as [[a|e] w']; simpl in *; [|done].
  eapply grows_trans; [done | apply Hk].
Qed.

Lemma emits_tryCatch {A} P (m : M A) h :
  emits P m → (∀ e, emits P (h e)) → emits P (tryCatch m h).
Proof.
  intros Hm Hh w. unfold tryCatch. specialize (Hm w).
  destruct (m w) as [[a|e] w']; simpl in *; [done|].
  eapply grows_trans; [done | apply Hh].
Qed.

Lemma emits_tryFinally {A} P (m : M A) f :
  emits P m → emits P f → emits P (tryFinally m f).
Proof.
  intros Hm Hf w. unfold tryFinally. specialize (Hm w).
  destruct (m w) as [r w']; simpl in *. specialize (Hf w').
  destruct (f w') as [[u|e] w'']; simpl in *; by eapply grows_trans.
Qed.

Lemma emits_forEach {A} P (f : A → M unit) l :
  (∀ x, emits P (f x)) → emits P (forEach f l).
Proof.
  intros Hf. induction l as [|x l IH]; simpl.
  - apply emits_ret.
  - apply emits_bind; [apply Hf | done].
Qed.

Lemma emits_arraySome {A} P (p : A → M bool) l :
  (∀ x, emits P (p x)) → emits P (arraySome p l).
Proof.
  intros Hp. induction l as [|x l IH]; simpl.
  - apply emits_ret.
  - apply emits_bind; [apply Hp|]. intros [|]; [apply emits_ret | done].
Qed.

Lemma emits_weaken {A} (P Q : Event → Prop) (m : M A) :
  (∀ ev, P ev → Q ev) → emits P m → emits Q m.
Proof. intros HPQ Hm w. eapply grows_weaken; eauto. Qed.

Lemma issued_grows {A} (m : M A) w evs :
  trace (m w).2 = trace w ++ evs → issued m w = evs.
Proof. unfold issued. intros ->. apply drop_app_length. Qed.

(** ** What each call adds to the trace *)

Section Calls.

Context (env : Env).

Lemma emits_axiosGetTags P : P EvGetTags → emits P (axiosGetTags env).
Proof.
  intros H w. unfold axiosGetTags.
  destruct (tagsReply env (clock w)); by apply grows_step.
Qed.

Lemma emits_axiosPostGenerate P payload timeout :
  P (EvGenerate payload) → emits P (axiosPostGenerate env payload timeout).
Proof.
  intros H w. unfold axiosPostGenerate.
  destruct (generateReply env (clock w) payload); by apply grows_step.
Qed.

Lemma axiosPostGenerate_world payload timeout w :
  (axiosPostGenerate env payload timeout w).2 = step (EvGenerate payload) w.
Proof.
  unfold axiosPostGenerate. by destruct (generateReply env (clock w) payload).
Qed.

Lemma axiosPostGenerate_result payload timeout w r :
  (axiosPostGenerate env payload timeout w).1 = r →
  axiosPostGenerate env payload timeout w = (r, step (EvGenerate payload) w).
Proof.
  intros <-. rewrite <- (axiosPostGenerate_world payload timeout w).
  by destruct (axiosPostGenerate env payload timeout w).
Qed.

Lemma emits_sharpToFile P input maxWidth output :
  P (EvSharp input output maxWidth) → emits P (sharpToFile env input maxWidth output).
Proof.
  intros H w. unfold sharpToFile.
  destruct (files w !! input); [destruct (sharpReply env (clock w) _)|]; simpl;
    try apply grows_setFiles; by apply grows_step.
Qed.

Lemma emits_fsReadFile P p : P (EvReadFile p) → emits P (fsReadFile env p).
Proof.
  intros H w. unfold fsReadFile.
  destruct (readFault env (clock w)); [|destruct (files w !! p)]; by apply grows_step.
Qed.

Lemma emits_fsUnlink P p : P (EvUnlink p) → emits P (fsUnlink env p).
Proof.
  intros H w. unfold fsUnlink.
  destruct (unlinkFault env (clock w)); [|destruct (files w !! p)]; simpl;
    try apply grows_setFiles; by apply grows_step.
Qed.

Lemma emits_DateNow P : emits P (DateNow env).
Proof. intros w. apply grows_tick. Qed.

Lemma emits_resJson P s b :
  P (EvSend {| status := s; body := b |}) → emits P (resJson env s b).
Proof.
  intros H w. unfold resJson.
  destruct (sendFault env (clock w)); [apply grows_tick | by apply grows_step].
Qed.

End Calls.

Ltac emits_step :=
  lazymatch goal with
  | |- emits _ (bind _ _) => apply emits_bind; [| intros ?]
  | |- emits _ (tryCatch _ _) => apply emits_tryCatch; [| intros ?]
  | |- emits _ (tryFinally _ _) => apply emits_tryFinally
  | |- emits _ (ret _) => apply emits_ret
  | |- emits _ (throw _) => apply emits_throw
  | |- emits _ (forEach _ _) => apply emits_forEach; intros ?
  | |- emits _ (arraySome _ _) => apply emits_arraySome; intros ?
  | |- emits _ (axiosGetTags _) => apply emits_axiosGetTags; exact I
  | |- emits _ (sharpToFile _ _ _ _) => apply emits_sharpToFile; exact I
  | |- emits _ (fsReadFile _ _) => apply emits_fsReadFile; exact I
  | |- emits _ (fsUnlink _ _) => apply emits_fsUnlink; exact I
  | |- emits _ (DateNow _) => apply emits_DateNow
  | |- emits _ (resJson _ _ _) => apply emits_resJson; exact I
  | |- emits _ (if ?b then _ else _) => destruct b
  | |- emits _ (match ?x with _ => _ end) => destruct x
  end.

Section Traces.

Context (env : Env).

Lemma emits_checkOllamaHealth pr : emits (carriesPrompt pr) (checkOllamaHealth env).
Proof. unfold checkOllamaHealth. repeat emits_step. Qed.

Lemma emits_checkModelAvailability pr modelName :
  emits (carriesPrompt pr) (checkModelAvailability env modelName).
Proof. unfold checkModelAvailability. repeat emits_step. Qed.

Lemma emits_optimizeImage pr input output maxWidth :
  emits (carriesPrompt pr) (optimizeImage env input output maxWidth).
Proof. unfold optimizeImage. repeat emits_step. Qed.

Lemma emits_convertImageToBase64 pr p :
  emits (carriesPrompt pr) (convertImageToBase64 env p).
Proof. unfold convertImageToBase64. repeat emits_step. Qed.

Lemma emits_cleanupFile pr p : emits (carriesPrompt pr) (cleanupFile env p).
Proof. unfold cleanupFile. repeat emits_step. Qed.

(** Every generate call of [callGemma3Vision] carries the prompt it was
    given, or the default when it was given none. *)
Lemma emits_callGemma3Vision imagePath pr :
  emits (carriesPrompt (default (DEFAULT_PROMPT) pr))
        (callGemma3Vision env imagePath pr).
Proof.
  unfold callGemma3Vision.
  apply emits_tryCatch; [|intros; unfold onInferenceError; repeat emits_step].
  apply emits_bind; [apply emits_checkOllamaHealth | intros ?].
  emits_step; [emits_step|].
  apply emits_bind; [apply emits_checkModelAvailability | intros ?].
  emits_step; [emits_step|].
  apply emits_bind; [apply emits_optimizeImage | intros ?].
  apply emits_bind; [apply emits_convertImageToBase64 | intros ?].
  apply emits_bind; [by apply emits_axiosPostGenerate | intros ?].
  repeat emits_step.
Qed.

End Traces.

(** ** Model availability *)

Section Availability.

Context (env : Env).

Lemma checkOllamaHealth_eq w :
  checkOllamaHealth env w =
    (Ok (match tagsReply env (clock w) with
         | inr r => tags_status r =? 200
         | inl _ => false
         end), step EvGetTags w).
Proof.
  unfold checkOllamaHealth, tryCatch, bind, axiosGetTags.
  by destruct (tagsReply env (clock w)).
Qed.

Lemma firstMatch_nil modelId i : ¬ firstMatch modelId [] i.
Proof. intros [(entry & H & _) _]. by rewrite lookup_nil in H. Qed.

Lemma firstMatch_unnamed modelId l i : ¬ firstMatch modelId ({| name := None |} :: l) i.
Proof.
  intros [(entry & H & (n & pre & post & Hn & _)) Hbefore].
  destruct i as [|i].
  - simpl in H. injection H as <-. discriminate.
  - destruct (Hbefore 0%nat {| name := None |}) as [x Hx]; [lia | done | discriminate].
Qed.

Lemma firstMatch_here modelId n l :
  Js.includes n (baseName modelId) = true →
  firstMatch modelId ({| name := Some n |} :: l) 0.
Proof.
  intros (pre & post & H)%includes_spec. split.
  - exists {| name := Some n |}. split; [done|]. by exists n, pre, post.
  - intros j entry Hj. lia.
Qed.

Lemma firstMatch_later modelId n l :
  Js.includes n (baseName modelId) = false →
  (∃ i, firstMatch modelId ({| name := Some n |} :: l) i) ↔ ∃ i, firstMatch modelId l i.
Proof.
  intros Hno. split.
  - intros [[|i] [(entry & H & Hm) Hbefore]].
    + simpl in H. injection H as <-.
      destruct Hm as (n' & pre & post & Hn & Heq). simpl in Hn. injection Hn as <-.
      assert (Js.includes n (baseName modelId) = true) by (apply includes_spec; eauto).
      congruence.
    + exists i. split; [by exists entry|].
      intros j e Hj He. apply (Hbefore (S j) e); [lia | done].
  - intros [i [(entry & H & Hm) Hbefore]]. exists (S i). split; [by exists entry|].
    intros [|j] e Hj He.
    + simpl in He. injection He as <-. by eexists.
    + apply (Hbefore j e); [lia | done].
Qed.

Lemma arraySome_firstMatch modelName l w :
  ∃ r,
    arraySome
      (fun model =>
         match name model with
         | None => throw (typeError "includes")
         | Some n => ret (Js.includes n (Js.splitHead ":" modelName))
         end) l w = (r, w) ∧
    (r = Ok true ↔ ∃ i, firstMatch modelName l i).
Proof.
  induction l as [|[[n|]] l IH]; simpl.
  - exists (Ok false). split; [done|]. split; [done|].
    intros [i H]. by apply firstMatch_nil in H.
  - unfold bind, ret at 1.
    destruct (Js.includes n (Js.splitHead ":" modelName)) eqn:Hinc.
    + exists (Ok true). split; [done|]. split; [|done].
      intros _. exists 0%nat. by apply firstMatch_here.
    + destruct IH as (r & Hr & Hiff). exists r. split; [done|].
      rewrite Hiff. symmetry. by apply firstMatch_later.
  - exists (Throw (typeError "includes")). split; [done|]. split; [done|].
    intros [i H]. by apply firstMatch_unnamed in H.
Qed.

(** [checkModelAvailability] never throws, issues the one listing request,
    and answers whether the listing has a first match. *)
Lemma checkModelAvailability_spec modelId w :
  ∃ b,
    checkModelAvailability env modelId w = (Ok b, step EvGetTags w) ∧
    (b = true ↔ ∃ i, firstMatch modelId (listing env w) i).
Proof.
  unfold checkModelAvailability, listing, tryCatch, bind, axiosGetTags.
  destruct (tagsReply env (clock w)) as [e|[st [data|]]]; simpl.
  - exists false. split; [done|]. split; [done|].
    intros [i H]. by apply firstMatch_nil in H.
  - destruct (arraySome_firstMatch modelId (default [] (models data)) (step EvGetTags w))
      as (r & Hr & Hiff).
    rewrite Hr. destruct r as [b|e].
    + exists b. split; [done|]. rewrite <- Hiff. split; congruence.
    + exists false. split; [done|]. rewrite <- Hiff. split; congruence.
  - exists false. split; [done|]. split; [done|].
    intros [i H]. by apply firstMatch_nil in H.
Qed.

End Availability.

(** ** Claims about the inference client *)

(** C8 (as stated, refuted): with the listing [my-gemma3:latest] the check
    for [gemma3:4b] answers [true], although no entry has the base name
    [gemma3] as a prefix of its name. *)
Lemma availability_is_not_prefix_match :
  let env := Scenario.mkEnv Scenario.penv (Scenario.tagsOk ["my-gemma3:latest"])
               Scenario.sharpOk (λ _, Scenario.answer "notes") in
  let w := Scenario.disk [] in
  (checkModelAvailability env "gemma3:4b" w).1 = Ok true ∧
  ¬ ∃ entry, entry ∈ listing env w ∧ matchesAsPrefix "gemma3:4b" entry.
Proof.
  split; [reflexivity|].
  intros (entry & Hin & n & post & Hn & Heq).
  apply list_elem_of_singleton in Hin. subst entry.
  injection Hn as <-. cbv in Heq. discriminate.
Qed.

(** C8 (amended): [checkModelAvailability] never throws; it answers [true]
    exactly when some entry of the backend's listing contains the requested
    model's base name (the part before [':']) anywhere in its name, every
    earlier entry carrying a name; and [false] on a network failure. *)
Theorem availability_is_substring_match env modelId w :
  ∃ b,
    checkModelAvailability env modelId w = (Ok b, step EvGetTags w) ∧
    (b = true ↔ ∃ i, firstMatch modelId (listing env w) i) ∧
    ((∃ e, tagsReply env (clock w) = inl e) → b = false) ∧
    ((∀ entry, entry ∈ listing env w → is_Some (name entry)) →
     (b = true ↔ ∃ entry, entry ∈ listing env w ∧ matchesAsSubstring modelId entry)).
Proof.
  destruct (checkModelAvailability_spec env modelId w) as (b & Heq & Hiff).
  exists b. split; [done|]. split; [done|]. split.
  - intros [e He]. destruct b; [|done].
    destruct Hiff as [Hiff _]. destruct (Hiff eq_refl) as [i Hi].
    unfold listing in Hi. rewrite He in Hi. by apply firstMatch_nil in Hi.
  - intros Hnamed. rewrite Hiff. split.
    + intros [i [(entry & Hl & Hm) _]]. exists entry. split; [|done].
      apply list_elem_of_lookup. eauto.
    + intros (entry & Hin & Hm). apply list_elem_of_lookup in Hin as [i Hi].
      exists i. split; [by exists entry|].
      intros j e _ He. apply Hnamed. apply list_elem_of_lookup. eauto.
Qed.

Section Inference.

Context (env : Env).

Lemma cleanupFile_eq p w :
  cleanupFile env p w =
    (Ok tt,
     setFiles (match unlinkFault env (clock w) with
               | Some _ => files w
               | None => delete p (files w)
               end) (step (EvUnlink p) w)).
Proof.
  unfold cleanupFile, tryCatch, fsUnlink, ret.
  destruct (unlinkFault env (clock w)); [by destruct w|].
  destruct (files w !! p) eqn:Hp; [done|].
  rewrite delete_id by done. by destruct w.
Qed.

Lemma callGemma3Vision_unhealthy imagePath pr w :
  (checkOllamaHealth env w).1 = Ok false →
  callGemma3Vision env imagePath pr w =
    (Throw (newError "Gemma3 analysis failed: Ollama server is not running. Please start Ollama with: ollama serve"),
     step EvGetTags w).
Proof.
  intros H. pose proof (checkOllamaHealth_eq env w) as E.
  rewrite E in H. simpl in H. injection H as Hb. rewrite Hb in E.
  unfold callGemma3Vision.
  erewrite tryCatch_throw; cycle 1.
  { by erewrite bind_ok by exact E. }
  reflexivity.
Qed.

Lemma callGemma3Vision_model_missing imagePath pr w :
  (checkOllamaHealth env w).1 = Ok true →
  (checkModelAvailability env (GEMMA_MODEL env) (step EvGetTags w)).1 = Ok false →
  callGemma3Vision env imagePath pr w =
    (Throw (newError ("Gemma3 analysis failed: Model " +:+ GEMMA_MODEL env
                      +:+ " not found. Please install with: ollama pull "
                      +:+ GEMMA_MODEL env)),
     step EvGetTags (step EvGetTags w)).
Proof.
  intros H Hm. pose proof (checkOllamaHealth_eq env w) as E.
  rewrite E in H. simpl in H. injection H as Hb. rewrite Hb in E.
  destruct (checkModelAvailability_spec env (GEMMA_MODEL env) (step EvGetTags w))
    as (b & Eb & _).
  rewrite Eb in Hm. simpl in Hm. injection Hm as ->.
  unfold callGemma3Vision.
  erewrite tryCatch_throw; cycle 1.
  { erewrite bind_ok by exact E. cbn [negb].
    by erewrite bind_ok by exact Eb. }
  reflexivity.
Qed.

Lemma callGemma3Vision_post_fails imagePath pr w fp payload w4 e :
  reachesGenerate env imagePath pr w fp payload w4 →
  (axiosPostGenerate env payload 120000 w4).1 = Throw e →
  callGemma3Vision env imagePath pr w
    = onInferenceError e (step (EvGenerate payload) w4).
Proof.
  intros (w1 & w2 & w3 & b64 & H1 & H2 & H3 & H4 & ->) Hgen.
  apply axiosPostGenerate_result in Hgen.
  unfold callGemma3Vision.
  erewrite tryCatch_throw; cycle 1.
  { erewrite bind_ok by exact H1. cbn [negb].
    erewrite bind_ok by exact H2. cbn [negb].
    erewrite bind_ok by exact H3.
    erewrite bind_ok by exact H4.
    erewrite bind_throw; [reflexivity|]. exact Hgen. }
  reflexivity.
Qed.

Lemma callGemma3Vision_post_replies imagePath pr w fp payload w4 resp :
  reachesGenerate env imagePath pr w fp payload w4 →
  (axiosPostGenerate env payload 120000 w4).1 = Ok resp →
  callGemma3Vision env imagePath pr w =
    let w5 := afterCopyCleanup env imagePath fp (step (EvGenerate payload) w4) in
    match gen_data resp with
    | Some {| response := Some text |} =>
        if Js.truthy text then (Ok text, w5)
        else onInferenceError (newError "Invalid response from Ollama") w5
    | _ => onInferenceError (newError "Invalid response from Ollama") w5
    end.
Proof.
  intros (w1 & w2 & w3 & b64 & H1 & H2 & H3 & H4 & ->) Hgen.
  set (payload := generatePayload env _ b64) in *.
  assert (Hpost : axiosPostGenerate env payload 120000 w4
                  = (Ok resp, step (EvGenerate payload) w4))
    by (by apply axiosPostGenerate_result).
  assert (Hclean : ∀ w',
    (if negb (String.eqb fp imagePath)
     then tryCatch (fsUnlink env fp) (λ _, ret tt) else ret tt) w'
    = (Ok tt, afterCopyCleanup env imagePath fp w')).
  { intros w'. unfold afterCopyCleanup.
    destruct (negb (String.eqb fp imagePath)); [|done].
    change (tryCatch (fsUnlink env fp) (λ _, ret tt)) with (cleanupFile env fp).
    by rewrite cleanupFile_eq. }
  unfold callGemma3Vision, tryCatch at 1.
  erewrite bind_ok by exact H1. cbn [negb].
  erewrite bind_ok by exact H2. cbn [negb].
  erewrite bind_ok by exact H3.
  erewrite bind_ok by exact H4.
  erewrite bind_ok by exact Hpost.
  erewrite bind_ok by apply Hclean.
  cbv zeta.
  destruct (gen_data resp) as [[[text|]]|]; try reflexivity.
  by destruct (Js.truthy text).
Qed.

End Inference.

(** C2: when the liveness check answers [false], no generate call is issued
    (the only request is the liveness probe) and the error raised is the
    service-unavailable one, "Ollama server is not running", under the
    prefix every error of the client's [try] block gets; when the model check
    answers [false], the error is the model-not-found one, again without a
    generate call. *)
Theorem liveness_failure_short_circuits env imagePath pr w :
  ((checkOllamaHealth env w).1 = Ok false →
   callGemma3Vision env imagePath pr w =
     (Throw (newError "Gemma3 analysis failed: Ollama server is not running. Please start Ollama with: ollama serve"),
      step EvGetTags w) ∧
   issued (callGemma3Vision env imagePath pr) w = [EvGetTags] ∧
   existsb isGenerate (issued (callGemma3Vision env imagePath pr) w) = false) ∧
  ((checkOllamaHealth env w).1 = Ok true →
   (checkModelAvailability env (GEMMA_MODEL env) (step EvGetTags w)).1 = Ok false →
   callGemma3Vision env imagePath pr w =
     (Throw (newError ("Gemma3 analysis failed: Model " +:+ GEMMA_MODEL env
                       +:+ " not found. Please install with: ollama pull "
                       +:+ GEMMA_MODEL env)),
      step EvGetTags (step EvGetTags w)) ∧
   issued (callGemma3Vision env imagePath pr) w = [EvGetTags; EvGetTags] ∧
   existsb isGenerate (issued (callGemma3Vision env imagePath pr) w) = false).
Proof.
  split.
  - intros H. pose proof (callGemma3Vision_unhealthy env imagePath pr w H) as E.
    assert (issued (callGemma3Vision env imagePath pr) w = [EvGetTags]) as Hi.
    { apply issued_grows. by rewrite E. }
    rewrite Hi. by rewrite E.
  - intros H Hm.
    pose proof (callGemma3Vision_model_missing env imagePath pr w H Hm) as E.
    assert (issued (callGemma3Vision env imagePath pr) w = [EvGetTags; EvGetTags]) as Hi.
    { apply issued_grows. rewrite E. simpl. by rewrite <- app_assoc. }
    rewrite Hi. by rewrite E.
Qed.

Lemma liveness_failure_witness :
  let down := Scenario.mkEnv Scenario.penv (inl Scenario.connRefused)
                Scenario.sharpOk (λ _, Scenario.answer "notes") in
  let other := Scenario.mkEnv Scenario.penv (Scenario.tagsOk ["llava:7b"])
                 Scenario.sharpOk (λ _, Scenario.answer "notes") in
  let w := Scenario.disk [("uploads/a.png", Scenario.png)] in
  ((callGemma3Vision down "uploads/a.png" None w).1 =
     Throw (newError "Gemma3 analysis failed: Ollama server is not running. Please start Ollama with: ollama serve") ∧
   issued (callGemma3Vision down "uploads/a.png" None) w = [EvGetTags]) ∧
  ((callGemma3Vision other "uploads/a.png" None w).1 =
     Throw (newError "Gemma3 analysis failed: Model gemma3:4b not found. Please install with: ollama pull gemma3:4b") ∧
   issued (callGemma3Vision other "uploads/a.png" None) w = [EvGetTags; EvGetTags]).
Proof.
  intros down other w. split.
  - destruct (liveness_failure_short_circuits down "uploads/a.png" None w) as [H _].
    destruct (H eq_refl) as (E & Hi & _). split; [by rewrite E | exact Hi].
  - destruct (liveness_failure_short_circuits other "uploads/a.png" None w) as [_ H].
    destruct (H eq_refl eq_refl) as (E & Hi & _). split; [by rewrite E | exact Hi].
Defined.

(** The mapping of the [catch] block once the generate call is issued: a
    connection-refused error of the transport gives the "Cannot connect to
    Ollama" message, one with code [ETIMEDOUT] the "Analysis timed out"
    message, a malformed or empty body the "Invalid response from Ollama"
    message, and any other transport error its own message behind "Gemma3
    analysis failed: ". *)
Lemma inference_error_mapping env imagePath pr w fp payload w4 :
  reachesGenerate env imagePath pr w fp payload w4 →
  (∀ e, (axiosPostGenerate env payload 120000 w4).1 = Throw e →
     (code e = Some "ECONNREFUSED" →
      (callGemma3Vision env imagePath pr w).1 =
        Throw (newError "Cannot connect to Ollama. Make sure Ollama is running on port 11434")) ∧
     (code e = Some "ETIMEDOUT" →
      (callGemma3Vision env imagePath pr w).1 =
        Throw (newError "Analysis timed out. Try with a smaller image or simpler prompt")) ∧
     (code e ≠ Some "ECONNREFUSED" → code e ≠ Some "ETIMEDOUT" →
      (callGemma3Vision env imagePath pr w).1 =
        Throw (newError ("Gemma3 analysis failed: " +:+ message e)))) ∧
  (∀ resp, (axiosPostGenerate env payload 120000 w4).1 = Ok resp → invalidBody resp →
     (callGemma3Vision env imagePath pr w).1 =
       Throw (newError "Gemma3 analysis failed: Invalid response from Ollama")).
Proof.
  intros Hreach. split.
  - intros e Hgen.
    rewrite (callGemma3Vision_post_fails env _ _ _ _ _ _ _ Hreach Hgen).
    unfold onInferenceError. repeat split.
    + intros ->. reflexivity.
    + intros ->. reflexivity.
    + intros H1 H2. by rewrite !bool_decide_eq_false_2.
  - intros resp Hgen Hbad.
    rewrite (callGemma3Vision_post_replies env _ _ _ _ _ _ _ Hreach Hgen).
    cbv zeta. destruct Hbad as [-> | (d & -> & Hd)]; [reflexivity|].
    destruct d as [r]. simpl in Hd. by destruct Hd as [-> | ->].
Qed.

(** When the 120000 ms of the request elapse, the error of axios does not
    carry the code the [catch] block tests for, and falls to its last
    branch. *)
Lemma inference_timeout_unrecognised env imagePath pr w fp payload w4 :
  reachesGenerate env imagePath pr w fp payload w4 →
  generateReply env (clock w4) payload = TimedOut →
  (callGemma3Vision env imagePath pr w).1 =
    Throw (newError "Gemma3 analysis failed: timeout of 120000ms exceeded").
Proof.
  intros Hreach Hgen.
  assert ((axiosPostGenerate env payload 120000 w4).1 = Throw (axiosTimeoutError 120000))
    as Hpost by (unfold axiosPostGenerate; by rewrite Hgen).
  by rewrite (callGemma3Vision_post_fails env _ _ _ _ _ _ _ Hreach Hpost).
Qed.

Lemma inference_error_mapping_examples :
  let w := Scenario.disk [("uploads/a.png", Scenario.png)] in
  let env := Scenario.mkEnv Scenario.penv (Scenario.tagsOk ["gemma3:4b"]) Scenario.sharpOk in
  (callGemma3Vision (env (λ _, Failed Scenario.connRefused)) "uploads/a.png" None w).1 =
    Throw (newError "Cannot connect to Ollama. Make sure Ollama is running on port 11434") ∧
  (callGemma3Vision (env (λ _, Failed Scenario.timedOut)) "uploads/a.png" None w).1 =
    Throw (newError "Analysis timed out. Try with a smaller image or simpler prompt") ∧
  (callGemma3Vision (env (λ _, Failed Scenario.socketHangUp)) "uploads/a.png" None w).1 =
    Throw (newError "Gemma3 analysis failed: socket hang up") ∧
  (callGemma3Vision (env (λ _, Scenario.emptyBody)) "uploads/a.png" None w).1 =
    Throw (newError "Gemma3 analysis failed: Invalid response from Ollama").
Proof.
  intros w env. split; [|split; [|split]].
  - edestruct (inference_error_mapping (env (λ _, Failed Scenario.connRefused))
                 "uploads/a.png" None w) as [Hfail _];
      [do 4 eexists; repeat split; reflexivity|].
    destruct (Hfail _ eq_refl) as (H & _ & _). exact (H eq_refl).
  - edestruct (inference_error_mapping (env (λ _, Failed Scenario.timedOut))
                 "uploads/a.png" None w) as [Hfail _];
      [do 4 eexists; repeat split; reflexivity|].
    destruct (Hfail _ eq_refl) as (_ & H & _). exact (H eq_refl).
  - edestruct (inference_error_mapping (env (λ _, Failed Scenario.socketHangUp))
                 "uploads/a.png" None w) as [Hfail _];
      [do 4 eexists; repeat split; reflexivity|].
    destruct (Hfail _ eq_refl) as (_ & _ & H). apply H; discriminate.
  - edestruct (inference_error_mapping (env (λ _, Scenario.emptyBody))
                 "uploads/a.png" None w) as [_ Hbody];
      [do 4 eexists; repeat split; reflexivity|].
    apply (Hbody _ eq_refl). by left.
Qed.

(** C6 (the code at the failing input): the generate call of a healthy
    backend does not answer within the 120000 ms the server allows.  axios
    rejects with code [ECONNABORTED]; the [catch] block, which tests for
    [ETIMEDOUT], reports the generic failure and not "Analysis timed out". *)
Theorem timeout_is_reported_as_generic_failure :
  let env := Scenario.mkEnv Scenario.penv (Scenario.tagsOk ["gemma3:4b"])
               Scenario.sharpOk (λ _, TimedOut) in
  let w := Scenario.disk [("uploads/a.png", Scenario.png)] in
  (callGemma3Vision env "uploads/a.png" None w).1 =
    Throw (newError "Gemma3 analysis failed: timeout of 120000ms exceeded") ∧
  (callGemma3Vision env "uploads/a.png" None w).1 ≠
    Throw (newError "Analysis timed out. Try with a smaller image or simpler prompt").
Proof. split; [reflexivity | discriminate]. Qed.

(** ** Preprocessing *)

Section Preprocessing.

Context (env : Env).

Lemma sharpToFile_fails input maxWidth output w e w' :
  sharpToFile env input maxWidth output w = (Throw e, w') →
  w' = step (EvSharp input output maxWidth) w.
Proof.
  unfold sharpToFile.
  destruct (files w !! input); [destruct (sharpReply env (clock w) _)|];
    intros H; by injection H.
Qed.

Lemma optimizeImage_fallback input output maxWidth w e w' :
  sharpToFile env input (default 1024 maxWidth) output w = (Throw e, w') →
  optimizeImage env input output maxWidth w = (Ok input, w').
Proof.
  intros H. unfold optimizeImage.
  erewrite tryCatch_throw; [reflexivity|]. by erewrite bind_throw.
Qed.

Lemma optimizeImage_total input output maxWidth w :
  ∃ p w', optimizeImage env input output maxWidth w = (Ok p, w').
Proof.
  unfold optimizeImage, tryCatch, bind.
  destruct (sharpToFile env input (default 1024 maxWidth) output w) as [[[]|e] w']; eauto.
Qed.

Lemma convertImageToBase64_reads p w bytes :
  readFault env (clock w) = None →
  files w !! p = Some bytes →
  convertImageToBase64 env p w = (Ok (Js.base64 bytes), step (EvReadFile p) w).
Proof.
  intros Hf Hp. unfold convertImageToBase64, tryCatch, bind, fsReadFile.
  by rewrite Hf, Hp.
Qed.

Lemma onInferenceError_world {A} e w : (@onInferenceError A e w).2 = w.
Proof. unfold onInferenceError. by repeat case_bool_decide. Qed.

End Preprocessing.

(** C5: [optimizeImage] never throws; when sharp fails it returns the source
    path and leaves the upload directory as it was, and the inference call is
    then issued with the bytes of the original image: the [images] field of
    the one generate call is the base64 text of the original file, and
    nothing else, under the configured model and the given prompt; a valid
    answer of the backend is the result, so the preprocessing failure never
    surfaces. *)
Theorem preprocessing_failure_is_recovered env :
  (∀ input output maxWidth w,
     ∃ p w', optimizeImage env input output maxWidth w = (Ok p, w')) ∧
  (∀ input output maxWidth w e w',
     sharpToFile env input (default 1024 maxWidth) output w = (Throw e, w') →
     optimizeImage env input output maxWidth w = (Ok input, w') ∧ files w' = files w) ∧
  (∀ imagePath pr w bytes e w3,
     let optimizedPath := imagePath +:+ "_optimized.jpg" in
     let w4 := step (EvReadFile imagePath) w3 in
     let payload := generatePayload env (default (DEFAULT_PROMPT) pr) (Js.base64 bytes) in
     (checkOllamaHealth env w).1 = Ok true →
     (checkModelAvailability env (GEMMA_MODEL env) (step EvGetTags w)).1 = Ok true →
     sharpToFile env imagePath 1024 optimizedPath (step EvGetTags (step EvGetTags w))
       = (Throw e, w3) →
     readFault env (clock w3) = None →
     files w !! imagePath = Some bytes →
     reachesGenerate env imagePath pr w imagePath payload w4 ∧
     (images payload = [Js.base64 bytes] ∧
      model payload = GEMMA_MODEL env ∧
      prompt payload = default (DEFAULT_PROMPT) pr) ∧
     List.filter isGenerate (issued (callGemma3Vision env imagePath pr) w)
       = [EvGenerate payload] ∧
     issued (callGemma3Vision env imagePath pr) w =
       [EvGetTags; EvGetTags; EvSharp imagePath optimizedPath 1024;
        EvReadFile imagePath; EvGenerate payload] ∧
     (∀ text,
        generateReply env (clock w4) payload
          = Replied {| gen_data := Some {| response := Some text |} |} →
        text ≠ "" →
        callGemma3Vision env imagePath pr w = (Ok text, step (EvGenerate payload) w4))).
Proof.
  split; [apply optimizeImage_total|]. split.
  - intros input output maxWidth w e w' H. split; [by eapply optimizeImage_fallback|].
    apply sharpToFile_fails in H. by subst w'.
  - intros imagePath pr w bytes e w3 optimizedPath w4 payload Hh Hm Hsharp Hread Hbytes.
    pose proof (checkOllamaHealth_eq env w) as E1.
    rewrite E1 in Hh. simpl in Hh. injection Hh as Hb. rewrite Hb in E1.
    destruct (checkModelAvailability_spec env (GEMMA_MODEL env) (step EvGetTags w))
      as (b & E2 & _).
    rewrite E2 in Hm. simpl in Hm. injection Hm as ->.
    pose proof (sharpToFile_fails env _ _ _ _ _ _ Hsharp) as Hw3.
    assert (Hreach : reachesGenerate env imagePath pr w imagePath payload w4).
    { exists (step EvGetTags w), (step EvGetTags (step EvGetTags w)), w3, (Js.base64 bytes).
      split; [done|]. split; [done|].
      split; [by apply (optimizeImage_fallback env imagePath optimizedPath None _ e)|].
      split; [|done].
      apply convertImageToBase64_reads; [done|]. by subst w3. }
    assert (Hsame : afterCopyCleanup env imagePath imagePath (step (EvGenerate payload) w4)
                    = step (EvGenerate payload) w4).
    { unfold afterCopyCleanup. by rewrite String.eqb_refl. }
    assert (Hissued : issued (callGemma3Vision env imagePath pr) w =
              [EvGetTags; EvGetTags; EvSharp imagePath optimizedPath 1024;
               EvReadFile imagePath; EvGenerate payload]); cycle 1.
    { split; [done|]. split; [done|]. split; [by rewrite Hissued|]. split; [done|].
      intros text Hgen Htext.
      assert ((axiosPostGenerate env payload 120000 w4).1
              = Ok {| gen_data := Some {| response := Some text |} |}) as Hpost
        by (unfold axiosPostGenerate; by rewrite Hgen).
      rewrite (callGemma3Vision_post_replies env _ _ _ _ _ _ _ Hreach Hpost).
      cbv zeta. rewrite Hsame. simpl.
      assert (Js.truthy text = true) as ->; [|done].
      unfold Js.truthy. apply negb_true_iff, String.eqb_neq. done. }
    { apply issued_grows.
      assert ((callGemma3Vision env imagePath pr w).2 = step (EvGenerate payload) w4) as ->.
      { destruct ((axiosPostGenerate env payload 120000 w4).1) as [resp|e'] eqn:Hgen.
        - rewrite (callGemma3Vision_post_replies env _ _ _ _ _ _ _ Hreach Hgen).
          cbv zeta. rewrite Hsame.
          destruct (gen_data resp) as [[[text|]]|];
            [destruct (Js.truthy text)|..]; try apply onInferenceError_world; done.
        - rewrite (callGemma3Vision_post_fails env _ _ _ _ _ _ _ Hreach Hgen).
          apply onInferenceError_world. }
      subst w4 w3. simpl. by rewrite <- !app_assoc. }
Qed.

Lemma preprocessing_failure_witness :
  let env := Scenario.mkEnv Scenario.penv (Scenario.tagsOk ["gemma3:4b"])
               Scenario.sharpFails (λ _, Scenario.answer "Two pages of lecture notes") in
  let w := Scenario.disk [("uploads/a.png", Scenario.png)] in
  let payload :=
    {| model := "gemma3:4b";
       prompt := "Analyze this image and provide a detailed summary";
       images := ["iVBORw=="];
       stream := false;
       options := {| temperature := "0.7"; top_p := "0.9"; max_tokens := 500 |} |} in
  Js.base64 Scenario.png = "iVBORw==" ∧
  List.filter isGenerate (issued (callGemma3Vision env "uploads/a.png" None) w)
    = [EvGenerate payload] ∧
  callGemma3Vision env "uploads/a.png" None w =
    (Ok "Two pages of lecture notes",
     {| files := files w; clock := 5;
        trace := [EvGetTags; EvGetTags;
                  EvSharp "uploads/a.png" "uploads/a.png_optimized.jpg" 1024;
                  EvReadFile "uploads/a.png";
                  EvGenerate payload] |}).
Proof.
  intros env w payload.
  destruct (preprocessing_failure_is_recovered env) as (_ & _ & H).
  edestruct (H "uploads/a.png" None w Scenario.png)
    as (_ & (Himages & _ & _) & Hcalls & _ & Hanswer);
    [reflexivity | reflexivity | reflexivity | reflexivity | reflexivity |].
  split; [reflexivity|]. split.
  - rewrite Hcalls. reflexivity.
  - rewrite (Hanswer "Two pages of lecture notes" eq_refl); [reflexivity | discriminate].
Defined.

(** ** The batch loop *)

Section Batch.

Context (env : Env).

Lemma batchItem_eq file pr results w :
  batchItem env file pr results w =
    match callGemma3Vision env (path file) (Some pr) (tick w) with
    | (Ok summary, w1) =>
        (Ok (results ++ [OutcomeSuccess (originalname file) summary
                           (dateNow env (clock w1) - dateNow env (clock w)) (size file)]),
         (cleanupFile env (path file) (tick w1)).2)
    | (Throw e, w1) =>
        (Ok (results ++ [failureOf file e]), (cleanupFile env (path file) w1).2)
    end.
Proof.
  unfold batchItem, tryFinally, tryCatch, bind, DateNow, ret.
  destruct (callGemma3Vision env (path file) (Some pr) (tick w)) as [[summary|e] w1];
    by rewrite cleanupFile_eq.
Qed.

Lemma emits_batchItem file pr results :
  emits (carriesPrompt pr) (batchItem env file pr results).
Proof.
  unfold batchItem. apply emits_tryFinally; [|apply emits_cleanupFile].
  apply emits_tryCatch; [|intros; emits_step].
  apply emits_bind; [emits_step | intros ?].
  apply emits_bind; [apply (emits_callGemma3Vision env _ (Some pr)) | intros ?].
  repeat emits_step.
Qed.

Lemma emits_batchLoop uploadedFiles pr results :
  emits (carriesPrompt pr) (batchLoop env uploadedFiles pr results).
Proof.
  revert results. induction uploadedFiles as [|file rest IH]; intros results; simpl.
  - apply emits_ret.
  - apply emits_bind; [apply emits_batchItem | intros ?; apply IH].
Qed.

(** The loop never throws: it appends one outcome per file, in order. *)
Lemma batchLoop_total uploadedFiles pr results w :
  ∃ out w',
    batchLoop env uploadedFiles pr results w = (Ok (results ++ out), w') ∧
    filename <$> out = originalname <$> uploadedFiles.
Proof.
  revert results w. induction uploadedFiles as [|file rest IH]; intros results w; simpl.
  - exists [], w. by rewrite app_nil_r.
  - unfold bind. rewrite batchItem_eq.
    destruct (callGemma3Vision env (path file) (Some pr) (tick w)) as [[summary|e] w1].
    + destruct (IH (results ++ [OutcomeSuccess (originalname file) summary
                      (dateNow env (clock w1) - dateNow env (clock w)) (size file)])
                   (cleanupFile env (path file) (tick w1)).2) as (out & w' & Heq & Hnames).
      eexists (_ :: out), w'. rewrite Heq, <- app_assoc. split; [done|].
      by rewrite !fmap_cons, Hnames.
    + destruct (IH (results ++ [failureOf file e])
                   (cleanupFile env (path file) w1).2) as (out & w' & Heq & Hnames).
      eexists (_ :: out), w'. rewrite Heq, <- app_assoc. split; [done|].
      by rewrite !fmap_cons, Hnames.
Qed.

Lemma runBatch_eq uploadedFiles bodyPrompt w :
  ∃ results w1,
    batchLoop env uploadedFiles (orElse bodyPrompt (DEFAULT_PROMPT)) [] w = (Ok results, w1) ∧
    filename <$> results = originalname <$> uploadedFiles ∧
    runBatch env uploadedFiles bodyPrompt w
      = resJson env 200
          (BodyBatch true results (Z.of_nat (length uploadedFiles)) (successCount results)
             (Z.of_nat (length uploadedFiles) - successCount results)) w1.
Proof.
  destruct (batchLoop_total uploadedFiles (orElse bodyPrompt (DEFAULT_PROMPT)) [] w)
    as (results & w1 & Heq & Hnames).
  simpl in Heq. exists results, w1. split; [done|]. split; [done|].
  unfold runBatch. by erewrite bind_ok by exact Heq.
Qed.

(** A non-empty batch passes the guard of the handler. *)
Lemma batchAnalyzeHandler_nonempty uploadedFiles bodyPrompt w :
  uploadedFiles ≠ [] →
  batchAnalyzeHandler env (Some uploadedFiles) bodyPrompt w
    = tryCatch (runBatch env uploadedFiles bodyPrompt)
        (λ error,
           let* _ := forEach (λ file, cleanupFile env (path file)) uploadedFiles in
           resJson env 500 (BodyError (message error))) w.
Proof.
  intros Hne. unfold batchAnalyzeHandler. simpl default.
  by destruct uploadedFiles.
Qed.

Lemma successCount_failed results :
  Z.of_nat (length results) - successCount results
  = Z.of_nat (length (List.filter (λ r, negb (success r)) results)).
Proof.
  unfold successCount.
  pose proof (List.filter_length success results) as H. lia.
Qed.

End Batch.

(** C3: for every list of N uploaded files the batch loop finishes with
    exactly N outcomes, the i-th for the i-th file, and the response built
    from them reports [total = N] and [successful + failed = N], [failed]
    being the number of failed outcomes; for a non-empty list that response
    is what [POST /batch-analyze] sends. *)
Theorem batch_outcomes_match_submission env uploadedFiles bodyPrompt w :
  ∃ results w1,
    batchLoop env uploadedFiles (orElse bodyPrompt (DEFAULT_PROMPT)) [] w = (Ok results, w1) ∧
    length results = length uploadedFiles ∧
    filename <$> results = originalname <$> uploadedFiles ∧
    let total := Z.of_nat (length uploadedFiles) in
    let successful := successCount results in
    let failed := total - successful in
    let response :=
      {| status := 200; body := BodyBatch true results total successful failed |} in
    runBatch env uploadedFiles bodyPrompt w = resJson env 200 (body response) w1 ∧
    total = Z.of_nat (length results) ∧
    successful + failed = total ∧
    failed = Z.of_nat (length (List.filter (λ r, negb (success r)) results)) ∧
    (uploadedFiles ≠ [] → sendFault env (clock w1) = None →
     batchAnalyzeHandler env (Some uploadedFiles) bodyPrompt w
       = (Ok response, step (EvSend response) w1)).
Proof.
  destruct (runBatch_eq env uploadedFiles bodyPrompt w)
    as (results & w1 & Heq & Hnames & Hrun).
  exists results, w1.
  assert (length results = length uploadedFiles) as Hlen.
  { by rewrite <- (length_fmap filename), Hnames, length_fmap. }
  split; [done|]. split; [done|]. split; [done|]. cbv zeta.
  split; [done|]. split; [by rewrite Hlen|]. split; [lia|]. split.
  - rewrite <- Hlen. apply successCount_failed.
  - intros Hne Hsend. rewrite batchAnalyzeHandler_nonempty by done.
    erewrite tryCatch_ok; [reflexivity|].
    rewrite Hrun. unfold resJson. by rewrite Hsend.
Qed.

Lemma batch_outcomes_witness :
  let files := [Scenario.upload "uploads/1.png" "page1.png";
                {| path := "uploads/2.png"; originalname := "huge.png"; size := 6 |};
                Scenario.upload "uploads/3.png" "page3.png"] in
  (batchAnalyzeHandler Scenario.batchEnv (Some files) (Some "Summarise") Scenario.batchDisk).1 =
    Ok {| status := 200;
          body := BodyBatch true
                    [OutcomeSuccess "page1.png" "Handwritten lecture notes" 1750 4;
                     OutcomeFailure "huge.png"
                       "Gemma3 analysis failed: timeout of 120000ms exceeded";
                     OutcomeSuccess "page3.png" "Handwritten lecture notes" 1750 4]
                    3 2 1 |}.
Proof.
  intros files.
  destruct (batch_outcomes_match_submission Scenario.batchEnv files (Some "Summarise")
              Scenario.batchDisk)
    as (results & w1 & Heq & _ & _ & _ & _ & _ & _ & Hsent).
  rewrite (Hsent ltac:(discriminate) eq_refl). simpl.
  assert (Hc : (batchLoop Scenario.batchEnv files
                  (orElse (Some "Summarise") (DEFAULT_PROMPT)) [] Scenario.batchDisk).1
               = Ok [OutcomeSuccess "page1.png" "Handwritten lecture notes" 1750 4;
                     OutcomeFailure "huge.png"
                       "Gemma3 analysis failed: timeout of 120000ms exceeded";
                     OutcomeSuccess "page3.png" "Handwritten lecture notes" 1750 4])
    by reflexivity.
  rewrite Heq in Hc. simpl in Hc. injection Hc as ->. reflexivity.
Defined.

(** C4 (the code at the failing input): a batch of three uploads whose
    second item fails (sharp writes its optimized copy, the generate call
    times out).  The failure is isolated: the item is recorded as failed with
    the error's message, the third item is still analysed, and the upload of
    the failed item is unlinked.  But the item's artifact is not released:
    its optimized copy is still in the upload directory when the batch
    ends, and no unlink was ever issued for it, while the copies of the two
    successful items were unlinked. *)
Theorem failed_batch_item_leaves_its_optimized_copy :
  let slow := {| path := "uploads/2.png"; originalname := "huge.png"; size := 6 |} in
  let uploadedFiles := [Scenario.upload "uploads/1.png" "page1.png"; slow;
                        Scenario.upload "uploads/3.png" "page3.png"] in
  let r := batchAnalyzeHandler Scenario.batchEnv (Some uploadedFiles) (Some "Summarise")
             Scenario.batchDisk in
  r.1 = Ok {| status := 200;
              body := BodyBatch true
                        [OutcomeSuccess "page1.png" "Handwritten lecture notes" 1750 4;
                         OutcomeFailure "huge.png"
                           "Gemma3 analysis failed: timeout of 120000ms exceeded";
                         OutcomeSuccess "page3.png" "Handwritten lecture notes" 1750 4]
                        3 2 1 |} ∧
  files r.2 !! "uploads/2.png" = None ∧
  files r.2 !! "uploads/2.png_optimized.jpg" = Some (Scenario.jpeg ++ Scenario.hugePng) ∧
  files r.2 !! "uploads/1.png_optimized.jpg" = None ∧
  files r.2 !! "uploads/3.png_optimized.jpg" = None ∧
  EvUnlink "uploads/2.png" ∈ trace r.2 ∧
  EvUnlink "uploads/1.png_optimized.jpg" ∈ trace r.2 ∧
  EvUnlink "uploads/3.png_optimized.jpg" ∈ trace r.2 ∧
  EvUnlink "uploads/2.png_optimized.jpg" ∉ trace r.2.
Proof.
  repeat split; try (apply list_elem_of_In; vm_compute; tauto).
  intros H%list_elem_of_In. vm_compute in H.
  repeat (destruct H as [H|H]; [discriminate|]). done.
Qed.

(** X25: failure isolation in the batch loop.  An error thrown while one
    item is analysed becomes that item's failed outcome, carrying the
    error's message; the loop goes on with the remaining items and never
    throws; the item's upload (the staged file, not its optimized copy) is
    unlinked right after the item's own calls, before any call for a later
    item. *)
Theorem batch_failure_is_isolated env file rest pr results w e w1 :
  callGemma3Vision env (path file) (Some pr) (tick w) = (Throw e, w1) →
  let w2 := (cleanupFile env (path file) w1).2 in
  batchItem env file pr results w
    = (Ok (results ++ [OutcomeFailure (originalname file) (message e)]), w2) ∧
  trace w2 = trace w1 ++ [EvUnlink (path file)] ∧
  (unlinkFault env (clock w1) = None → files w2 !! path file = None) ∧
  batchLoop env (file :: rest) pr results w
    = batchLoop env rest pr (results ++ [OutcomeFailure (originalname file) (message e)]) w2 ∧
  ∃ out w' later,
    batchLoop env (file :: rest) pr results w
      = (Ok (results ++ OutcomeFailure (originalname file) (message e) :: out), w') ∧
    filename <$> out = originalname <$> rest ∧
    trace w' = trace w1 ++ EvUnlink (path file) :: later.
Proof.
  intros Hcall w2.
  assert (Hitem : batchItem env file pr results w
                  = (Ok (results ++ [OutcomeFailure (originalname file) (message e)]), w2)).
  { by rewrite batchItem_eq, Hcall. }
  assert (Hloop : batchLoop env (file :: rest) pr results w
                  = batchLoop env rest pr
                      (results ++ [OutcomeFailure (originalname file) (message e)]) w2).
  { simpl. by erewrite bind_ok by exact Hitem. }
  split; [done|]. split; [by subst w2; rewrite cleanupFile_eq|].
  split; [|split; [done|]].
  - intros Hno. subst w2. rewrite cleanupFile_eq, Hno. simpl. apply lookup_delete_eq.
  - destruct (batchLoop_total env rest pr
                (results ++ [OutcomeFailure (originalname file) (message e)]) w2)
      as (out & w' & Heq & Hnames).
    destruct (emits_batchLoop env rest pr
                (results ++ [OutcomeFailure (originalname file) (message e)]) w2)
      as (later & Htrace & _).
    rewrite Heq in Htrace. simpl in Htrace.
    exists out, w', later. rewrite Hloop, Heq, <- app_assoc. split; [done|].
    split; [done|]. rewrite Htrace. subst w2. rewrite cleanupFile_eq. simpl.
    by rewrite <- app_assoc.
Qed.

(** C10: for a non-empty batch the handler answers 200 with [success: true]
    whenever sending the response succeeds, whatever the per-item outcomes
    are; a 500 answer can only come from a failure of that send, outside the
    loop. *)
Theorem batch_response_is_success env uploadedFiles bodyPrompt w :
  uploadedFiles ≠ [] →
  ∃ results w1,
    batchLoop env uploadedFiles (orElse bodyPrompt (DEFAULT_PROMPT)) [] w = (Ok results, w1) ∧
    let total := Z.of_nat (length uploadedFiles) in
    let response :=
      {| status := 200;
         body := BodyBatch true results total (successCount results)
                   (total - successCount results) |} in
    (sendFault env (clock w1) = None →
     batchAnalyzeHandler env (Some uploadedFiles) bodyPrompt w
       = (Ok response, step (EvSend response) w1)) ∧
    (∀ resp w',
       batchAnalyzeHandler env (Some uploadedFiles) bodyPrompt w = (Ok resp, w') →
       resp ≠ response →
       ∃ e, sendFault env (clock w1) = Some e ∧
            resp = {| status := 500; body := BodyError (message e) |}).
Proof.
  intros Hne.
  destruct (runBatch_eq env uploadedFiles bodyPrompt w)
    as (results & w1 & Heq & _ & Hrun).
  exists results, w1. split; [done|]. cbv zeta.
  rewrite batchAnalyzeHandler_nonempty by done. split.
  - intros Hsend. erewrite tryCatch_ok; [reflexivity|].
    rewrite Hrun. unfold resJson. by rewrite Hsend.
  - intros resp w'. unfold tryCatch at 1. rewrite Hrun. unfold resJson at 1.
    destruct (sendFault env (clock w1)) as [e|] eqn:Hsend.
    + intros Hcatch _. exists e. split; [done|].
      unfold bind in Hcatch.
      destruct (forEach _ uploadedFiles (tick w1)) as [[[]|e'] w3]; [|done].
      unfold resJson in Hcatch.
      destruct (sendFault env (clock w3)); [done|]. by injection Hcatch as <- _.
    + intros Hok Hresp. by injection Hok as <- _.
Qed.

Lemma batch_failure_witness :
  let slow := {| path := "uploads/2.png"; originalname := "huge.png"; size := 6 |} in
  let next := Scenario.upload "uploads/3.png" "page3.png" in
  let r := batchLoop Scenario.batchEnv [slow; next] "Summarise" [] Scenario.batchDisk in
  r.1 = Ok [OutcomeFailure "huge.png"
              "Gemma3 analysis failed: timeout of 120000ms exceeded";
            OutcomeSuccess "page3.png" "Handwritten lecture notes" 1750 4] ∧
  files r.2 !! "uploads/2.png" = None ∧
  files r.2 !! "uploads/3.png" = None.
Proof.
  intros slow next r.
  edestruct (batch_failure_is_isolated Scenario.batchEnv slow [next] "Summarise" []
               Scenario.batchDisk) as (_ & _ & _ & Hloop & _); [reflexivity|].
  subst r. rewrite Hloop. repeat split.
Defined.

Lemma batch_response_witness :
  let files := [Scenario.upload "uploads/1.png" "page1.png";
                Scenario.upload "uploads/3.png" "page3.png"] in
  let failure := "Gemma3 analysis failed: Ollama server is not running. Please start Ollama with: ollama serve" in
  (batchAnalyzeHandler Scenario.backendDown (Some files) None Scenario.batchDisk).1 =
    Ok {| status := 200;
          body := BodyBatch true [OutcomeFailure "page1.png" failure;
                                  OutcomeFailure "page3.png" failure] 2 0 2 |}.
Proof.
  intros files failure.
  destruct (batch_response_is_success Scenario.backendDown files None Scenario.batchDisk)
    as (results & w1 & Heq & Hok & _); [discriminate|].
  rewrite (Hok eq_refl). simpl.
  assert (Hc : (batchLoop Scenario.backendDown files
                  (orElse None (DEFAULT_PROMPT)) [] Scenario.batchDisk).1
               = Ok [OutcomeFailure "page1.png" failure; OutcomeFailure "page3.png" failure])
    by reflexivity.
  rewrite Heq in Hc. simpl in Hc. injection Hc as ->. reflexivity.
Defined.

(** ** The prompt *)

Lemma issued_carries {A} P (m : M A) w ev : emits P m → ev ∈ issued m w → P ev.
Proof.
  intros Hm Hin. destruct (Hm w) as (evs & Ht & F).
  rewrite (issued_grows _ _ _ Ht) in Hin.
  rewrite Forall_forall in F. by apply F.
Qed.

Lemma emits_analyzeImageHandler env reqFile bodyPrompt :
  emits (carriesPrompt (orElse bodyPrompt (DEFAULT_PROMPT)))
        (analyzeImageHandler env reqFile bodyPrompt).
Proof.
  unfold analyzeImageHandler. apply emits_tryFinally.
  - apply emits_tryCatch; [|intros; emits_step].
    destruct reqFile as [file|]; [|emits_step].
    apply emits_bind; [emits_step | intros ?].
    apply emits_bind; [apply (emits_callGemma3Vision env _ (Some _)) | intros ?].
    repeat emits_step.
  - destruct reqFile as [file|]; [|emits_step].
    destruct (Js.truthy (path file)); [apply emits_cleanupFile | emits_step].
Qed.

Lemma emits_batchAnalyzeHandler env reqFiles bodyPrompt :
  emits (carriesPrompt (orElse bodyPrompt (DEFAULT_PROMPT)))
        (batchAnalyzeHandler env reqFiles bodyPrompt).
Proof.
  unfold batchAnalyzeHandler. apply emits_tryCatch.
  - emits_step; [emits_step|]. unfold runBatch.
    apply emits_bind; [apply emits_batchLoop | intros ?]. emits_step.
  - intros e. apply emits_bind; [|intros ?; emits_step].
    apply emits_forEach. intros file. apply emits_cleanupFile.
Qed.

(** C9 (as stated, refuted): a prompt of one space is blank, yet the
    generate call carries it instead of the default prompt. *)
Lemma blank_prompt_is_forwarded :
  let env := Scenario.mkEnv Scenario.penv (Scenario.tagsOk ["gemma3:4b"])
               Scenario.sharpCopy (λ _, Scenario.answer "notes") in
  let w := Scenario.disk [("uploads/a.png", Scenario.png)] in
  let file := Scenario.upload "uploads/a.png" "a.png" in
  let payload := generatePayload env " " (Js.base64 (Scenario.jpeg ++ Scenario.png)) in
  isBlank " " = true ∧
  EvGenerate payload ∈ issued (analyzeImageHandler env (Some file) (Some " ")) w ∧
  EvGenerate payload ∈ issued (batchAnalyzeHandler env (Some [file]) (Some " ")) w ∧
  prompt payload ≠ DEFAULT_PROMPT.
Proof.
  split; [reflexivity|]. split; [|split; [|discriminate]].
  - apply list_elem_of_In. vm_compute. tauto.
  - apply list_elem_of_In. vm_compute. tauto.
Qed.

(** C9 (amended): when the prompt field is absent or the empty string, every
    generate call of the single-image handler and of the batch handler
    carries the fixed default prompt. *)
Theorem default_prompt_when_absent_or_empty env bodyPrompt :
  bodyPrompt = None ∨ bodyPrompt = Some "" →
  orElse bodyPrompt (DEFAULT_PROMPT)
    = "Analyze this image and provide a detailed summary" ∧
  (∀ reqFile w payload,
     EvGenerate payload ∈ issued (analyzeImageHandler env reqFile bodyPrompt) w →
     prompt payload = DEFAULT_PROMPT) ∧
  (∀ reqFiles w payload,
     EvGenerate payload ∈ issued (batchAnalyzeHandler env reqFiles bodyPrompt) w →
     prompt payload = DEFAULT_PROMPT).
Proof.
  intros H.
  assert (orElse bodyPrompt (DEFAULT_PROMPT) = DEFAULT_PROMPT) as Hd
    by (by destruct H as [-> | ->]).
  split; [done|]. split.
  - intros reqFile w payload Hin.
    pose proof (emits_analyzeImageHandler env reqFile bodyPrompt) as He.
    rewrite Hd in He. apply (issued_carries _ _ _ _ He Hin).
  - intros reqFiles w payload Hin.
    pose proof (emits_batchAnalyzeHandler env reqFiles bodyPrompt) as He.
    rewrite Hd in He. apply (issued_carries _ _ _ _ He Hin).
Qed.

Lemma default_prompt_witness :
  let env := Scenario.mkEnv Scenario.penv (Scenario.tagsOk ["gemma3:4b"])
               Scenario.sharpCopy (λ _, Scenario.answer "notes") in
  let w := Scenario.disk [("uploads/a.png", Scenario.png)] in
  let file := Scenario.upload "uploads/a.png" "a.png" in
  let payload :=
    {| model := "gemma3:4b";
       prompt := "Analyze this image and provide a detailed summary";
       images := [Js.base64 (Scenario.jpeg ++ Scenario.png)];
       stream := false;
       options := {| temperature := "0.7"; top_p := "0.9"; max_tokens := 500 |} |} in
  EvGenerate payload ∈ issued (analyzeImageHandler env (Some file) (Some "")) w ∧
  prompt payload = DEFAULT_PROMPT.
Proof.
  intros env w file payload.
  assert (EvGenerate payload ∈ issued (analyzeImageHandler env (Some file) (Some "")) w) as Hin.
  { apply list_elem_of_In. vm_compute. tauto. }
  split; [exact Hin|].
  destruct (default_prompt_when_absent_or_empty env (Some "") (or_intror eq_refl))
    as (_ & Hsingle & _).
  exact (Hsingle (Some file) w payload Hin).
Defined.

(** ** Upload ingestion *)

Section Upload.

Context (env : Env).

(** Removing what a request has staged never throws, only unlinks, and
    creates no file. *)
Lemma forEach_storageRemoveFile staged w :
  ∃ w',
    forEach (storageRemoveFile env) staged w = (Ok tt, w') ∧
    trace w' = trace w ++ ((λ f, EvUnlink (path f)) <$> staged) ∧
    ∀ q b, files w' !! q = Some b → files w !! q = Some b.
Proof.
  revert w. induction staged as [|f staged IH]; intros w; simpl.
  - exists w. by rewrite app_nil_r.
  - unfold bind, storageRemoveFile.
    change (tryCatch (fsUnlink env (path f)) (λ _, ret tt)) with (cleanupFile env (path f)).
    rewrite cleanupFile_eq.
    destruct (IH (setFiles (match unlinkFault env (clock w) with
                            | Some _ => files w
                            | None => delete (path f) (files w)
                            end) (step (EvUnlink (path f)) w)))
      as (w' & Heq & Htrace & Hfiles).
    exists w'. split; [done|]. split.
    + rewrite Htrace. simpl. by rewrite <- app_assoc.
    + intros q b Hq. apply Hfiles in Hq. simpl in Hq.
      destruct (unlinkFault env (clock w)); [done|].
      apply lookup_delete_Some in Hq. tauto.
Qed.

Lemma multerAbort_eq {A} staged e w :
  @multerAbort env A staged e w = (Throw e, (forEach (storageRemoveFile env) staged w).2).
Proof.
  unfold multerAbort, bind.
  destruct (forEach_storageRemoveFile staged w) as (w' & -> & _). done.
Qed.

Lemma storageHandleFile_ok originalname written w :
  ∃ file w', storageHandleFile env originalname written w = (Ok file, w').
Proof. unfold storageHandleFile, bind, storageFilename. eauto. Qed.

Lemma forEach_snoc {A} (f : A → M unit) l x w w2 :
  forEach f l w = (Ok tt, w2) → forEach f (l ++ [x]) w = f x w2.
Proof.
  revert w. induction l as [|y l IH]; intros w; simpl.
  - unfold ret, bind. intros [= <-]. by destruct (f x w) as [[[]|?] ?].
  - unfold bind. destruct (f y w) as [[[]|?] w1]; [apply IH | done].
Qed.

(** Once the parts [pre] have been accepted, multer goes on with the rest of
    the request. *)
Lemma multerUpload_app maxCount pre rest staged w st w' :
  multerUpload env maxCount pre staged w = (Ok st, w') →
  multerUpload env maxCount (pre ++ rest) staged w
    = multerUpload env (maxCount - length pre) rest st w'.
Proof.
  revert maxCount staged w.
  induction pre as [|part pre IH]; intros maxCount staged w; simpl.
  - unfold ret. intros [= -> ->]. by rewrite Nat.sub_0_r.
  - destruct maxCount as [|n]; [by rewrite multerAbort_eq|].
    destruct (fileFilter (part_originalname part)); [|by rewrite multerAbort_eq].
    destruct ((0 <? MAX_FILE_SIZE env) && (MAX_FILE_SIZE env <=? _))%bool.
    + unfold bind at 1.
      destruct (storageHandleFile env _ _ w) as [[file|e] w1]; [|done].
      by rewrite multerAbort_eq.
    + unfold bind at 1 2.
      destruct (storageHandleFile env _ _ w) as [[file|e] w1]; [|done].
      apply IH.
Qed.

End Upload.

(** C7 (as stated, refuted): a temporary file is created for a rejected
    oversize file.  With a limit of 4 bytes, a 6-byte upload with an allowed
    extension is answered 400 "File too large", but not before an artifact
    is staged: the storage engine has written the first 4 bytes to a file of
    the upload directory, which multer then unlinks. *)
Lemma oversize_upload_is_staged_before_it_is_rejected :
  let penv := {| env_UPLOAD_DIR := None; env_MAX_FILE_SIZE := Some 4;
                 env_GEMMA_MODEL := None; env_NODE_ENV := None |} in
  let env := Scenario.mkEnv penv (Scenario.tagsOk ["gemma3:4b"])
               Scenario.sharpCopy (λ _, Scenario.answer "notes") in
  let part := {| part_originalname := "Scan.PNG"; part_bytes := Scenario.hugePng |} in
  let w := Scenario.disk [] in
  let response :=
    {| status := 400;
       body := BodyError "File too large. Maximum size is 0.000003814697265625MB" |} in
  let p := "./uploads/5f0c1d2e-7a3b-4c4d-8e9f-000000000000.PNG" in
  MAX_FILE_SIZE env < Z.of_nat (length (part_bytes part)) ∧
  fileFilter (part_originalname part) = Ok true ∧
  (postAnalyzeImage env [part] None w).1 = Ok response ∧
  trace (postAnalyzeImage env [part] None w).2
    = [EvWriteFile p; EvUnlink p; EvSend response] ∧
  files (storageHandleFile env (part_originalname part)
           (take (Z.to_nat (MAX_FILE_SIZE env)) (part_bytes part)) w).2 !! p
    = Some (take 4 Scenario.hugePng).
Proof. repeat split. Qed.

(** C7 (amended): a file with an allowed extension whose size exceeds the
    configured maximum (a positive number of bytes, 16 MiB unless
    configured) makes multer give up with [LIMIT_FILE_SIZE]: the file it had
    begun to write is unlinked together with what the request had staged
    before, so that no file is left for it (unless that unlink fails), the
    handler does not run and the answer is 400 "File too large"; a file with
    a disallowed extension is turned away by the file filter without ever
    being written. *)
Theorem oversize_upload_is_rejected env maxCount pre part rest st w w'
    (handler : list UploadedFile → M Response) :
  multerUpload env maxCount pre [] w = (Ok st, w') →
  (length pre < maxCount)%nat →
  let upload := multerUpload env maxCount (pre ++ part :: rest) [] in
  (fileFilter (part_originalname part) = Ok true →
   0 < MAX_FILE_SIZE env →
   MAX_FILE_SIZE env < Z.of_nat (length (part_bytes part)) →
   ∃ file w1 w2 w3,
     storageHandleFile env (part_originalname part)
       (take (Z.to_nat (MAX_FILE_SIZE env)) (part_bytes part)) w' = (Ok file, w1) ∧
     forEach (storageRemoveFile env) st w1 = (Ok tt, w2) ∧
     cleanupFile env (path file) w2 = (Ok tt, w3) ∧
     upload w = (Throw (multerError "LIMIT_FILE_SIZE" "File too large"), w3) ∧
     route env upload handler w
       = resJson env 400
           (BodyError ("File too large. Maximum size is "
                       +:+ showMegabytes env (MAX_FILE_SIZE env) +:+ "MB")) w3 ∧
     (unlinkFault env (clock w2) = None → files w3 !! path file = None)) ∧
  (∀ e, fileFilter (part_originalname part) = Throw e →
     let w'' := (forEach (storageRemoveFile env) st w').2 in
     upload w = (Throw e, w'') ∧
     route env upload handler w = errorMiddleware env e w'' ∧
     trace w'' = trace w' ++ ((λ f, EvUnlink (path f)) <$> st) ∧
     (∀ q b, files w'' !! q = Some b → files w' !! q = Some b)) ∧
  (env_MAX_FILE_SIZE (processEnv env) = None → MAX_FILE_SIZE env = 16 * 1024 * 1024).
Proof.
  intros Hpre Hcount upload.
  assert (Hstep : upload w = multerUpload env (maxCount - length pre) (part :: rest) st w').
  { unfold upload. by apply multerUpload_app. }
  destruct (maxCount - length pre)%nat as [|n] eqn:Hn; [lia|].
  simpl in Hstep.
  split; [|split].
  - intros Hfilter Hpos Hsize.
    destruct (storageHandleFile_ok env (part_originalname part)
                (take (Z.to_nat (MAX_FILE_SIZE env)) (part_bytes part)) w')
      as (file & w1 & Hwrite).
    destruct (forEach_storageRemoveFile env st w1) as (w2 & Hrm & _ & _).
    exists file, w1, w2, (cleanupFile env (path file) w2).2.
    assert (Hclean : cleanupFile env (path file) w2
                     = (Ok tt, (cleanupFile env (path file) w2).2))
      by (by rewrite cleanupFile_eq).
    assert (upload w = (Throw (multerError "LIMIT_FILE_SIZE" "File too large"),
                        (cleanupFile env (path file) w2).2)) as Hup.
    { rewrite Hstep, Hfilter.
      assert (((0 <? MAX_FILE_SIZE env) &&
               (MAX_FILE_SIZE env <=? Z.of_nat (length (part_bytes part))))%bool = true)
        as -> by (apply andb_true_iff; split; [apply Z.ltb_lt | apply Z.leb_le]; lia).
      erewrite bind_ok by exact Hwrite. rewrite multerAbort_eq.
      rewrite (forEach_snoc _ _ _ _ _ Hrm). done. }
    split; [done|]. split; [done|]. split; [done|]. split; [done|]. split.
    + unfold route. by rewrite Hup.
    + intros Hno. rewrite cleanupFile_eq, Hno. apply lookup_delete_eq.
  - intros e Hfilter w''.
    destruct (forEach_storageRemoveFile env st w') as (w3 & Hrm & Htrace & Hfiles).
    assert (w'' = w3) as -> by (by unfold w''; rewrite Hrm).
    assert (upload w = (Throw e, w3)) as Hup.
    { rewrite Hstep, Hfilter, multerAbort_eq. by rewrite Hrm. }
    split; [done|]. split; [|done]. unfold route. by rewrite Hup.
  - unfold MAX_FILE_SIZE. by intros ->.
Qed.

Lemma oversize_upload_witness :
  let penv := {| env_UPLOAD_DIR := None; env_MAX_FILE_SIZE := Some 4;
                 env_GEMMA_MODEL := None; env_NODE_ENV := None |} in
  let env := Scenario.mkEnv penv (Scenario.tagsOk ["gemma3:4b"])
               Scenario.sharpCopy (λ _, Scenario.answer "notes") in
  let part := {| part_originalname := "Scan.PNG"; part_bytes := Scenario.hugePng |} in
  let w := Scenario.disk [] in
  let response :=
    {| status := 400;
       body := BodyError "File too large. Maximum size is 0.000003814697265625MB" |} in
  let p := "./uploads/5f0c1d2e-7a3b-4c4d-8e9f-000000000000.PNG" in
  postAnalyzeImage env [part] None w =
    (Ok response,
     {| files := ∅; clock := 4; trace := [EvWriteFile p; EvUnlink p; EvSend response] |}).
Proof.
  intros penv env part w response p.
  edestruct (oversize_upload_is_rejected env 1 [] part [] [] w w
               (λ fs, analyzeImageHandler env (head fs) None))
    as ((file & w1 & w2 & w3 & Hwrite & Hrm & Hclean & _ & Hroute & _) & _);
    [reflexivity | simpl; lia | reflexivity | reflexivity | reflexivity |].
  unfold postAnalyzeImage. simpl app in Hroute. rewrite Hroute.
  injection Hwrite as <- <-. injection Hrm as <-. injection Hclean as <-.
  reflexivity.
Defined.

(** ** Cleanup *)

Section Cleanup.

Context (env : Env).

Lemma convertImageToBase64_ok p w s w' :
  convertImageToBase64 env p w = (Ok s, w') →
  w' = step (EvReadFile p) w ∧ is_Some (files w !! p).
Proof.
  unfold convertImageToBase64, tryCatch, bind, fsReadFile, throw, ret.
  destruct (readFault env (clock w)); [done|].
  destruct (files w !! p); [|done]. intros [= _ <-]. eauto.
Qed.

(** The single-image handler always ends by unlinking the upload. *)
Lemma upload_is_unlinked file bodyPrompt w :
  Js.truthy (path file) = true →
  ∃ w1,
    (analyzeImageHandler env (Some file) bodyPrompt w).2
      = (cleanupFile env (path file) w1).2 ∧
    trace (analyzeImageHandler env (Some file) bodyPrompt w).2
      = trace w1 ++ [EvUnlink (path file)] ∧
    (unlinkFault env (clock w1) = None →
     files (analyzeImageHandler env (Some file) bodyPrompt w).2 !! path file = None).
Proof.
  intros Hpath. unfold analyzeImageHandler, tryFinally. rewrite Hpath.
  destruct (tryCatch _ _ w) as [r w1].
  exists w1. rewrite cleanupFile_eq. simpl. split; [done|]. split; [done|].
  intros ->. apply lookup_delete_eq.
Qed.

(** When the generate call fails after sharp has written the optimized
    copy, [callGemma3Vision] returns without unlinking the copy. *)
Lemma optimized_copy_left_by_client imagePath pr w payload w4 e :
  reachesGenerate env imagePath pr w (imagePath +:+ "_optimized.jpg") payload w4 →
  (axiosPostGenerate env payload 120000 w4).1 = Throw e →
  (callGemma3Vision env imagePath pr w).2 = step (EvGenerate payload) w4 ∧
  is_Some (files (callGemma3Vision env imagePath pr w).2 !! (imagePath +:+ "_optimized.jpg")).
Proof.
  intros Hreach Hgen.
  rewrite (callGemma3Vision_post_fails env _ _ _ _ _ _ _ Hreach Hgen).
  rewrite onInferenceError_world. split; [done|].
  destruct Hreach as (w1 & w2 & w3 & b64 & _ & _ & _ & H4 & _).
  apply convertImageToBase64_ok in H4 as [-> Hsome]. done.
Qed.

(** ... and the handler, which unlinks the upload only, leaves it behind. *)
Lemma optimized_copy_left_by_handler file bodyPrompt w payload w4 e :
  reachesGenerate env (path file) (Some (orElse bodyPrompt (DEFAULT_PROMPT))) (tick w)
    (path file +:+ "_optimized.jpg") payload w4 →
  (axiosPostGenerate env payload 120000 w4).1 = Throw e →
  is_Some (files (analyzeImageHandler env (Some file) bodyPrompt w).2
             !! (path file +:+ "_optimized.jpg")).
Proof.
  intros Hreach Hgen.
  destruct (optimized_copy_left_by_client _ _ _ _ _ _ Hreach Hgen) as [Hw Hsome].
  assert (Hne : path file ≠ path file +:+ "_optimized.jpg").
  { intros H. by apply (append_suffix_neq (path file) "_optimized.jpg"). }
  assert (Hcall : ∃ e', callGemma3Vision env (path file)
                          (Some (orElse bodyPrompt (DEFAULT_PROMPT))) (tick w)
                        = (Throw e', step (EvGenerate payload) w4)).
  { rewrite (callGemma3Vision_post_fails env _ _ _ _ _ _ _ Hreach Hgen).
    unfold onInferenceError. repeat case_bool_decide; eauto. }
  destruct Hcall as [e' Hcall]. rewrite Hcall in Hsome. simpl in Hsome.
  unfold analyzeImageHandler, tryFinally, tryCatch, bind, DateNow.
  rewrite Hcall.
  unfold resJson.
  destruct (Js.truthy (path file)); destruct (sendFault env _);
    rewrite ?cleanupFile_eq; simpl; try done;
    destruct (unlinkFault env _); simpl; rewrite ?lookup_delete_ne by done; done.
Qed.

End Cleanup.

(** C1 (the code at the failing input): the upload is analysed, sharp writes
    the optimized copy, the generate call times out.  The handler answers
    500 and unlinks the upload, but the optimized copy is still in the upload
    directory and no unlink was ever issued for it. *)
Theorem optimized_copy_outlives_failed_inference :
  let env := Scenario.mkEnv Scenario.penv (Scenario.tagsOk ["gemma3:4b"])
               Scenario.sharpCopy (λ _, TimedOut) in
  let w := Scenario.disk [("uploads/a.png", Scenario.png)] in
  let r := analyzeImageHandler env (Some (Scenario.upload "uploads/a.png" "a.png")) None w in
  r.1 = Ok {| status := 500;
              body := BodyError "Gemma3 analysis failed: timeout of 120000ms exceeded" |} ∧
  files r.2 !! "uploads/a.png" = None ∧
  files r.2 !! "uploads/a.png_optimized.jpg" = Some (Scenario.jpeg ++ Scenario.png) ∧
  EvUnlink "uploads/a.png" ∈ trace r.2 ∧
  EvUnlink "uploads/a.png_optimized.jpg" ∉ trace r.2.
Proof.
  repeat split.
  - apply list_elem_of_In. vm_compute. tauto.
  - intros H%list_elem_of_In. vm_compute in H.
    repeat (destruct H as [H|H]; [discriminate|]). done.
Qed.

(** * Further properties *)

(** ** The calls of one analysis *)

Section ClientRuns.

Context (env : Env).

Lemma axiosPostGenerate_result' payload timeout w r w' :
  axiosPostGenerate env payload timeout w = (r, w') →
  (axiosPostGenerate env payload timeout w).1 = r ∧ w' = step (EvGenerate payload) w.
Proof.
  intros H. pose proof (axiosPostGenerate_world env payload timeout w) as Hw.
  rewrite H in Hw |- *. done.
Qed.

Lemma tryCatch_onInferenceError_world {A} (m : M A) w :
  (tryCatch m onInferenceError w).2 = (m w).2.
Proof.
  unfold tryCatch. destruct (m w) as [[a|e] w']; [done|].
  apply onInferenceError_world.
Qed.

Lemma optimizeImage_cases input output w :
  (∃ jpeg, optimizeImage env input output None w
           = (Ok output, setFiles (<[output := jpeg]> (files w))
                           (step (EvSharp input output 1024) w))) ∨
  optimizeImage env input output None w = (Ok input, step (EvSharp input output 1024) w).
Proof.
  unfold optimizeImage, tryCatch, bind, sharpToFile. simpl.
  destruct (files w !! input); [destruct (sharpReply env (clock w) _)|]; eauto.
Qed.

Lemma convertImageToBase64_world p w :
  (convertImageToBase64 env p w).2 = step (EvReadFile p) w.
Proof.
  unfold convertImageToBase64, tryCatch, bind, fsReadFile.
  destruct (readFault env (clock w)); [done|]. by destruct (files w !! p).
Qed.

Lemma copyOf_neq imagePath : copyOf imagePath ≠ imagePath.
Proof. by apply append_suffix_neq. Qed.

(** What remains of a run once the image has been encoded. *)
Lemma client_world_after_read imagePath fp payload w4 :
  let rest :=
    (let* response := axiosPostGenerate env payload 120000 in
     let* _ :=
       if negb (String.eqb fp imagePath) then
         tryCatch (fsUnlink env fp) (fun cleanupError => ret tt)
       else ret tt in
     match gen_data response with
     | Some {| response := Some text |} =>
         if Js.truthy text then ret text
         else throw (newError "Invalid response from Ollama")
     | _ => throw (newError "Invalid response from Ollama")
     end) in
  (rest w4).2 = step (EvGenerate payload) w4 ∨
  (fp ≠ imagePath ∧
   trace (rest w4).2 = trace w4 ++ [EvGenerate payload; EvUnlink fp]).
Proof.
  intros rest. subst rest. unfold bind.
  pose proof (axiosPostGenerate_world env payload 120000 w4) as Hw.
  destruct (axiosPostGenerate env payload 120000 w4) as [[resp|e] w5].
  2: { left. done. }
  simpl in Hw. subst w5.
  destruct (String.eqb fp imagePath) eqn:Heq; cbn [negb].
  - left. unfold ret at 1.
    destruct (gen_data _) as [[[text|]]|]; [destruct (Js.truthy text)|..]; done.
  - right. split; [by apply String.eqb_neq|].
    change (tryCatch (fsUnlink env fp) (λ _, ret tt)) with (cleanupFile env fp).
    rewrite cleanupFile_eq.
    destruct (gen_data _) as [[[text|]]|]; [destruct (Js.truthy text)|..];
      simpl; by rewrite <- app_assoc.
Qed.

Ltac no_unlink :=
  let H := fresh in
  intros H; repeat (apply elem_of_cons in H as [H|H]; [discriminate|]);
  by apply elem_of_nil in H.

(** Every run of the client issues a prefix of [clientCalls]. *)
Lemma client_trace imagePath pr w :
  ∃ fp imageBase64 evs,
    trace (callGemma3Vision env imagePath pr w).2 = trace w ++ evs ∧
    evs `prefix_of`
      clientCalls imagePath fp
        (generatePayload env (default (DEFAULT_PROMPT) pr) imageBase64) ∧
    (fp = imagePath ∨ fp = copyOf imagePath) ∧
    (EvUnlink (copyOf imagePath) ∈ evs → fp = copyOf imagePath).
Proof.
  unfold callGemma3Vision. rewrite tryCatch_onInferenceError_world.
  unfold bind at 1. rewrite checkOllamaHealth_eq.
  destruct (match tagsReply env (clock w) with inl _ => false | inr r => _ end); cbn [negb].
  2: { exists imagePath, "", [EvGetTags]. split; [done|]. split; [by eexists|].
       split; [by left|]. no_unlink. }
  unfold bind at 1.
  destruct (checkModelAvailability_spec env (GEMMA_MODEL env) (step EvGetTags w))
    as (b & -> & _).
  destruct b; cbn [negb].
  2: { exists imagePath, "", [EvGetTags; EvGetTags]. split.
       - simpl. by rewrite <- app_assoc.
       - split; [by eexists|]. split; [by left|]. no_unlink. }
  cbv zeta. unfold bind at 1.
  change (imagePath +:+ "_optimized.jpg") with (copyOf imagePath).
  set (w2 := step EvGetTags (step EvGetTags w)).
  destruct (optimizeImage_cases imagePath (copyOf imagePath) w2) as [[jpeg ->] | ->].
  - (* sharp wrote the copy *)
    set (w3 := setFiles _ _).
    assert (Hw3 : trace w3 = trace w ++ [EvGetTags; EvGetTags;
                                          EvSharp imagePath (copyOf imagePath) 1024]).
    { subst w3 w2. simpl. by rewrite <- !app_assoc. }
    clearbody w3.
    unfold bind at 1.
    pose proof (convertImageToBase64_world (copyOf imagePath) w3) as Hread.
    destruct (convertImageToBase64 env (copyOf imagePath) w3) as [[b64|e] w4].
    2: { simpl in Hread. subst w4.
         exists (copyOf imagePath), "", [EvGetTags; EvGetTags;
           EvSharp imagePath (copyOf imagePath) 1024; EvReadFile (copyOf imagePath)].
         split; [simpl; rewrite Hw3; by rewrite <- app_assoc|].
         split; [by eexists|]. split; [by right|]. done. }
    simpl in Hread. subst w4. exists (copyOf imagePath), b64.
    destruct (client_world_after_read imagePath (copyOf imagePath)
                (generatePayload env (default (DEFAULT_PROMPT) pr) b64)
                (step (EvReadFile (copyOf imagePath)) w3)) as [Hrest | [_ Hrest]].
    + eexists. split; [rewrite Hrest; simpl; rewrite Hw3, <- !app_assoc; reflexivity|].
      split; [by eexists|]. split; [by right|]. done.
    + eexists. split; [rewrite Hrest; simpl; rewrite Hw3, <- !app_assoc; reflexivity|].
      split; [by exists []|]. split; [by right|]. done.
  - (* sharp failed: the original is used *)
    set (w3 := step _ w2).
    assert (Hw3 : trace w3 = trace w ++ [EvGetTags; EvGetTags;
                                          EvSharp imagePath (copyOf imagePath) 1024]).
    { subst w3 w2. simpl. by rewrite <- !app_assoc. }
    clearbody w3.
    unfold bind at 1.
    pose proof (convertImageToBase64_world imagePath w3) as Hread.
    destruct (convertImageToBase64 env imagePath w3) as [[b64|e] w4].
    2: { simpl in Hread. subst w4.
         exists imagePath, "", [EvGetTags; EvGetTags;
           EvSharp imagePath (copyOf imagePath) 1024; EvReadFile imagePath].
         split; [simpl; rewrite Hw3; by rewrite <- app_assoc|].
         split; [by eexists|]. split; [by left|]. no_unlink. }
    simpl in Hread. subst w4. exists imagePath, b64.
    destruct (client_world_after_read imagePath imagePath
                (generatePayload env (default (DEFAULT_PROMPT) pr) b64)
                (step (EvReadFile imagePath) w3)) as [Hrest | [Hne _]]; [|done].
    eexists. split; [rewrite Hrest; simpl; rewrite Hw3, <- !app_assoc; reflexivity|].
    split; [by eexists|]. split; [by left|]. no_unlink.
Qed.

End ClientRuns.

(** X1: whatever the backend, sharp and the file system do, one call of
    [callGemma3Vision] issues a prefix of the sequence: liveness probe,
    model listing, sharp, read of the image it settled on, generate call,
    unlink of the optimized copy.  So it issues at most one generate call,
    and only after both checks and the read; it never sends a response or
    writes an upload; and the only file it may unlink is the optimized
    copy, which it does only when the copy is the image it read. *)
Theorem client_calls_follow_the_protocol env imagePath pr w :
  ∃ fp imageBase64,
    let payload := generatePayload env (default (DEFAULT_PROMPT) pr) imageBase64 in
    let calls := issued (callGemma3Vision env imagePath pr) w in
    calls `prefix_of` clientCalls imagePath fp payload ∧
    (fp = imagePath ∨ fp = copyOf imagePath) ∧
    (length (List.filter isGenerate calls) ≤ 1)%nat ∧
    (∀ r, EvSend r ∉ calls) ∧
    (∀ p, EvWriteFile p ∉ calls) ∧
    (∀ p, EvUnlink p ∈ calls → p = copyOf imagePath ∧ fp = copyOf imagePath).
Proof.
  destruct (client_trace env imagePath pr w) as (fp & b64 & evs & Htrace & Hpre & Hfp & Hun).
  exists fp, b64. cbv zeta.
  rewrite (issued_grows _ _ _ Htrace).
  split; [done|]. split; [done|].
  destruct Hpre as [k Hk].
  assert (Hin : ∀ ev, ev ∈ evs →
            ev ∈ clientCalls imagePath fp
                   (generatePayload env (default (DEFAULT_PROMPT) pr) b64)).
  { intros ev H. rewrite Hk. apply elem_of_app. by left. }
  split; [|split; [|split]].
  - assert (length (List.filter isGenerate
                      (clientCalls imagePath fp
                         (generatePayload env (default (DEFAULT_PROMPT) pr) b64))) = 1%nat)
      as H1 by reflexivity.
    rewrite Hk, List.filter_app, length_app in H1. lia.
  - intros r H%Hin. unfold clientCalls in H.
    repeat (apply elem_of_cons in H as [H|H]; [discriminate|]). by apply elem_of_nil in H.
  - intros p H%Hin. unfold clientCalls in H.
    repeat (apply elem_of_cons in H as [H|H]; [discriminate|]). by apply elem_of_nil in H.
  - intros p H. assert (p = copyOf imagePath) as ->.
    { apply Hin in H. unfold clientCalls in H.
      repeat (apply elem_of_cons in H as [H|H]; [try discriminate|]).
      - by injection H.
      - by apply elem_of_nil in H. }
    split; [done | by apply Hun].
Qed.

(** ** Which files a computation may change *)

Lemma touches_ret {A} S (a : A) : touches S (ret a).
Proof. by intros w q _. Qed.

Lemma touches_throw {A} S e : touches S (@throw A e).
Proof. by intros w q _. Qed.

Lemma touches_weaken {A} (S T : string → Prop) (m : M A) :
  (∀ q, S q → T q) → touches S m → touches T m.
Proof. intros HST Hm w q Hq. apply Hm. naive_solver. Qed.

(** The continuation is only asked about values the first part returns. *)
Lemma touches_bind {A B} S (m : M A) (k : A → M B) :
  touches S m →
  (∀ a, (∃ w, (m w).1 = Ok a) → touches S (k a)) →
  touches S (bind m k).
Proof.
  intros Hm Hk w q Hq. unfold bind. specialize (Hm w q Hq).
  destruct (m w) as [[a|e] w'] eqn:Hmw; simpl in *; [|done].
  rewrite <- Hm. apply Hk; [|done]. exists w. by rewrite Hmw.
Qed.

Lemma touches_tryCatch {A} S (m : M A) h :
  touches S m → (∀ e, touches S (h e)) → touches S (tryCatch m h).
Proof.
  intros Hm Hh w q Hq. unfold tryCatch. specialize (Hm w q Hq).
  destruct (m w) as [[a|e] w']; simpl in *; [done|].
  rewrite <- Hm. by apply Hh.
Qed.

Lemma touches_tryFinally {A} S (m : M A) f :
  touches S m → touches S f → touches S (tryFinally m f).
Proof.
  intros Hm Hf w q Hq. unfold tryFinally. specialize (Hm w q Hq).
  destruct (m w) as [r w']; simpl in *. specialize (Hf w' q Hq).
  destruct (f w') as [[u|e] w'']; simpl in *; congruence.
Qed.

Lemma touches_forEach {A} S (f : A → M unit) l :
  (∀ x, x ∈ l → touches S (f x)) → touches S (forEach f l).
Proof.
  induction l as [|x l IH]; intros Hf; simpl.
  - apply touches_ret.
  - apply touches_bind.
    + apply Hf. by left.
    + intros _ _. apply IH. intros y Hy. apply Hf. by right.
Qed.

Section Frames.

Context (env : Env).

Lemma touches_axiosGetTags S : touches S (axiosGetTags env).
Proof. intros w q _. unfold axiosGetTags. by destruct (tagsReply env (clock w)). Qed.

Lemma touches_axiosPostGenerate S payload timeout :
  touches S (axiosPostGenerate env payload timeout).
Proof. intros w q _. by rewrite axiosPostGenerate_world. Qed.

Lemma touches_sharpToFile (S : string → Prop) input maxWidth output :
  S output → touches S (sharpToFile env input maxWidth output).
Proof.
  intros HS w q Hq. unfold sharpToFile.
  destruct (files w !! input); [destruct (sharpReply env (clock w) _)|]; simpl; try done.
  apply lookup_insert_ne. by intros ->.
Qed.

Lemma touches_fsReadFile S p : touches S (fsReadFile env p).
Proof.
  intros w q _. unfold fsReadFile.
  destruct (readFault env (clock w)); [done|]. by destruct (files w !! p).
Qed.

Lemma touches_cleanupFile (S : string → Prop) p : S p → touches S (cleanupFile env p).
Proof.
  intros HS w q Hq. rewrite cleanupFile_eq. simpl.
  destruct (unlinkFault env (clock w)); [done|].
  apply lookup_delete_ne. by intros ->.
Qed.

Lemma touches_DateNow S : touches S (DateNow env).
Proof. by intros w q _. Qed.

Lemma touches_resJson S s b : touches S (resJson env s b).
Proof. intros w q _. unfold resJson. by destruct (sendFault env (clock w)). Qed.

Lemma touches_checkOllamaHealth S : touches S (checkOllamaHealth env).
Proof. intros w q _. by rewrite checkOllamaHealth_eq. Qed.

Lemma touches_checkModelAvailability S modelName :
  touches S (checkModelAvailability env modelName).
Proof.
  intros w q _.
  by destruct (checkModelAvailability_spec env modelName w) as (b & -> & _).
Qed.

Lemma touches_convertImageToBase64 S p : touches S (convertImageToBase64 env p).
Proof. intros w q _. by rewrite convertImageToBase64_world. Qed.

Lemma optimizeImage_value input output maxWidth w a :
  (optimizeImage env input output maxWidth w).1 = Ok a → a = input ∨ a = output.
Proof.
  unfold optimizeImage, tryCatch, bind.
  destruct (sharpToFile env input _ output w) as [[[]|e] w']; simpl; intros [= <-]; eauto.
Qed.

Lemma touches_optimizeImage (S : string → Prop) input output maxWidth :
  S output → touches S (optimizeImage env input output maxWidth).
Proof.
  intros HS. unfold optimizeImage. apply touches_tryCatch.
  - apply touches_bind; [by apply touches_sharpToFile | intros; apply touches_ret].
  - intros; apply touches_ret.
Qed.

(** The client changes no file but the optimized copy. *)
Lemma touches_callGemma3Vision imagePath pr :
  touches (λ q, q = copyOf imagePath) (callGemma3Vision env imagePath pr).
Proof.
  unfold callGemma3Vision. apply touches_tryCatch.
  2: { intros e. unfold onInferenceError. repeat case_bool_decide; apply touches_throw. }
  apply touches_bind; [apply touches_checkOllamaHealth | intros b1 _].
  destruct b1; cbn [negb]; [|apply touches_throw].
  apply touches_bind; [apply touches_checkModelAvailability | intros b2 _].
  destruct b2; cbn [negb]; [|apply touches_throw].
  cbv zeta. apply touches_bind; [by apply touches_optimizeImage|].
  intros fp [w0 Hfp%optimizeImage_value].
  apply touches_bind; [apply touches_convertImageToBase64 | intros b64 _].
  apply touches_bind; [apply touches_axiosPostGenerate | intros resp _].
  apply touches_bind.
  - destruct Hfp as [-> | ->].
    + rewrite String.eqb_refl. apply touches_ret.
    + destruct (negb _); [|apply touches_ret].
      by apply (touches_cleanupFile (λ q, q = copyOf imagePath)).
  - intros ? _. destruct (gen_data resp) as [[[text|]]|];
      [destruct (Js.truthy text)|..]; first [apply touches_ret | apply touches_throw].
Qed.

Lemma touches_analyzeImageHandler file bodyPrompt :
  touches (λ q, q = path file ∨ q = copyOf (path file))
          (analyzeImageHandler env (Some file) bodyPrompt).
Proof.
  unfold analyzeImageHandler. apply touches_tryFinally.
  - apply touches_tryCatch; [|intros; apply touches_resJson].
    cbv zeta. apply touches_bind; [apply touches_DateNow | intros ? _].
    apply touches_bind.
    + eapply touches_weaken; [|apply touches_callGemma3Vision]. naive_solver.
    + intros ? _. apply touches_bind; [apply touches_DateNow | intros ? _].
      apply touches_resJson.
  - destruct (Js.truthy (path file)); [|apply touches_ret].
    apply (touches_cleanupFile (λ q, q = path file ∨ q = copyOf (path file))). by left.
Qed.

Lemma touches_batchItem file pr results :
  touches (λ q, q = path file ∨ q = copyOf (path file)) (batchItem env file pr results).
Proof.
  unfold batchItem. apply touches_tryFinally.
  - apply touches_tryCatch; [|intros; apply touches_ret].
    apply touches_bind; [apply touches_DateNow | intros ? _].
    apply touches_bind.
    + eapply touches_weaken; [|apply touches_callGemma3Vision]. naive_solver.
    + intros ? _. apply touches_bind; [apply touches_DateNow | intros ? _].
      apply touches_ret.
  - apply (touches_cleanupFile (λ q, q = path file ∨ q = copyOf (path file))). by left.
Qed.

Lemma touches_batchLoop uploadedFiles pr results :
  touches (λ q, ∃ file, file ∈ uploadedFiles ∧ (q = path file ∨ q = copyOf (path file)))
          (batchLoop env uploadedFiles pr results).
Proof.
  revert results. induction uploadedFiles as [|file rest IH]; intros results; simpl.
  - apply touches_ret.
  - apply touches_bind.
    + eapply touches_weaken; [|apply touches_batchItem].
      intros q Hq. exists file. split; [by left | done].
    + intros results' _. eapply touches_weaken; [|apply IH].
      intros q (f & Hf & Hq). exists f. split; [by right | done].
Qed.

Lemma touches_batchAnalyzeHandler uploadedFiles bodyPrompt :
  touches (λ q, ∃ file, file ∈ uploadedFiles ∧ (q = path file ∨ q = copyOf (path file)))
          (batchAnalyzeHandler env (Some uploadedFiles) bodyPrompt).
Proof.
  unfold batchAnalyzeHandler. simpl default. apply touches_tryCatch.
  - destruct (_ =? _)%nat; [apply touches_resJson|].
    unfold runBatch. apply touches_bind; [apply touches_batchLoop | intros; apply touches_resJson].
  - intros e. apply touches_bind; [|intros; apply touches_resJson].
    apply touches_forEach. intros file Hfile.
    apply (touches_cleanupFile
             (λ q, ∃ f, f ∈ uploadedFiles ∧ (q = path f ∨ q = copyOf (path f)))).
    exists file. split; [done | by left].
Qed.

End Frames.

(** X2: an analysis changes no file of the upload directory but its own:
    [callGemma3Vision] leaves every path other than the optimized copy as
    it was (the upload it analyses included), the single-image handler every
    path other than the upload and its copy, and the batch handler every
    path other than the uploads of the batch and their copies. *)
Theorem analysis_leaves_other_files_alone env :
  (∀ imagePath pr w q,
     q ≠ copyOf imagePath →
     files (callGemma3Vision env imagePath pr w).2 !! q = files w !! q) ∧
  (∀ file bodyPrompt w q,
     q ≠ path file → q ≠ copyOf (path file) →
     files (analyzeImageHandler env (Some file) bodyPrompt w).2 !! q = files w !! q) ∧
  (∀ uploadedFiles bodyPrompt w q,
     (∀ file, file ∈ uploadedFiles → q ≠ path file ∧ q ≠ copyOf (path file)) →
     files (batchAnalyzeHandler env (Some uploadedFiles) bodyPrompt w).2 !! q = files w !! q).
Proof.
  split; [|split].
  - intros imagePath pr w q Hq. by apply touches_callGemma3Vision.
  - intros file bodyPrompt w q H1 H2. apply touches_analyzeImageHandler. by intros [|].
  - intros uploadedFiles bodyPrompt w q H. apply touches_batchAnalyzeHandler.
    intros (file & Hfile & Hq). destruct (H file Hfile) as [? ?]. by destruct Hq.
Qed.

(** ** The outcome of one analysis *)

Section ClientOutcome.

Context (env : Env).

Lemma bind_ok_inv {A B} (m : M A) (k : A → M B) w b :
  (bind m k w).1 = Ok b → ∃ a w', m w = (Ok a, w') ∧ (k a w').1 = Ok b.
Proof.
  unfold bind. destruct (m w) as [[a|e] w']; [|done]. intros H. by exists a, w'.
Qed.

Lemma onInferenceError_throws {A} e w :
  ∃ e', @onInferenceError A e w = (Throw e', w) ∧
        isMulterError e' = false ∧ code e' = None ∧
        (message e' = "Cannot connect to Ollama. Make sure Ollama is running on port 11434" ∨
         message e' = "Analysis timed out. Try with a smaller image or simpler prompt" ∨
         message e' = "Gemma3 analysis failed: " +:+ message e).
Proof. unfold onInferenceError. repeat case_bool_decide; eexists; eauto 10. Qed.

(** Where the files stand when the generate call is about to be posted. *)
Lemma reaches_files imagePath pr w fp payload w4 :
  reachesGenerate env imagePath pr w fp payload w4 →
  (fp = imagePath ∧ files w4 = files w) ∨
  (fp = copyOf imagePath ∧ ∃ jpeg, files w4 = <[copyOf imagePath := jpeg]> (files w)).
Proof.
  intros (w1 & w2 & w3 & b64 & H1 & H2 & H3 & H4 & _).
  rewrite checkOllamaHealth_eq in H1. injection H1 as _ <-.
  destruct (checkModelAvailability_spec env (GEMMA_MODEL env) (step EvGetTags w))
    as (b & Hb & _).
  rewrite Hb in H2. injection H2 as _ <-.
  apply convertImageToBase64_ok in H4 as [-> _].
  change (imagePath +:+ "_optimized.jpg") with (copyOf imagePath) in H3.
  destruct (optimizeImage_cases env imagePath (copyOf imagePath)
              (step EvGetTags (step EvGetTags w))) as [[jpeg Ho] | Ho];
    rewrite Ho in H3; injection H3 as <- <-.
  - right. split; [done|]. by exists jpeg.
  - by left.
Qed.

Lemma callGemma3Vision_replied_world imagePath pr w fp payload w4 resp :
  reachesGenerate env imagePath pr w fp payload w4 →
  (axiosPostGenerate env payload 120000 w4).1 = Ok resp →
  (callGemma3Vision env imagePath pr w).2
    = afterCopyCleanup env imagePath fp (step (EvGenerate payload) w4).
Proof.
  intros Hreach Hgen.
  rewrite (callGemma3Vision_post_replies env _ _ _ _ _ _ _ Hreach Hgen). cbv zeta.
  destruct (gen_data resp) as [[[text|]]|]; [destruct (Js.truthy text)|..];
    try done; apply onInferenceError_world.
Qed.

Lemma replied_files imagePath pr w fp payload w4 resp :
  reachesGenerate env imagePath pr w fp payload w4 →
  (axiosPostGenerate env payload 120000 w4).1 = Ok resp →
  unlinkFault env (S (clock w4)) = None →
  files (callGemma3Vision env imagePath pr w).2 =
    if decide (fp = imagePath) then files w else delete (copyOf imagePath) (files w).
Proof.
  intros Hreach Hgen Hun.
  rewrite (callGemma3Vision_replied_world _ _ _ _ _ _ _ Hreach Hgen).
  unfold afterCopyCleanup.
  destruct (reaches_files _ _ _ _ _ _ Hreach) as [[-> Hf] | [-> [jpeg Hf]]].
  - rewrite String.eqb_refl, decide_True by done. done.
  - assert (String.eqb (copyOf imagePath) imagePath = false) as ->
      by apply String.eqb_neq, copyOf_neq.
    rewrite decide_False by apply copyOf_neq.
    cbn [negb]. rewrite cleanupFile_eq. simpl. rewrite Hun, Hf.
    apply delete_insert_eq.
Qed.

Lemma callGemma3Vision_ok_inv imagePath pr w text :
  (callGemma3Vision env imagePath pr w).1 = Ok text →
  Js.truthy text = true ∧
  ∃ fp payload w4 resp,
    reachesGenerate env imagePath pr w fp payload w4 ∧
    (axiosPostGenerate env payload 120000 w4).1 = Ok resp ∧
    gen_data resp = Some {| response := Some text |}.
Proof.
  unfold callGemma3Vision, tryCatch at 1.
  match goal with |- (match ?m w with _ => _ end).1 = _ → _ =>
    destruct (m w) as [[a|e] w'] eqn:Hrun end.
  2: { destruct (@onInferenceError_throws string e w') as (e' & -> & _). done. }
  simpl. intros [= ->].
  assert (H : ∀ r : Result string * World, r = (Ok text, w') → r.1 = Ok text) by (by intros ? ->).
  apply H in Hrun. clear H.
  apply bind_ok_inv in Hrun as (b1 & w1 & H1 & Hrun).
  destruct b1; cbn [negb] in Hrun; [|done].
  apply bind_ok_inv in Hrun as (b2 & w2 & H2 & Hrun).
  destruct b2; cbn [negb] in Hrun; [|done].
  cbv zeta in Hrun.
  apply bind_ok_inv in Hrun as (fp & w3 & H3 & Hrun).
  apply bind_ok_inv in Hrun as (b64 & w4 & H4 & Hrun).
  apply bind_ok_inv in Hrun as (resp & w5 & H5 & Hrun).
  apply bind_ok_inv in Hrun as ([] & w6 & H6 & Hrun).
  destruct (gen_data resp) as [[[t|]]|] eqn:Hdata; [|done..].
  destruct (Js.truthy t) eqn:Ht; [|done].
  injection Hrun as ->. split; [done|].
  exists fp, (generatePayload env (default (DEFAULT_PROMPT) pr) b64), w4, resp.
  split; [by exists w1, w2, w3, b64|]. split; [by rewrite H5 | done].
Qed.

End ClientOutcome.

(** X3: once the generate call has been answered, by a valid summary or by
    an unusable body, the client has put the upload directory back as it
    found it: when sharp had failed nothing was written and nothing changes;
    when sharp had written the optimized copy the copy is unlinked again
    (the unlink not failing), so the directory is the one of the start
    without any file at the copy's path. *)
Theorem client_reply_restores_the_directory env imagePath pr w fp payload w4 resp :
  reachesGenerate env imagePath pr w fp payload w4 →
  (axiosPostGenerate env payload 120000 w4).1 = Ok resp →
  unlinkFault env (S (clock w4)) = None →
  files (callGemma3Vision env imagePath pr w).2 =
    (if decide (fp = imagePath) then files w else delete (copyOf imagePath) (files w)) ∧
  (fp ≠ imagePath → files (callGemma3Vision env imagePath pr w).2 !! fp = None) ∧
  files (callGemma3Vision env imagePath pr w).2 !! imagePath = files w !! imagePath.
Proof.
  intros Hreach Hgen Hun.
  rewrite (replied_files env _ _ _ _ _ _ _ Hreach Hgen Hun).
  split; [done|].
  destruct (reaches_files env _ _ _ _ _ _ Hreach) as [[-> _] | [-> _]].
  - rewrite decide_True by done. done.
  - rewrite decide_False by apply copyOf_neq. split.
    + intros _. apply lookup_delete_eq.
    + apply lookup_delete_ne, copyOf_neq.
Qed.

Lemma client_reply_witness :
  let env := Scenario.batchEnv in
  let w := Scenario.disk [("uploads/a.png", Scenario.png)] in
  files (callGemma3Vision env "uploads/a.png" None w).2
    !! "uploads/a.png_optimized.jpg" = None ∧
  files (callGemma3Vision env "uploads/a.png" None w).2 !! "uploads/a.png"
    = Some Scenario.png.
Proof.
  intros env w.
  edestruct (client_reply_restores_the_directory env "uploads/a.png" None w
               "uploads/a.png_optimized.jpg")
    as (_ & Hcopy & Hupload).
  - eexists _, _, _, _.
    split; [reflexivity|]. split; [reflexivity|]. split; [reflexivity|].
    split; reflexivity.
  - reflexivity.
  - reflexivity.
  - split; [apply Hcopy; discriminate | rewrite Hupload; reflexivity].
Defined.

(** X5: a summary the client returns is never empty and is the [response]
    field of the backend's reply to the generate call; the run that returns
    it has passed the liveness check, the model check, preprocessing and
    encoding. *)
Theorem client_summary_comes_from_the_backend env imagePath pr w text :
  (callGemma3Vision env imagePath pr w).1 = Ok text →
  text ≠ "" ∧
  ∃ fp payload w4 resp,
    reachesGenerate env imagePath pr w fp payload w4 ∧
    (axiosPostGenerate env payload 120000 w4).1 = Ok resp ∧
    gen_data resp = Some {| response := Some text |} ∧
    EvGenerate payload ∈ issued (callGemma3Vision env imagePath pr) w.
Proof.
  intros H. destruct (callGemma3Vision_ok_inv env _ _ _ _ H)
    as (Ht & fp & payload & w4 & resp & Hreach & Hgen & Hdata).
  split.
  { intros ->. done. }
  exists fp, payload, w4, resp. split; [done|]. split; [done|]. split; [done|].
  pose proof (callGemma3Vision_replied_world env _ _ _ _ _ _ _ Hreach Hgen) as Hw.
  assert (Hgrow : ∃ evs, trace w4 = trace w ++ evs).
  { destruct Hreach as (w1 & w2 & w3 & b64 & H1 & H2 & H3 & H4 & _).
    rewrite checkOllamaHealth_eq in H1. injection H1 as _ <-.
    destruct (checkModelAvailability_spec env (GEMMA_MODEL env) (step EvGetTags w))
      as (b & Hb & _).
    rewrite Hb in H2. injection H2 as _ <-.
    apply convertImageToBase64_ok in H4 as [-> _].
    destruct (optimizeImage_cases env imagePath (imagePath +:+ "_optimized.jpg")
                (step EvGetTags (step EvGetTags w))) as [[jpeg Ho] | Ho];
      rewrite Ho in H3; injection H3 as _ <-; eexists; simpl;
      rewrite <- !app_assoc; reflexivity. }
  destruct Hgrow as [evs Hevs].
  assert (∃ post, trace (callGemma3Vision env imagePath pr w).2
                  = trace w ++ (evs ++ [EvGenerate payload] ++ post)) as [post Hpost].
  { rewrite Hw. unfold afterCopyCleanup.
    destruct (negb _).
    - rewrite cleanupFile_eq. simpl. rewrite Hevs. eexists. rewrite <- !app_assoc. reflexivity.
    - simpl. rewrite Hevs. exists []. by rewrite <- !app_assoc. }
  rewrite (issued_grows _ _ _ Hpost).
  apply elem_of_app. right. apply elem_of_app. left. by left.
Qed.

Lemma client_summary_witness :
  let env := Scenario.batchEnv in
  let w := Scenario.disk [("uploads/a.png", Scenario.png)] in
  "Handwritten lecture notes" ≠ "" ∧
  ∃ fp payload w4 resp,
    reachesGenerate env "uploads/a.png" None w fp payload w4 ∧
    (axiosPostGenerate env payload 120000 w4).1 = Ok resp ∧
    gen_data resp = Some {| response := Some "Handwritten lecture notes" |} ∧
    EvGenerate payload ∈ issued (callGemma3Vision env "uploads/a.png" None) w.
Proof.
  intros env w.
  apply (client_summary_comes_from_the_backend env "uploads/a.png" None w).
  reflexivity.
Defined.

(** X6: no raw error leaves the client.  Whatever fails inside
    [callGemma3Vision] (a check, the read of the image, the transport, the
    reply), the error it throws is a plain [Error] without a code whose
    message is the connection hint, the timeout hint, or starts with
    ["Gemma3 analysis failed: "]. *)
Theorem client_errors_are_wrapped env imagePath pr w e :
  (callGemma3Vision env imagePath pr w).1 = Throw e →
  isMulterError e = false ∧ code e = None ∧
  (message e = "Cannot connect to Ollama. Make sure Ollama is running on port 11434" ∨
   message e = "Analysis timed out. Try with a smaller image or simpler prompt" ∨
   ∃ cause, message e = "Gemma3 analysis failed: " +:+ cause).
Proof.
  unfold callGemma3Vision, tryCatch at 1.
  match goal with |- (match ?m w with _ => _ end).1 = _ → _ =>
    destruct (m w) as [[a|e0] w'] end; [done|].
  destruct (@onInferenceError_throws string e0 w') as (e' & -> & Hm & Hc & Hmsg).
  simpl. intros [= <-]. split; [done|]. split; [done|].
  destruct Hmsg as [?|[?|?]]; eauto.
Qed.

Lemma client_errors_witness :
  let e := newError livenessMessage in
  isMulterError e = false ∧ code e = None ∧
  (message e = "Cannot connect to Ollama. Make sure Ollama is running on port 11434" ∨
   message e = "Analysis timed out. Try with a smaller image or simpler prompt" ∨
   ∃ cause, message e = "Gemma3 analysis failed: " +:+ cause).
Proof.
  intros e.
  apply (client_errors_are_wrapped Scenario.backendDown "uploads/a.png" None
           (Scenario.disk [("uploads/a.png", Scenario.png)])).
  reflexivity.
Defined.

(** ** The single-image route on success *)

(** X4: a successful analysis leaves nothing behind.  When the run reaches
    the generate call, the backend answers with a non-empty summary, no
    unlink fails and the response can be sent, [POST /analyze-image] answers
    200 with that summary, the name and size of the upload and the configured
    model, and the upload directory is the one of the start without the
    upload and without its optimized copy. *)
Theorem successful_analysis_leaves_nothing_behind
    env file bodyPrompt w fp payload w4 resp text :
  Js.truthy (path file) = true →
  reachesGenerate env (path file) (Some (orElse bodyPrompt (DEFAULT_PROMPT))) (tick w)
    fp payload w4 →
  (axiosPostGenerate env payload 120000 w4).1 = Ok resp →
  gen_data resp = Some {| response := Some text |} →
  Js.truthy text = true →
  (∀ n, unlinkFault env n = None) →
  (∀ n, sendFault env n = None) →
  let r := analyzeImageHandler env (Some file) bodyPrompt w in
  (∃ ms, r.1 = Ok {| status := 200;
                     body := BodyAnalysis text (originalname file) (size file) ms
                               (GEMMA_MODEL env) |}) ∧
  files r.2 = delete (path file)
                (if decide (fp = path file) then files w
                 else delete (copyOf (path file)) (files w)) ∧
  files r.2 !! path file = None ∧
  (fp ≠ path file → files r.2 !! fp = None).
Proof.
  intros Hpath Hreach Hgen Hdata Ht Hun Hsend r.
  pose proof (callGemma3Vision_post_replies env _ _ _ _ _ _ _ Hreach Hgen) as Hcall.
  rewrite Hdata, Ht in Hcall. cbv zeta in Hcall.
  pose proof (replied_files env _ _ _ _ _ _ _ Hreach Hgen (Hun _)) as Hfiles.
  rewrite Hcall in Hfiles. cbn [snd] in Hfiles. change (files w) with (files (tick w)).
  assert (Hr : ∃ ms w6,
    r = (Ok {| status := 200;
               body := BodyAnalysis text (originalname file) (size file) ms
                         (GEMMA_MODEL env) |}, w6) ∧
    files w6 = delete (path file)
                 (if decide (fp = path file) then files (tick w)
                  else delete (copyOf (path file)) (files (tick w)))).
  { subst r. unfold analyzeImageHandler, tryFinally, tryCatch, bind, DateNow.
    cbv zeta. rewrite Hcall. unfold resJson. rewrite Hsend, Hpath.
    rewrite cleanupFile_eq, Hun. eexists _, _. split; [reflexivity|].
    cbn [files setFiles step tick]. by rewrite Hfiles. }
  destruct Hr as (ms & w6 & -> & Hw6). cbn [fst snd]. rewrite Hw6.
  split; [by exists ms|]. split; [done|]. split; [apply lookup_delete_eq|].
  intros Hfp. rewrite decide_False by done.
  destruct (reaches_files env _ _ _ _ _ _ Hreach) as [[-> _] | [-> _]]; [done|].
  rewrite lookup_delete_ne by (intros H; by apply (copyOf_neq (path file))).
  apply lookup_delete_eq.
Qed.

Lemma successful_analysis_witness :
  let env := Scenario.batchEnv in
  let w := Scenario.disk [("uploads/a.png", Scenario.png)] in
  let r := analyzeImageHandler env (Some (Scenario.upload "uploads/a.png" "a.png")) None w in
  (∃ ms, r.1 = Ok {| status := 200;
                     body := BodyAnalysis "Handwritten lecture notes" "a.png" 4 ms
                               "gemma3:4b" |}) ∧
  files r.2 !! "uploads/a.png" = None ∧
  files r.2 !! "uploads/a.png_optimized.jpg" = None.
Proof.
  intros env w r.
  edestruct (successful_analysis_leaves_nothing_behind env
               (Scenario.upload "uploads/a.png" "a.png") None w
               "uploads/a.png_optimized.jpg")
    as (Hres & _ & Hupload & Hcopy).
  - reflexivity.
  - eexists _, _, _, _.
    split; [reflexivity|]. split; [reflexivity|]. split; [reflexivity|].
    split; reflexivity.
  - reflexivity.
  - reflexivity.
  - reflexivity.
  - intros n. reflexivity.
  - intros n. reflexivity.
  - split; [exact Hres|]. split; [exact Hupload|]. apply Hcopy. discriminate.
Defined.

(** ** How many inference calls an analysis costs *)

Section Counting.

Context (env : Env) (f : Event → bool).

Lemma issuesAtMost_ret {A} (a : A) : issuesAtMost f 0 (ret a).
Proof. intros w. exists []. by rewrite app_nil_r. Qed.

Lemma issuesAtMost_weaken {A} n n' (m : M A) :
  (n ≤ n')%nat → issuesAtMost f n m → issuesAtMost f n' m.
Proof. intros Hle Hm w. destruct (Hm w) as (evs & H & Hn). exists evs. split; [done | lia]. Qed.

Lemma issuesAtMost_bind {A B} n1 n2 (m : M A) (k : A → M B) :
  issuesAtMost f n1 m → (∀ a, issuesAtMost f n2 (k a)) →
  issuesAtMost f (n1 + n2) (bind m k).
Proof.
  intros Hm Hk w. unfold bind. destruct (Hm w) as (e1 & H1 & N1).
  destruct (m w) as [[a|e] w']; simpl in *.
  - destruct (Hk a w') as (e2 & H2 & N2). exists (e1 ++ e2). split.
    + by rewrite H2, H1, app_assoc.
    + rewrite List.filter_app, length_app. lia.
  - exists e1. split; [done | lia].
Qed.

Lemma issuesAtMost_tryCatch {A} n1 n2 (m : M A) h :
  issuesAtMost f n1 m → (∀ e, issuesAtMost f n2 (h e)) →
  issuesAtMost f (n1 + n2) (tryCatch m h).
Proof.
  intros Hm Hh w. unfold tryCatch. destruct (Hm w) as (e1 & H1 & N1).
  destruct (m w) as [[a|e] w']; simpl in *.
  - exists e1. split; [done | lia].
  - destruct (Hh e w') as (e2 & H2 & N2). exists (e1 ++ e2). split.
    + by rewrite H2, H1, app_assoc.
    + rewrite List.filter_app, length_app. lia.
Qed.

Lemma issuesAtMost_tryFinally {A} n1 n2 (m : M A) g :
  issuesAtMost f n1 m → issuesAtMost f n2 g →
  issuesAtMost f (n1 + n2) (tryFinally m g).
Proof.
  intros Hm Hg w. unfold tryFinally. destruct (Hm w) as (e1 & H1 & N1).
  destruct (m w) as [r w']; simpl in *.
  destruct (Hg w') as (e2 & H2 & N2).
  exists (e1 ++ e2). split.
  - destruct (g w') as [[u|e] w'']; simpl in *; by rewrite H2, H1, app_assoc.
  - rewrite List.filter_app, length_app. lia.
Qed.

Lemma issuesAtMost_DateNow : issuesAtMost f 0 (DateNow env).
Proof. intros w. exists []. by rewrite app_nil_r. Qed.

Lemma issuesAtMost_resJson s b :
  (∀ r, f (EvSend r) = false) → issuesAtMost f 0 (resJson env s b).
Proof.
  intros Hf w. unfold resJson. destruct (sendFault env (clock w)); simpl.
  - exists []. by rewrite app_nil_r.
  - eexists [_]. split; [done|]. simpl. by rewrite Hf.
Qed.

Lemma issuesAtMost_cleanupFile p :
  (∀ q, f (EvUnlink q) = false) → issuesAtMost f 0 (cleanupFile env p).
Proof.
  intros Hf w. rewrite cleanupFile_eq. eexists [_]. split; [done|]. simpl. by rewrite Hf.
Qed.

Lemma issuesAtMost_forEach_cleanupFile {A} (g : A → string) l :
  (∀ q, f (EvUnlink q) = false) →
  issuesAtMost f 0 (forEach (λ x, cleanupFile env (g x)) l).
Proof.
  intros Hf. induction l as [|x l IH]; simpl.
  - apply issuesAtMost_ret.
  - apply (issuesAtMost_bind 0 0); [by apply issuesAtMost_cleanupFile | by intros].
Qed.

End Counting.

Section GenerateCalls.

Context (env : Env).

Lemma issuesAtMost_callGemma3Vision imagePath pr :
  issuesAtMost isGenerate 1 (callGemma3Vision env imagePath pr).
Proof.
  intros w. destruct (client_trace env imagePath pr w) as (fp & b64 & evs & Ht & [k Hk] & _).
  exists evs. split; [done|].
  assert (length (List.filter isGenerate
                    (clientCalls imagePath fp
                       (generatePayload env (default (DEFAULT_PROMPT) pr) b64))) = 1%nat)
    as H1 by reflexivity.
  rewrite Hk, List.filter_app, length_app in H1. lia.
Qed.

Lemma issuesAtMost_analyzeImageHandler reqFile bodyPrompt :
  issuesAtMost isGenerate 1 (analyzeImageHandler env reqFile bodyPrompt).
Proof.
  unfold analyzeImageHandler.
  apply (issuesAtMost_tryFinally isGenerate 1 0).
  - apply (issuesAtMost_tryCatch isGenerate 1 0); [|intros; by apply issuesAtMost_resJson].
    destruct reqFile as [file|].
    + cbv zeta. apply (issuesAtMost_bind isGenerate 0 1); [apply issuesAtMost_DateNow | intros ?].
      apply (issuesAtMost_bind isGenerate 1 0); [apply issuesAtMost_callGemma3Vision | intros ?].
      apply (issuesAtMost_bind isGenerate 0 0); [apply issuesAtMost_DateNow | intros ?].
      by apply issuesAtMost_resJson.
    + eapply issuesAtMost_weaken; [|by apply issuesAtMost_resJson]. lia.
  - destruct reqFile as [file|]; [destruct (Js.truthy (path file))|];
      first [by apply issuesAtMost_cleanupFile | apply issuesAtMost_ret].
Qed.

Lemma issuesAtMost_batchItem file pr results :
  issuesAtMost isGenerate 1 (batchItem env file pr results).
Proof.
  unfold batchItem.
  apply (issuesAtMost_tryFinally isGenerate 1 0); [|by apply issuesAtMost_cleanupFile].
  apply (issuesAtMost_tryCatch isGenerate 1 0); [|intros; apply issuesAtMost_ret].
  apply (issuesAtMost_bind isGenerate 0 1); [apply issuesAtMost_DateNow | intros ?].
  apply (issuesAtMost_bind isGenerate 1 0); [apply issuesAtMost_callGemma3Vision | intros ?].
  apply (issuesAtMost_bind isGenerate 0 0); [apply issuesAtMost_DateNow | intros ?].
  apply issuesAtMost_ret.
Qed.

Lemma issuesAtMost_batchLoop uploadedFiles pr results :
  issuesAtMost isGenerate (length uploadedFiles) (batchLoop env uploadedFiles pr results).
Proof.
  revert results. induction uploadedFiles as [|file rest IH]; intros results; simpl.
  - apply issuesAtMost_ret.
  - apply (issuesAtMost_bind isGenerate 1 (length rest));
      [apply issuesAtMost_batchItem | intros ?; apply IH].
Qed.

Lemma issuesAtMost_batchAnalyzeHandler uploadedFiles bodyPrompt :
  issuesAtMost isGenerate (length uploadedFiles)
    (batchAnalyzeHandler env (Some uploadedFiles) bodyPrompt).
Proof.
  unfold batchAnalyzeHandler. simpl default.
  eapply issuesAtMost_weaken;
    [|apply (issuesAtMost_tryCatch isGenerate (length uploadedFiles) 0)]; [lia|..].
  - destruct (_ =? _)%nat.
    + eapply issuesAtMost_weaken; [|by apply issuesAtMost_resJson]. lia.
    + unfold runBatch. cbv zeta.
      eapply issuesAtMost_weaken;
        [|apply (issuesAtMost_bind isGenerate (length uploadedFiles) 0)]; [lia|..].
      * apply issuesAtMost_batchLoop.
      * intros ?. by apply issuesAtMost_resJson.
  - intros e. apply (issuesAtMost_bind isGenerate 0 0).
    + by apply (issuesAtMost_forEach_cleanupFile env isGenerate path).
    + intros ?. by apply issuesAtMost_resJson.
Qed.

End GenerateCalls.

(** X7: an analysis request never costs more inference calls than it has
    files: [POST /analyze-image] issues at most one generate call, and
    [POST /batch-analyze] with N uploads at most N, whatever fails on the
    way (an error answer and its cleanup included). *)
Theorem one_generate_call_per_file_at_most env :
  (∀ reqFile bodyPrompt w,
     (length (List.filter isGenerate
                (issued (analyzeImageHandler env reqFile bodyPrompt) w)) ≤ 1)%nat) ∧
  (∀ uploadedFiles bodyPrompt w,
     (length (List.filter isGenerate
                (issued (batchAnalyzeHandler env (Some uploadedFiles) bodyPrompt) w))
      ≤ length uploadedFiles)%nat).
Proof.
  split.
  - intros reqFile bodyPrompt w.
    destruct (issuesAtMost_analyzeImageHandler env reqFile bodyPrompt w) as (evs & Ht & Hn).
    by rewrite (issued_grows _ _ _ Ht).
  - intros uploadedFiles bodyPrompt w.
    destruct (issuesAtMost_batchAnalyzeHandler env uploadedFiles bodyPrompt w)
      as (evs & Ht & Hn).
    by rewrite (issued_grows _ _ _ Ht).
Qed.

(** ** A batch while the backend is down *)

Section BatchDown.

Context (env : Env).

Lemma alwaysDown_health w : alwaysDown env → (checkOllamaHealth env w).1 = Ok false.
Proof.
  intros Hdown. rewrite checkOllamaHealth_eq. simpl.
  specialize (Hdown (clock w)). destruct (tagsReply env (clock w)) as [e|r]; [done|].
  f_equal. by apply Z.eqb_neq.
Qed.

Lemma batchItem_down file pr results w :
  alwaysDown env →
  batchItem env file pr results w =
    (Ok (results ++ [downOutcome file]),
     (cleanupFile env (path file) (step EvGetTags (tick w))).2).
Proof.
  intros Hdown. rewrite batchItem_eq.
  by rewrite (callGemma3Vision_unhealthy env _ _ _ (alwaysDown_health (tick w) Hdown)).
Qed.

Lemma batchLoop_down uploadedFiles pr results w :
  alwaysDown env →
  ∃ w',
    batchLoop env uploadedFiles pr results w
      = (Ok (results ++ (downOutcome <$> uploadedFiles)), w') ∧
    trace w' = trace w ++ concat (downCalls <$> uploadedFiles).
Proof.
  intros Hdown. revert results w.
  induction uploadedFiles as [|file rest IH]; intros results w; simpl.
  - exists w. by rewrite !app_nil_r.
  - unfold bind. rewrite (batchItem_down _ _ _ _ Hdown).
    destruct (IH (results ++ [downOutcome file])
                 (cleanupFile env (path file) (step EvGetTags (tick w))).2)
      as (w' & -> & Ht).
    exists w'. split; [by rewrite <- app_assoc|].
    rewrite Ht, cleanupFile_eq. simpl. by rewrite <- !app_assoc.
Qed.

Lemma successCount_down uploadedFiles : successCount (downOutcome <$> uploadedFiles) = 0.
Proof.
  unfold successCount.
  by induction uploadedFiles as [|file rest IH]; [|simpl in *].
Qed.

End BatchDown.

(** X8: a batch sent while the backend is down.  When the liveness probe
    fails at every attempt, [POST /batch-analyze] with a non-empty batch
    still answers 200 with [success: true]: every file is recorded as failed
    with the "Ollama server is not running" message, [successful] is 0 and
    [failed] the number of files; per file the server issues the liveness
    probe and the unlink of the upload and nothing else (no model listing,
    no sharp, no read, no generate call). *)
Theorem batch_while_backend_is_down env uploadedFiles bodyPrompt w :
  alwaysDown env →
  uploadedFiles ≠ [] →
  (∀ n, sendFault env n = None) →
  let N := Z.of_nat (length uploadedFiles) in
  let response :=
    {| status := 200; body := BodyBatch true (downOutcome <$> uploadedFiles) N 0 N |} in
  (batchAnalyzeHandler env (Some uploadedFiles) bodyPrompt w).1 = Ok response ∧
  issued (batchAnalyzeHandler env (Some uploadedFiles) bodyPrompt) w
    = concat (downCalls <$> uploadedFiles) ++ [EvSend response].
Proof.
  intros Hdown Hne Hsend N response. unfold issued.
  rewrite (batchAnalyzeHandler_nonempty env _ _ _ Hne).
  destruct (batchLoop_down env uploadedFiles (orElse bodyPrompt (DEFAULT_PROMPT)) [] w Hdown)
    as (w' & Hloop & Ht).
  simpl in Hloop.
  assert (Hrun : runBatch env uploadedFiles bodyPrompt w
                 = (Ok response, step (EvSend response) w')).
  { unfold runBatch. cbv zeta. erewrite bind_ok by exact Hloop.
    rewrite successCount_down, Z.sub_0_r. unfold resJson. by rewrite Hsend. }
  rewrite (tryCatch_ok _ _ _ _ _ Hrun). split; [done|]. simpl.
  rewrite Ht, <- app_assoc. apply drop_app_length.
Qed.

Lemma batch_down_witness :
  let env := Scenario.backendDown in
  let uploadedFiles :=
    [Scenario.upload "uploads/1.png" "1.png"; Scenario.upload "uploads/2.png" "2.png"] in
  let response :=
    {| status := 200;
       body := BodyBatch true
                 [OutcomeFailure "1.png" livenessMessage;
                  OutcomeFailure "2.png" livenessMessage] 2 0 2 |} in
  (batchAnalyzeHandler env (Some uploadedFiles) None Scenario.batchDisk).1 = Ok response ∧
  issued (batchAnalyzeHandler env (Some uploadedFiles) None) Scenario.batchDisk
    = [EvGetTags; EvUnlink "uploads/1.png"; EvGetTags; EvUnlink "uploads/2.png";
       EvSend response].
Proof.
  intros env uploadedFiles response.
  apply (batch_while_backend_is_down env uploadedFiles None Scenario.batchDisk).
  - intros n. exact I.
  - discriminate.
  - intros n. reflexivity.
Defined.

(** ** The uploads of a batch *)

Section BatchCleanup.

Context (env : Env).

Lemma forEach_cleanupFile_absent {A} (g : A → string) l w q :
  files w !! q = None →
  files (forEach (λ x, cleanupFile env (g x)) l w).2 !! q = None.
Proof.
  revert w. induction l as [|x l IH]; intros w Hq; simpl; [done|].
  unfold bind. rewrite cleanupFile_eq. apply IH. simpl.
  destruct (unlinkFault env (clock w)); [done|].
  apply lookup_delete_None. by right.
Qed.

Lemma batchItem_removes file pr results w :
  (∀ n, unlinkFault env n = None) →
  files (batchItem env file pr results w).2 !! path file = None.
Proof.
  intros Hun. rewrite batchItem_eq.
  destruct (callGemma3Vision env (path file) (Some pr) (tick w)) as [[summary|e] w1];
    rewrite cleanupFile_eq, Hun; apply lookup_delete_eq.
Qed.

Lemma batchItem_ok file pr results w :
  ∃ results', (batchItem env file pr results w).1 = Ok results'.
Proof.
  rewrite batchItem_eq.
  destruct (callGemma3Vision env (path file) (Some pr) (tick w)) as [[summary|e] w1]; eauto.
Qed.

Lemma batchLoop_removes uploadedFiles pr results w q :
  (∀ n, unlinkFault env n = None) →
  (∀ file, file ∈ uploadedFiles → q ≠ copyOf (path file)) →
  files w !! q = None ∨ (∃ file, file ∈ uploadedFiles ∧ q = path file) →
  files (batchLoop env uploadedFiles pr results w).2 !! q = None.
Proof.
  intros Hun. revert results w.
  induction uploadedFiles as [|file rest IH]; intros results w Hcopy Hq; simpl.
  - destruct Hq as [Hq | (file & Hin & _)]; [done | by apply elem_of_nil in Hin].
  - unfold bind.
    pose proof (batchItem_removes file pr results w Hun) as Hgone.
    pose proof (touches_batchItem env file pr results w q) as Hframe.
    destruct (batchItem env file pr results w) as [[results'|e] w1] eqn:Hitem.
    2: { destruct (batchItem_ok file pr results w) as [? H]. by rewrite Hitem in H. }
    simpl in Hgone, Hframe. apply IH.
    + intros f Hf. apply Hcopy. by right.
    + destruct (decide (q = path file)) as [-> | Hne]; [by left|].
      assert (Hnc : q ≠ copyOf (path file)) by (apply Hcopy; by left).
      destruct Hq as [Hq | (f & Hin & ->)].
      * left. rewrite Hframe; [done|]. by intros [|].
      * right. exists f. split; [|done].
        apply elem_of_cons in Hin as [-> | Hin]; done.
Qed.

End BatchCleanup.

(** X9: no upload of a batch outlives the request.  When no unlink fails
    and no upload's path is the path of another upload's optimized copy (the
    storage engine names uploads by identifier and original extension),
    every upload of the batch is gone from the upload directory when
    [POST /batch-analyze] ends, whether the items succeeded or failed and
    whether or not the response could be sent. *)
Theorem batch_removes_every_upload env uploadedFiles bodyPrompt w :
  (∀ n, unlinkFault env n = None) →
  (∀ file file', file ∈ uploadedFiles → file' ∈ uploadedFiles →
     path file ≠ copyOf (path file')) →
  ∀ file, file ∈ uploadedFiles →
    files (batchAnalyzeHandler env (Some uploadedFiles) bodyPrompt w).2 !! path file = None.
Proof.
  intros Hun Hcopy file Hfile.
  assert (Hne : uploadedFiles ≠ []) by (intros ->; by apply elem_of_nil in Hfile).
  rewrite (batchAnalyzeHandler_nonempty env _ _ _ Hne).
  destruct (runBatch_eq env uploadedFiles bodyPrompt w) as (results & w1 & Hloop & _ & Hrun).
  assert (Hw1 : files w1 !! path file = None).
  { pose proof (batchLoop_removes env uploadedFiles (orElse bodyPrompt (DEFAULT_PROMPT))
                  [] w (path file) Hun) as H.
    rewrite Hloop in H. apply H.
    - intros f Hf. by apply Hcopy.
    - right. by exists file. }
  unfold tryCatch. rewrite Hrun. unfold resJson at 1.
  destruct (sendFault env (clock w1)) as [e|]; [|done].
  unfold bind.
  pose proof (forEach_cleanupFile_absent env path uploadedFiles (tick w1) (path file) Hw1)
    as Habs.
  destruct (forEach _ uploadedFiles (tick w1)) as [[[]|e'] w2]; simpl in Habs |- *; [|done].
  unfold resJson. by destruct (sendFault env (clock w2)).
Qed.

Lemma batch_cleanup_witness :
  let uploadedFiles :=
    [Scenario.upload "uploads/1.png" "1.png"; Scenario.upload "uploads/2.png" "2.png";
     Scenario.upload "uploads/3.png" "3.png"] in
  files (batchAnalyzeHandler Scenario.batchEnv (Some uploadedFiles) None
           Scenario.batchDisk).2 !! "uploads/2.png" = None.
Proof.
  intros uploadedFiles.
  refine (batch_removes_every_upload Scenario.batchEnv uploadedFiles None Scenario.batchDisk
            (λ n, eq_refl) _ (Scenario.upload "uploads/2.png" "2.png") _).
  - intros file file' Hfile Hfile'.
    apply list_elem_of_In in Hfile, Hfile'. simpl in Hfile, Hfile'.
    destruct Hfile as [<-|[<-|[<-|[]]]]; destruct Hfile' as [<-|[<-|[<-|[]]]];
      intros H; vm_compute in H; discriminate H.
  - apply list_elem_of_In. simpl. tauto.
Defined.

(** ** The informational routes *)

Section InfoRoutes.

Context (env : Env) (net : NetEnv).

Lemma arraySome_names l w :
  arraySome (includesBaseName env) (List.map name l) w =
  arraySome
    (fun model =>
       match name model with
       | None => throw (typeError "includes")
       | Some n => ret (Js.includes n (Js.splitHead ":" (GEMMA_MODEL env)))
       end) l w.
Proof.
  revert w. induction l as [|entry l IH]; intros w; simpl; [done|].
  unfold bind, includesBaseName. destruct (name entry) as [n|]; [|done].
  unfold ret at 1 3. destruct (Js.includes n _); [done | apply IH].
Qed.

(** The test of the listing changes nothing and fails in one way only. *)
Lemma arraySome_includes l w :
  (∃ b, arraySome (includesBaseName env) l w = (Ok b, w)) ∨
  arraySome (includesBaseName env) l w = (Throw (typeError "includes"), w).
Proof.
  induction l as [|m l IH]; simpl; [left; by exists false|].
  unfold bind, includesBaseName. destruct m as [n|]; [|by right].
  unfold ret at 1. destruct (Js.includes n _); [left; by exists true | apply IH].
Qed.

Lemma arraySome_unnamedFirst l w :
  (unnamedFirst (GEMMA_MODEL env) l ∧
   arraySome (includesBaseName env) (List.map name l) w
     = (Throw (typeError "includes"), w)) ∨
  (¬ unnamedFirst (GEMMA_MODEL env) l ∧
   ∃ b, arraySome (includesBaseName env) (List.map name l) w = (Ok b, w)).
Proof.
  induction l as [|entry l IH].
  - right. split; [|by exists false].
    intros (i & H & _). by rewrite lookup_nil in H.
  - cbn [List.map arraySome]. unfold bind, includesBaseName.
    destruct entry as [[n|]]; cbn [name].
    2: { left. split; [|done]. exists 0%nat. split; [done|]. intros j e Hj. lia. }
    unfold ret at 1 3.
    destruct (Js.includes n (Js.splitHead ":" (GEMMA_MODEL env))) eqn:Hinc.
    + right. split; [|by exists true].
      intros ([|i] & Hi & Hbefore); [discriminate|].
      destruct (Hbefore 0%nat {| name := Some n |}) as (n' & Hn' & Hno); [lia | done |].
      injection Hn' as <-. unfold baseName in Hno. congruence.
    + destruct IH as [[Hu E] | [Hn E]].
      * left. split; [|done]. destruct Hu as (i & Hi & Hbefore).
        exists (S i). split; [done|]. intros [|j] e Hj He.
        -- injection He as <-. by exists n.
        -- apply (Hbefore j e); [lia | done].
      * right. split; [|done]. intros ([|i] & Hi & Hbefore); [discriminate|].
        apply Hn. exists i. split; [done|]. intros j e Hj He.
        apply (Hbefore (S j) e); [lia | done].
Qed.

Lemma healthHandler_eq w :
  ∃ available,
    checkModelAvailability env (GEMMA_MODEL env) (step EvGetTags w)
      = (Ok available, step EvGetTags (step EvGetTags w)) ∧
    (available = true ↔
       ∃ i, firstMatch (GEMMA_MODEL env) (listing env (step EvGetTags w)) i) ∧
    healthHandler env net w =
      tryCatch
        (sendInfo env 200
           (HealthReport "healthy" true
              (match tagsReply env (clock w) with
               | inr r => tags_status r =? 200
               | inl _ => false
               end)
              (if available then GEMMA_MODEL env else "not_available")
              (showMegabytes env (MAX_FILE_SIZE env) +:+ "MB")
              ALLOWED_EXTENSIONS (OLLAMA_BASE_URL net) (GEMMA_MODEL env)))
        (fun error => sendInfo env 500 (HealthError "error" (message error)))
        (step EvGetTags (step EvGetTags w)).
Proof.
  destruct (checkModelAvailability_spec env (GEMMA_MODEL env) (step EvGetTags w))
    as (b & Hb & Hiff).
  exists b. split; [done|]. split; [done|].
  unfold healthHandler, tryCatch, bind. by rewrite checkOllamaHealth_eq, Hb.
Qed.

(** What [GET /status] asks the backend and what it then holds. *)
Lemma status_listing w :
  let w1 := step EvGetTags w in
  let w2 := step EvGetTags w1 in
  (let* response := axiosGetTags env in modelNames response) w1 =
    match tagsReply env (clock w1) with
    | inl e => (Throw e, w2)
    | inr {| tags_data := None |} => (Throw (typeError "models"), w2)
    | inr {| tags_data := Some data |} =>
        (Ok (List.map name (default [] (models data))), w2)
    end.
Proof.
  intros w1 w2. unfold bind, axiosGetTags, modelNames.
  destruct (tagsReply env (clock w1)) as [e|[st [[[l|]]|]]]; done.
Qed.

End InfoRoutes.

(** X10: [GET /health] answers 200 with [status: 'healthy'] whatever state
    the backend is in (the response being sendable): the state of Ollama
    only shows in [services.ollama], which is true exactly when the liveness
    probe got status 200, and in [services.model], which is the configured
    model when the listing has a match and ['not_available'] otherwise.  The
    route issues the two listing requests and nothing else, and changes no
    file. *)
Theorem health_is_healthy_whatever_the_backend_does env net w :
  sendFault env (S (S (clock w))) = None →
  ∃ ollama available : bool,
    (healthHandler env net w).1 =
      Ok (200, HealthReport "healthy" true ollama
                 (if available then GEMMA_MODEL env else "not_available")
                 (showMegabytes env (MAX_FILE_SIZE env) +:+ "MB")
                 ALLOWED_EXTENSIONS (OLLAMA_BASE_URL net) (GEMMA_MODEL env)) ∧
    (ollama = true ↔ ∃ r, tagsReply env (clock w) = inr r ∧ tags_status r = 200) ∧
    (available = true ↔
       ∃ i, firstMatch (GEMMA_MODEL env) (listing env (step EvGetTags w)) i) ∧
    issued (healthHandler env net) w = [EvGetTags; EvGetTags] ∧
    files (healthHandler env net w).2 = files w.
Proof.
  intros Hsend. unfold issued.
  destruct (healthHandler_eq env net w) as (available & _ & Hiff & ->).
  eexists _, available. unfold tryCatch, sendInfo. simpl clock. rewrite Hsend.
  split; [reflexivity|]. split; [|split; [done|split]].
  - destruct (tagsReply env (clock w)) as [e|r].
    + split; [done | by intros (r & [=] & _)].
    + rewrite Z.eqb_eq. split; [by exists r | by intros (r' & [= <-] & ?)].
  - simpl. rewrite <- app_assoc. apply drop_app_length.
  - done.
Qed.

Lemma health_witness :
  let env := Scenario.backendDown in
  let net := {| env_OLLAMA_HOST := None; env_OLLAMA_PORT := None |} in
  let w := Scenario.disk [] in
  (healthHandler env net w).1 =
    Ok (200, HealthReport "healthy" true false "not_available" "16MB"
               [".png"; ".jpg"; ".jpeg"; ".gif"; ".webp"]
               "http://localhost:11434" "gemma3:4b") ∧
  issued (healthHandler env net) w = [EvGetTags; EvGetTags].
Proof.
  intros env net w.
  destruct (health_is_healthy_whatever_the_backend_does env net w eq_refl)
    as (ollama & available & _ & _ & _ & Hissued & _).
  split; [reflexivity | exact Hissued].
Defined.

(** X11: [GET /status] while the backend is down: when the liveness probe
    fails the route does not ask for the listing; it answers 200 with
    [running: false], no available model and [modelAvailable: false], after
    the one probe. *)
Theorem status_skips_the_listing_when_down env net w :
  (checkOllamaHealth env w).1 = Ok false →
  sendFault env (S (clock w)) = None →
  (statusHandler env net w).1 =
    Ok (200, StatusReport false (OLLAMA_BASE_URL net) [] (GEMMA_MODEL env) false) ∧
  issued (statusHandler env net) w = [EvGetTags].
Proof.
  intros Hdown Hsend. unfold issued.
  pose proof (checkOllamaHealth_eq env w) as E. rewrite E in Hdown. simpl in Hdown.
  injection Hdown as Hb. rewrite Hb in E.
  destruct (statusHandler env net w) as [r w'] eqn:Hrun.
  unfold statusHandler, tryCatch at 1 in Hrun.
  erewrite bind_ok in Hrun by exact E. unfold bind at 1, ret at 1 in Hrun.
  simpl arraySome in Hrun. unfold bind, ret, sendInfo in Hrun. simpl clock in Hrun.
  rewrite Hsend in Hrun. injection Hrun as <- <-. split; [done|].
  simpl. apply drop_app_length.
Qed.

Lemma status_down_witness :
  let env := Scenario.backendDown in
  let net := {| env_OLLAMA_HOST := None; env_OLLAMA_PORT := None |} in
  let w := Scenario.disk [] in
  (statusHandler env net w).1 =
    Ok (200, StatusReport false "http://localhost:11434" [] "gemma3:4b" false) ∧
  issued (statusHandler env net) w = [EvGetTags].
Proof.
  intros env net w.
  apply (status_skips_the_listing_when_down env net w); reflexivity.
Defined.

(** X12: [GET /status] and the model check of the analysis path test the
    listing with the same substring test but fail differently.  With the
    backend alive (and the response sendable), when the listing has no entry
    without a name before the first match, [GET /status] answers 200 with
    the names of the listing and [modelAvailable] equal to the answer
    [checkModelAvailability] gives on the same listing reply; when an entry
    without a name comes before any match, the model check answers false
    while [GET /status] answers 500 "Failed to check system status" with
    the message of the [TypeError].  Either way the route issues the probe
    and the listing request only. *)
Theorem status_agrees_with_the_model_check env net w :
  (checkOllamaHealth env w).1 = Ok true →
  sendFault env (S (S (clock w))) = None →
  let l := listing env (step EvGetTags w) in
  ∃ available,
    (checkModelAvailability env (GEMMA_MODEL env) (step EvGetTags w)).1 = Ok available ∧
    (¬ unnamedFirst (GEMMA_MODEL env) l →
       (statusHandler env net w).1 =
         Ok (200, StatusReport true (OLLAMA_BASE_URL net) (List.map name l)
                    (GEMMA_MODEL env) available)) ∧
    (unnamedFirst (GEMMA_MODEL env) l →
       available = false ∧
       (statusHandler env net w).1 =
         Ok (500, InfoError "Failed to check system status"
                    "Cannot read properties of undefined (reading 'includes')")) ∧
    issued (statusHandler env net) w = [EvGetTags; EvGetTags].
Proof.
  intros Hup Hsend l. subst l. unfold issued, listing.
  pose proof (checkOllamaHealth_eq env w) as E. rewrite E in Hup. simpl in Hup.
  injection Hup as Hb. rewrite Hb in E.
  assert (Htrace : ∀ w', trace w' = trace w ++ [EvGetTags; EvGetTags] →
            drop (length (trace w)) (trace w') = [EvGetTags; EvGetTags])
    by (intros w' ->; apply drop_app_length).
  assert (Hnil : ¬ unnamedFirst (GEMMA_MODEL env) []).
  { intros (i & H & _). by rewrite lookup_nil in H. }
  destruct (statusHandler env net w) as [r w'] eqn:Hrun.
  unfold statusHandler, tryCatch at 1 in Hrun.
  erewrite bind_ok in Hrun by exact E. unfold bind at 1, tryCatch at 1 in Hrun.
  rewrite status_listing in Hrun. cbv zeta in Hrun.
  unfold checkModelAvailability, tryCatch, bind at 1, axiosGetTags.
  set (w1 := step EvGetTags w) in *. set (w2 := step EvGetTags w1) in *.
  assert (Hclock : clock w2 = S (S (clock w))) by done.
  assert (Ht2 : trace w2 = trace w ++ [EvGetTags; EvGetTags])
    by (subst w2 w1; simpl; by rewrite <- app_assoc).
  destruct (tagsReply env (clock w1)) as [e|[st [data|]]].
  - exists false. split; [done|].
    unfold ret at 1 in Hrun. simpl arraySome in Hrun. unfold bind, ret, sendInfo in Hrun.
    rewrite Hclock, Hsend in Hrun. injection Hrun as <- <-.
    split; [done|]. split; [done|]. by apply Htrace.
  - cbn [tags_data] in *. set (l := default [] (models data)) in *.
    unfold bind at 1 in Hrun.
    destruct (arraySome_unnamedFirst env l w2) as [[Hu Hsome] | [Hn [b Hsome]]];
      rewrite Hsome in Hrun; rewrite arraySome_names in Hsome; rewrite Hsome.
    + exists false. split; [done|]. unfold sendInfo in Hrun. rewrite Hclock, Hsend in Hrun.
      injection Hrun as <- <-. split; [done|]. split; [done|]. by apply Htrace.
    + exists b. split; [done|]. unfold sendInfo in Hrun. rewrite Hclock, Hsend in Hrun.
      injection Hrun as <- <-. split; [done|]. split; [done|]. by apply Htrace.
  - exists false. split; [done|].
    cbn [tags_data] in Hrun. unfold ret at 1 in Hrun. simpl arraySome in Hrun.
    unfold bind, ret, sendInfo in Hrun.
    rewrite Hclock, Hsend in Hrun. injection Hrun as <- <-.
    split; [done|]. split; [done|]. by apply Htrace.
Qed.

Lemma status_witness :
  let unnamed :=
    inr {| tags_status := 200;
           tags_data := Some {| models := Some [ {| name := Some "llava:7b" |};
                                                 {| name := None |};
                                                 {| name := Some "gemma3:4b" |} ] |} |} in
  let broken := Scenario.mkEnv Scenario.penv unnamed Scenario.sharpCopy Scenario.slowOnHuge in
  let named := Scenario.mkEnv Scenario.penv (Scenario.tagsOk ["llava:7b"; "my-gemma3:latest"])
                 Scenario.sharpCopy Scenario.slowOnHuge in
  let net := {| env_OLLAMA_HOST := None; env_OLLAMA_PORT := None |} in
  let w := Scenario.disk [] in
  ((checkModelAvailability broken (GEMMA_MODEL broken) (step EvGetTags w)).1 = Ok false ∧
   (statusHandler broken net w).1 =
     Ok (500, InfoError "Failed to check system status"
                "Cannot read properties of undefined (reading 'includes')") ∧
   issued (statusHandler broken net) w = [EvGetTags; EvGetTags]) ∧
  ((checkModelAvailability named (GEMMA_MODEL named) (step EvGetTags w)).1 = Ok true ∧
   (statusHandler named net w).1 =
     Ok (200, StatusReport true "http://localhost:11434"
                [Some "llava:7b"; Some "my-gemma3:latest"] "gemma3:4b" true) ∧
   issued (statusHandler named net) w = [EvGetTags; EvGetTags]).
Proof.
  intros unnamed broken named net w. split.
  - destruct (status_agrees_with_the_model_check broken net w eq_refl eq_refl)
      as (available & Hcheck & _ & H500 & Hissued).
    destruct H500 as [-> Hstatus].
    { exists 1%nat. split; [reflexivity|].
      intros [|j] entry Hj Hentry; [|lia].
      injection Hentry as <-. exists "llava:7b". split; reflexivity. }
    split; [exact Hcheck|]. split; [exact Hstatus | exact Hissued].
  - destruct (status_agrees_with_the_model_check named net w eq_refl eq_refl)
      as (available & Hcheck & H200 & _ & Hissued).
    assert (available = true) as ->.
    { assert (H : (checkModelAvailability named (GEMMA_MODEL named) (step EvGetTags w)).1
                  = Ok true) by reflexivity.
      rewrite Hcheck in H. by injection H. }
    split; [exact Hcheck|]. split; [|exact Hissued].
    apply H200. intros ([|[|i]] & Hi & _); discriminate Hi.
Defined.

Section InfoReadOnly.

Context (env : Env) (net : NetEnv).

Lemma emits_sendInfo P s b : emits P (sendInfo env s b).
Proof. intros w. unfold sendInfo. destruct (sendFault env (clock w)); apply grows_tick. Qed.

Lemma touches_sendInfo S s b : touches S (sendInfo env s b).
Proof. intros w q _. unfold sendInfo. by destruct (sendFault env (clock w)). Qed.

Lemma emits_listing_checkOllamaHealth : emits listingOnly (checkOllamaHealth env).
Proof.
  apply emits_tryCatch; [|intros; apply emits_ret].
  apply emits_bind; [by apply emits_axiosGetTags | intros; apply emits_ret].
Qed.

Lemma emits_listing_checkModelAvailability modelName :
  emits listingOnly (checkModelAvailability env modelName).
Proof.
  intros w. destruct (checkModelAvailability_spec env modelName w) as (b & -> & _).
  by apply grows_step.
Qed.

Lemma emits_includesBaseName P l : emits P (arraySome (includesBaseName env) l).
Proof.
  intros w. destruct (arraySome_includes env l w) as [[b ->] | ->]; apply grows_refl.
Qed.

Lemma touches_includesBaseName S l : touches S (arraySome (includesBaseName env) l).
Proof. intros w q _. by destruct (arraySome_includes env l w) as [[b ->] | ->]. Qed.

Lemma emits_listing_healthHandler : emits listingOnly (healthHandler env net).
Proof.
  apply emits_tryCatch; [|intros; apply emits_sendInfo].
  apply emits_bind; [apply emits_listing_checkOllamaHealth | intros ?].
  apply emits_bind; [apply emits_listing_checkModelAvailability | intros ?].
  apply emits_sendInfo.
Qed.

Lemma touches_healthHandler : touches (λ _, False) (healthHandler env net).
Proof.
  apply touches_tryCatch; [|intros; apply touches_sendInfo].
  apply touches_bind; [apply touches_checkOllamaHealth | intros ? _].
  apply touches_bind; [apply touches_checkModelAvailability | intros ? _].
  apply touches_sendInfo.
Qed.

Lemma emits_listing_statusHandler : emits listingOnly (statusHandler env net).
Proof.
  apply emits_tryCatch; [|intros; apply emits_sendInfo].
  apply emits_bind; [apply emits_listing_checkOllamaHealth | intros healthy].
  apply emits_bind.
  - destruct healthy; [|apply emits_ret].
    apply emits_tryCatch; [|intros; apply emits_ret].
    apply emits_bind; [by apply emits_axiosGetTags | intros response].
    unfold modelNames. destruct (tags_data response); [apply emits_ret | apply emits_throw].
  - intros names. apply emits_bind; [apply emits_includesBaseName | intros ?].
    apply emits_sendInfo.
Qed.

Lemma touches_statusHandler : touches (λ _, False) (statusHandler env net).
Proof.
  apply touches_tryCatch; [|intros; apply touches_sendInfo].
  apply touches_bind; [apply touches_checkOllamaHealth | intros healthy _].
  apply touches_bind.
  - destruct healthy; [|apply touches_ret].
    apply touches_tryCatch; [|intros; apply touches_ret].
    apply touches_bind; [apply touches_axiosGetTags | intros response _].
    unfold modelNames. destruct (tags_data response); [apply touches_ret | apply touches_throw].
  - intros names _. apply touches_bind; [apply touches_includesBaseName | intros ? _].
    apply touches_sendInfo.
Qed.

Lemma emits_listing_modelsHandler : emits listingOnly (modelsHandler env).
Proof.
  apply emits_tryCatch; [|intros; apply emits_sendInfo].
  apply emits_bind; [by apply emits_axiosGetTags | intros; apply emits_sendInfo].
Qed.

Lemma touches_modelsHandler : touches (λ _, False) (modelsHandler env).
Proof.
  apply touches_tryCatch; [|intros; apply touches_sendInfo].
  apply touches_bind; [apply touches_axiosGetTags | intros; apply touches_sendInfo].
Qed.

Lemma read_only {A} (m : M A) w :
  touches (λ _, False) m → emits listingOnly m →
  files (m w).2 = files w ∧ Forall listingOnly (issued m w).
Proof.
  intros Ht He. split.
  - apply map_eq. intros q. apply Ht. tauto.
  - destruct (He w) as (evs & Htrace & F). by rewrite (issued_grows _ _ _ Htrace).
Qed.

End InfoReadOnly.

(** X13: the informational routes only read.  Whatever the backend answers
    and whether or not the response can be sent, [GET /health],
    [GET /status] and [GET /models] leave every file of the upload directory
    as it is and issue nothing but listing requests to the backend: no
    generate call, no sharp run, no read and no unlink. *)
Theorem info_routes_only_read env net w :
  let onlyReads (m : M (Z * InfoBody)) :=
    files (m w).2 = files w ∧ Forall listingOnly (issued m w) in
  onlyReads (healthHandler env net) ∧
  onlyReads (statusHandler env net) ∧
  onlyReads (modelsHandler env).
Proof.
  intros onlyReads. subst onlyReads. cbv beta. split; [|split]; apply read_only.
  - apply touches_healthHandler.
  - apply emits_listing_healthHandler.
  - apply touches_statusHandler.
  - apply emits_listing_statusHandler.
  - apply touches_modelsHandler.
  - apply emits_listing_modelsHandler.
Qed.

(** ** Graceful shutdown *)

Lemma append_assoc (a b c : string) : (a +:+ b) +:+ c = a +:+ (b +:+ c).
Proof. induction a as [|x a IH]; [done|]. by rewrite !append_cons, IH. Qed.

Lemma stripPrefix_app p s : stripPrefix p (p +:+ s) = Some s.
Proof.
  induction p as [|a p IH]; [done|].
  rewrite append_cons. simpl. by rewrite Ascii.eqb_refl.
Qed.

Lemma stripPrefix_Some p s r : stripPrefix p s = Some r → s = p +:+ r.
Proof.
  revert s. induction p as [|a p IH]; intros s; simpl.
  - by intros [= ->].
  - destruct s as [|b s]; [done|].
    destruct (Ascii.eqb a b) eqn:Hab; [|done].
    apply Ascii.eqb_eq in Hab as ->. intros H%IH. by rewrite append_cons, H.
Qed.

Lemma splitHead_without_slash s : Js.hasSlash s = false → Js.splitHead "/" s = s.
Proof.
  induction s as [|c s IH]; simpl; [done|].
  intros [Hc Hs]%orb_false_iff. rewrite Hc. by rewrite IH.
Qed.

Lemma hasSlash_splitHead s : Js.hasSlash (Js.splitHead "/" s) = false.
Proof.
  induction s as [|c s IH]; simpl; [done|].
  destruct (Ascii.eqb c "/") eqn:Hc; [done|]. simpl. by rewrite Hc, IH.
Qed.

Lemma elem_of_entries dir fs name :
  name ∈ entries dir fs ↔
  name ≠ "" ∧ ∃ key b, fs !! key = Some b ∧ entryOf dir key = Some name.
Proof.
  unfold entries. rewrite elem_of_remove_dups, list_elem_of_filter, list_elem_of_omap.
  split.
  - intros [Hne ([key b] & Hin & He)]. split; [done|].
    exists key, b. split; [by apply elem_of_map_to_list | done].
  - intros [Hne (key & b & Hin & He)]. split; [done|].
    exists (key, b). split; [by apply elem_of_map_to_list | done].
Qed.

Lemma entries_without_slash dir fs name : name ∈ entries dir fs → Js.hasSlash name = false.
Proof.
  intros [_ (key & b & _ & He)]%elem_of_entries. unfold entryOf in He.
  destruct (stripPrefix _ key) as [r|]; [|done]. injection He as <-.
  apply hasSlash_splitHead.
Qed.

Lemma entries_direct dir fs name b :
  name ≠ "" → Js.hasSlash name = false →
  fs !! (dir +:+ "/" +:+ name) = Some b → name ∈ entries dir fs.
Proof.
  intros Hne Hslash Hfile. apply elem_of_entries. split; [done|].
  exists (dir +:+ "/" +:+ name), b. split; [done|].
  unfold entryOf. rewrite <- append_assoc, stripPrefix_app. simpl.
  by rewrite splitHead_without_slash.
Qed.

Section Sweep.

Context (env : Env).

Lemma forEach_cleanupFile_ok {A} (g : A → string) l w :
  (forEach (λ x, cleanupFile env (g x)) l w).1 = Ok tt.
Proof.
  revert w. induction l as [|x l IH]; intros w; simpl; [done|].
  unfold bind. by rewrite cleanupFile_eq.
Qed.

Lemma forEach_cleanupFile_lookup {A} (g : A → string) l w q :
  (∀ n, unlinkFault env n = None) →
  files (forEach (λ x, cleanupFile env (g x)) l w).2 !! q =
    if decide (q ∈ g <$> l) then None else files w !! q.
Proof.
  intros Hun. revert w. induction l as [|x l IH]; intros w; cbn [forEach].
  - destruct (decide _) as [H|]; [by apply elem_of_nil in H | done].
  - rewrite fmap_cons. unfold bind. rewrite cleanupFile_eq, IH, Hun. cbn [files setFiles step].
    destruct (decide (q ∈ g <$> l)) as [Hin | Hnin].
    + rewrite decide_True; [done | by right].
    + destruct (decide (q = g x)) as [-> | Hne].
      * rewrite decide_True by (by left). apply lookup_delete_eq.
      * rewrite decide_False.
        -- by apply lookup_delete_ne.
        -- intros [?|?]%elem_of_cons; done.
Qed.

Lemma shutdown_eq w :
  shutdown env None w =
    (Ok 0, (forEach (λ file, cleanupFile env (UPLOAD_DIR env +:+ "/" +:+ file))
              (entries (UPLOAD_DIR env) (files w)) (tick w)).2).
Proof.
  unfold shutdown, bind at 1, tryCatch, bind, fsReaddir.
  pose proof (forEach_cleanupFile_ok (λ file, UPLOAD_DIR env +:+ "/" +:+ file)
                (entries (UPLOAD_DIR env) (files w)) (tick w)) as Hok.
  change (files (tick w)) with (files w) in *.
  by destruct (forEach _ _ (tick w)) as [[[]|e] w'].
Qed.

End Sweep.

(** X14: the shutdown sweep.  On [SIGINT], when the directory can be listed
    and no unlink fails, every file that lies directly in the upload
    directory is removed, whatever left it there (an upload or an optimized
    copy that an analysis did not remove), every other file is left as it
    is, and the process exits with code 0; when the directory cannot be
    listed nothing is removed and the exit code is still 0. *)
Theorem shutdown_sweeps_the_upload_directory env w :
  (∀ n, unlinkFault env n = None) →
  let w' := (shutdown env None w).2 in
  (shutdown env None w).1 = Ok 0 ∧
  (∀ name, name ≠ "" → Js.hasSlash name = false →
     files w' !! (UPLOAD_DIR env +:+ "/" +:+ name) = None) ∧
  (∀ q, (∀ name, Js.hasSlash name = false → q ≠ UPLOAD_DIR env +:+ "/" +:+ name) →
     files w' !! q = files w !! q) ∧
  (∀ e, (shutdown env (Some e) w).1 = Ok 0 ∧ files (shutdown env (Some e) w).2 = files w).
Proof.
  intros Hun w'. subst w'. rewrite shutdown_eq. cbn [fst snd].
  split; [done|]. split; [|split].
  - intros name Hne Hslash.
    rewrite (forEach_cleanupFile_lookup env _ _ _ _ Hun).
    destruct (decide _) as [|Hnin]; [done|]. change (files (tick w)) with (files w).
    destruct (files w !! (UPLOAD_DIR env +:+ "/" +:+ name)) as [b|] eqn:Hfile; [|done].
    destruct Hnin. apply list_elem_of_fmap. exists name. split; [done|].
    by apply (entries_direct _ _ _ b).
  - intros q Hq. rewrite (forEach_cleanupFile_lookup env _ _ _ _ Hun).
    destruct (decide _) as [Hin|]; [|done].
    apply list_elem_of_fmap in Hin as (name & -> & Hname).
    destruct (Hq name); [by apply entries_without_slash in Hname | done].
  - intros e. done.
Qed.

Lemma shutdown_witness :
  let env := Scenario.batchEnv in
  let w := Scenario.disk [("./uploads/a.png", Scenario.png);
                          ("./uploads/b.png_optimized.jpg", Scenario.jpeg);
                          ("notes/keep.txt", Scenario.png)] in
  (shutdown env None w).1 = Ok 0 ∧
  files (shutdown env None w).2 !! "./uploads/a.png" = None ∧
  files (shutdown env None w).2 !! "./uploads/b.png_optimized.jpg" = None ∧
  files (shutdown env None w).2 !! "notes/keep.txt" = Some Scenario.png.
Proof.
  intros env w.
  destruct (shutdown_sweeps_the_upload_directory env w (λ n, eq_refl))
    as (Hexit & Hgone & Hkept & _).
  split; [exact Hexit|]. split; [|split].
  - apply (Hgone "a.png"); [discriminate | reflexivity].
  - apply (Hgone "b.png_optimized.jpg"); [discriminate | reflexivity].
  - rewrite Hkept; [reflexivity|]. intros name _ H. cbv in H. discriminate H.
Defined.

(** ** Uploads that multer lets through, and requests it refuses *)

Section Accepted.

Context (env : Env).

Lemma storageHandleFile_eq originalname written w :
  storageHandleFile env originalname written w =
    let p := UPLOAD_DIR env +:+ "/" +:+ (uuidv4 env (clock w) +:+ Js.extname originalname) in
    (Ok {| path := p; originalname := originalname; size := Z.of_nat (length written) |},
     setFiles (<[p := written]> (files w)) (step (EvWriteFile p) (tick w))).
Proof. reflexivity. Qed.

Lemma multerUpload_accepts maxCount parts staged w :
  Forall (acceptable env) parts →
  (length parts ≤ maxCount)%nat →
  ∃ fs w',
    multerUpload env maxCount parts staged w = (Ok (staged ++ fs), w') ∧
    originalname <$> fs = part_originalname <$> parts ∧
    size <$> fs = (λ part, Z.of_nat (length (part_bytes part))) <$> parts ∧
    trace w' = trace w ++ ((λ f, EvWriteFile (path f)) <$> fs).
Proof.
  intros Hparts. revert maxCount staged w.
  induction Hparts as [|part parts [Hfilter Hsize] _ IH]; intros maxCount staged w Hlen.
  - exists [], w. by rewrite !app_nil_r.
  - destruct maxCount as [|n]; [simpl in Hlen; lia|].
    cbn [multerUpload]. rewrite Hfilter.
    assert (((0 <? MAX_FILE_SIZE env) &&
             (MAX_FILE_SIZE env <=? Z.of_nat (length (part_bytes part))))%bool = false)
      as -> by (apply andb_false_iff; right; apply Z.leb_gt; lia).
    pose proof (storageHandleFile_eq (part_originalname part) (part_bytes part) w) as Hs.
    cbv zeta in Hs. erewrite bind_ok by exact Hs. clear Hs.
    match goal with |- context [multerUpload env n parts (staged ++ [?f]) ?w1] =>
      destruct (IH n (staged ++ [f]) w1) as (fs & w' & Heq & Hnames & Hsizes & Htrace);
        [simpl in Hlen; lia|];
      exists (f :: fs), w' end.
    rewrite Heq, <- app_assoc. split; [done|].
    rewrite !fmap_cons, Hnames, Hsizes, Htrace. split; [done|]. split; [done|].
    cbn [trace setFiles step tick path]. by rewrite <- app_assoc.
Qed.

Lemma forEach_storageRemoveFile_eq staged w :
  forEach (storageRemoveFile env) staged w
  = forEach (λ f, cleanupFile env (path f)) staged w.
Proof. reflexivity. Qed.

Lemma multerUpload_too_many maxCount parts w :
  (maxCount < length parts)%nat →
  Forall (acceptable env) (take maxCount parts) →
  ∃ fs w1 w2,
    multerUpload env maxCount (take maxCount parts) [] w = (Ok fs, w1) ∧
    length fs = maxCount ∧
    forEach (storageRemoveFile env) fs w1 = (Ok tt, w2) ∧
    multerUpload env maxCount parts [] w
      = (Throw (multerError "LIMIT_UNEXPECTED_FILE" "Unexpected field"), w2) ∧
    trace w2 = trace w ++ ((λ f, EvWriteFile (path f)) <$> fs)
                       ++ ((λ f, EvUnlink (path f)) <$> fs).
Proof.
  intros Hlen Hparts.
  assert (Hpre : length (take maxCount parts) = maxCount) by (rewrite length_take; lia).
  destruct (multerUpload_accepts maxCount (take maxCount parts) [] w Hparts)
    as (fs & w1 & Heq & Hnames & _ & Htrace); [lia|].
  simpl in Heq.
  destruct (forEach_storageRemoveFile env fs w1) as (w2 & Hrm & Hun & _).
  exists fs, w1, w2. split; [done|]. split.
  { by rewrite <- (length_fmap originalname fs), Hnames, length_fmap. }
  split; [done|]. split.
  - rewrite <- (take_drop maxCount parts) at 1.
    rewrite (multerUpload_app env _ _ _ _ _ _ _ Heq), Hpre, Nat.sub_diag.
    destruct (drop maxCount parts) as [|part rest] eqn:Hdrop.
    { apply (f_equal length) in Hdrop. rewrite length_drop in Hdrop. simpl in Hdrop. lia. }
    cbn [multerUpload]. by rewrite multerAbort_eq, Hrm.
  - by rewrite Hun, Htrace, <- app_assoc.
Qed.

End Accepted.

(** X15: an acceptable upload reaches the handler intact.  For a request
    with one file part whose extension is allowed and whose size is below
    the limit, multer writes the bytes of the part, all of them, to
    [UPLOAD_DIR/<uuid><extension of the original name>] and
    [POST /analyze-image] runs its handler on that file, with the original
    name and the byte count of the part. *)
Theorem acceptable_upload_reaches_the_handler env part bodyPrompt w :
  acceptable env part →
  let file :=
    {| path := UPLOAD_DIR env +:+ "/" +:+
                 (uuidv4 env (clock w) +:+ Js.extname (part_originalname part));
       originalname := part_originalname part;
       size := Z.of_nat (length (part_bytes part)) |} in
  let w1 := setFiles (<[path file := part_bytes part]> (files w))
              (step (EvWriteFile (path file)) (tick w)) in
  postAnalyzeImage env [part] bodyPrompt w
    = analyzeImageHandler env (Some file) bodyPrompt w1 ∧
  files w1 !! path file = Some (part_bytes part).
Proof.
  intros [Hfilter Hsize] file w1. split; [|apply lookup_insert_eq].
  unfold postAnalyzeImage, route. cbn [multerUpload]. rewrite Hfilter.
  assert (((0 <? MAX_FILE_SIZE env) &&
           (MAX_FILE_SIZE env <=? Z.of_nat (length (part_bytes part))))%bool = false)
    as -> by (apply andb_false_iff; right; apply Z.leb_gt; lia).
  unfold bind. by rewrite storageHandleFile_eq.
Qed.

Lemma acceptable_upload_witness :
  let env := Scenario.batchEnv in
  let part := {| part_originalname := "Scan.PNG"; part_bytes := Scenario.png |} in
  let w := Scenario.disk [] in
  let file :=
    {| path := "./uploads/5f0c1d2e-7a3b-4c4d-8e9f-000000000000.PNG";
       originalname := "Scan.PNG"; size := 4 |} in
  let w1 := setFiles (<[path file := Scenario.png]> (files w))
              (step (EvWriteFile (path file)) (tick w)) in
  postAnalyzeImage env [part] None w = analyzeImageHandler env (Some file) None w1 ∧
  files w1 !! path file = Some Scenario.png.
Proof.
  intros env part w file w1.
  apply (acceptable_upload_reaches_the_handler env part None w).
  split; [reflexivity | by vm_compute].
Defined.

(** X16: the results of a batch follow the request.  For a request of one
    to ten acceptable file parts (the response being sendable),
    [POST /batch-analyze] answers 200 with one result per part, in the order
    of the parts, each under the part's original file name; [total] is the
    number of parts and [successful + failed = total]. *)
Theorem batch_results_follow_the_request env parts bodyPrompt w :
  Forall (acceptable env) parts →
  parts ≠ [] →
  (length parts ≤ 10)%nat →
  (∀ n, sendFault env n = None) →
  ∃ results successful failed,
    (postBatchAnalyze env parts bodyPrompt w).1 =
      Ok {| status := 200;
            body := BodyBatch true results (Z.of_nat (length parts)) successful failed |} ∧
    filename <$> results = part_originalname <$> parts ∧
    successful + failed = Z.of_nat (length parts) ∧
    0 ≤ successful ∧ 0 ≤ failed.
Proof.
  intros Hparts Hne Hlen Hsend.
  destruct (multerUpload_accepts env 10 parts [] w Hparts Hlen)
    as (fs & w1 & Hup & Hnames & _ & _).
  simpl in Hup.
  assert (Hfs : length fs = length parts).
  { by rewrite <- (length_fmap originalname fs), Hnames, length_fmap. }
  assert (Hfne : fs ≠ []) by (intros ->; by destruct parts).
  unfold postBatchAnalyze, route. rewrite Hup.
  rewrite (batchAnalyzeHandler_nonempty env _ _ _ Hfne).
  destruct (runBatch_eq env fs bodyPrompt w1) as (results & w2 & _ & Hres & Hrun).
  unfold tryCatch. rewrite Hrun. unfold resJson. rewrite Hsend. cbn [fst].
  exists results, (successCount results), (Z.of_nat (length fs) - successCount results).
  rewrite <- Hfs. split; [done|]. split; [by rewrite Hres, Hnames|].
  split; [lia|].
  assert (Hlr : length results = length fs).
  { by rewrite <- (length_fmap filename results), Hres, length_fmap. }
  unfold successCount. pose proof (List.filter_length_le success results). lia.
Qed.

Lemma batch_results_witness :
  let env := Scenario.batchEnv in
  let parts := [{| part_originalname := "1.png"; part_bytes := Scenario.png |};
                {| part_originalname := "2.png"; part_bytes := Scenario.hugePng |}] in
  ∃ results successful failed,
    (postBatchAnalyze env parts None (Scenario.disk [])).1 =
      Ok {| status := 200; body := BodyBatch true results 2 successful failed |} ∧
    filename <$> results = ["1.png"; "2.png"] ∧
    successful + failed = 2 ∧
    0 ≤ successful ∧ 0 ≤ failed.
Proof.
  intros env parts.
  apply (batch_results_follow_the_request env parts None (Scenario.disk [])).
  - repeat constructor; by vm_compute.
  - discriminate.
  - simpl. lia.
  - intros n. reflexivity.
Defined.

(** X17: more files than the route takes.  When a request carries more file
    parts than the route's limit (1 for [upload.single], 10 for
    [upload.array('images', 10)]), the parts within the limit being
    acceptable, multer gives up with [LIMIT_UNEXPECTED_FILE] at the first
    part beyond the limit, unlinks every file it has written for the
    request, and the request is answered 400 "Upload error: Unexpected
    field" by the error middleware; the route's handler never runs. *)
Theorem too_many_files_are_rejected env maxCount parts w
    (handler : list UploadedFile → M Response) :
  (maxCount < length parts)%nat →
  Forall (acceptable env) (take maxCount parts) →
  ∃ fs w2,
    length fs = maxCount ∧
    route env (multerUpload env maxCount parts []) handler w
      = resJson env 400 (BodyError "Upload error: Unexpected field") w2 ∧
    trace w2 = trace w ++ ((λ f, EvWriteFile (path f)) <$> fs)
                       ++ ((λ f, EvUnlink (path f)) <$> fs) ∧
    ((∀ n, unlinkFault env n = None) → ∀ f, f ∈ fs → files w2 !! path f = None).
Proof.
  intros Hlen Hparts.
  destruct (multerUpload_too_many env maxCount parts w Hlen Hparts)
    as (fs & w1 & w2 & _ & Hn & Hrm & Hup & Htrace).
  exists fs, w2. split; [done|]. split; [|split; [done|]].
  - unfold route. by rewrite Hup.
  - intros Hun f Hf.
    pose proof (forEach_cleanupFile_lookup env path fs w1 (path f) Hun) as Hlook.
    rewrite <- forEach_storageRemoveFile_eq, Hrm in Hlook. cbn [snd] in Hlook.
    rewrite Hlook, decide_True; [done|]. by apply list_elem_of_fmap_2.
Qed.

Lemma too_many_files_witness :
  let env := Scenario.batchEnv in
  let parts := [{| part_originalname := "1.png"; part_bytes := Scenario.png |};
                {| part_originalname := "2.png"; part_bytes := Scenario.png |}] in
  let w := Scenario.disk [] in
  ∃ fs w2,
    length fs = 1%nat ∧
    postAnalyzeImage env parts None w
      = resJson env 400 (BodyError "Upload error: Unexpected field") w2 ∧
    trace w2 = trace w ++ ((λ f, EvWriteFile (path f)) <$> fs)
                       ++ ((λ f, EvUnlink (path f)) <$> fs) ∧
    ((∀ n, unlinkFault env n = None) → ∀ f, f ∈ fs → files w2 !! path f = None).
Proof.
  intros env parts w.
  apply (too_many_files_are_rejected env 1 parts w
           (λ fs, analyzeImageHandler env (head fs) None)).
  - simpl. lia.
  - repeat constructor; by vm_compute.
Defined.

(** X18: a request without a file.  Both analysis routes answer 400 ("No
    image file provided", "No image files provided") when the request
    carries no file part: nothing is asked of the backend, nothing is
    written or unlinked, the response is the only effect. *)
Theorem request_without_file_is_refused env bodyPrompt w :
  sendFault env (clock w) = None →
  let single := {| status := 400; body := BodyError "No image file provided" |} in
  let batch := {| status := 400; body := BodyError "No image files provided" |} in
  postAnalyzeImage env [] bodyPrompt w = (Ok single, step (EvSend single) w) ∧
  postBatchAnalyze env [] bodyPrompt w = (Ok batch, step (EvSend batch) w).
Proof.
  intros Hsend single batch. split.
  - unfold postAnalyzeImage, route, analyzeImageHandler, tryFinally, tryCatch, resJson.
    cbn [multerUpload ret head]. by rewrite Hsend.
  - unfold postBatchAnalyze, route, batchAnalyzeHandler, tryCatch, resJson.
    cbn [multerUpload ret].
    change (default [] (Some (@nil UploadedFile))) with (@nil UploadedFile).
    cbn [length Nat.eqb]. by rewrite Hsend.
Qed.

Lemma request_without_file_witness :
  let env := Scenario.batchEnv in
  let w := Scenario.batchDisk in
  let single := {| status := 400; body := BodyError "No image file provided" |} in
  let batch := {| status := 400; body := BodyError "No image files provided" |} in
  postAnalyzeImage env [] None w = (Ok single, step (EvSend single) w) ∧
  postBatchAnalyze env [] (Some "Describe") w = (Ok batch, step (EvSend batch) w).
Proof.
  intros env w single batch. split.
  - apply (request_without_file_is_refused env None w). reflexivity.
  - apply (request_without_file_is_refused env (Some "Describe") w). reflexivity.
Defined.

(** X19: the status indicator of the web client while Ollama is down.  The
    client shows "online" whenever [GET /health] answers with a 2xx status,
    and the route answers 200 even when every liveness probe fails: the
    indicator reads "online" while the body it ignores reports
    [services.ollama: false]. *)
Theorem client_shows_online_while_ollama_is_down env net w :
  alwaysDown env →
  sendFault env (S (S (clock w))) = None →
  ∃ s modelField maxFileSize allowed url model,
    (healthHandler env net w).1 =
      Ok (s, HealthReport "healthy" true false modelField maxFileSize allowed url model) ∧
    Client.checkApiHealth (Some s) = "online".
Proof.
  intros Hdown Hsend.
  destruct (healthHandler_eq env net w) as (available & _ & _ & ->).
  unfold tryCatch, sendInfo. simpl clock. rewrite Hsend.
  specialize (Hdown (clock w)).
  assert (match tagsReply env (clock w) with
          | inr r => tags_status r =? 200
          | inl _ => false
          end = false) as ->.
  { destruct (tagsReply env (clock w)); [done | by apply Z.eqb_neq]. }
  by eexists 200, _, _, _, _, _.
Qed.

Lemma client_online_witness :
  let env := Scenario.backendDown in
  let net := {| env_OLLAMA_HOST := None; env_OLLAMA_PORT := None |} in
  ∃ s modelField maxFileSize allowed url model,
    (healthHandler env net (Scenario.disk [])).1 =
      Ok (s, HealthReport "healthy" true false modelField maxFileSize allowed url model) ∧
    Client.checkApiHealth (Some s) = "online".
Proof.
  intros env net.
  apply (client_shows_online_while_ollama_is_down env net (Scenario.disk [])).
  - intros n. exact I.
  - reflexivity.
Defined.

(** ** The web client *)

Section ClientSide.

Lemma dropWhitespace_ascii c r :
  isWhitespace c = true → Client.dropWhitespace (String c r) = Some r.
Proof.
  unfold isWhitespace, Client.dropWhitespace. cbv zeta. by intros ->.
Qed.

Lemma trimStart_blank s : isBlank s = true → Client.trimStart s = "".
Proof.
  unfold Client.trimStart. induction s as [|c s IH]; [done|].
  cbn [isBlank]. intros [Hc Hs]%andb_true_iff.
  cbn [String.length Client.trimStartFuel]. rewrite (dropWhitespace_ascii _ _ Hc).
  by apply IH.
Qed.

Lemma trim_blank s : isBlank s = true → Client.trim s = "".
Proof. intros H. unfold Client.trim. by rewrite (trimStart_blank _ H). Qed.

Lemma pushHistory_fold {A} (items prev : list A) :
  (length prev ≤ 5)%nat →
  foldl (λ h item, Client.pushHistory item h) prev items = take 5 (rev items ++ prev).
Proof.
  revert prev. induction items as [|x items IH]; intros prev Hlen.
  - simpl. by rewrite take_ge.
  - cbn [foldl]. rewrite IH.
    2: { unfold Client.pushHistory. cbn [length]. rewrite length_take. lia. }
    unfold Client.pushHistory. cbn [rev]. rewrite <- app_assoc. cbn [app].
    destruct (decide (5 ≤ length (rev items))%nat) as [Hge | Hlt].
    + by rewrite !take_app_le by lia.
    + rewrite !take_app_ge by lia.
      f_equal. destruct (5 - length (rev items))%nat as [|n] eqn:Hn; [done|].
      rewrite !firstn_cons. f_equal. rewrite take_take. f_equal. lia.
Qed.

End ClientSide.

(** X20: the history of the web client.  After any sequence of successful
    analyses, starting from the empty history, the history consists of the
    five latest entries (all of them when there are fewer), newest first. *)
Theorem history_keeps_the_five_latest {A} (items : list A) :
  foldl (λ h item, Client.pushHistory item h) [] items = take 5 (rev items) ∧
  (length (foldl (λ h item, Client.pushHistory item h) [] items) ≤ 5)%nat.
Proof.
  rewrite pushHistory_fold by (simpl; lia). rewrite app_nil_r.
  split; [done|]. rewrite length_take. lia.
Qed.

(** X21: a blank prompt does not leave the web client.  When the typed
    prompt trims to the empty string (it is empty or made of white space
    only), the client appends no [prompt] field to the form, and for a
    request without that field every generate call of [POST /analyze-image]
    carries the default prompt; the history entry of the client,
    nevertheless, shows the typed blanks and not the default when the prompt
    is blank but not empty. *)
Theorem blank_prompt_never_leaves_the_client env file cp w :
  Client.trim cp = "" →
  Client.formPrompt cp = None ∧
  (∀ ev, ev ∈ issued (analyzeImageHandler env (Some file) None) w →
         carriesPrompt (DEFAULT_PROMPT) ev) ∧
  (cp ≠ "" → Client.historyPrompt cp = cp ∧ cp ≠ DEFAULT_PROMPT).
Proof.
  intros Hblank. split; [|split].
  - unfold Client.formPrompt. by rewrite Hblank.
  - intros ev Hev.
    eapply issued_carries; [apply (emits_analyzeImageHandler env (Some file) None) | exact Hev].
  - intros Hne. split.
    + unfold Client.historyPrompt. by destruct cp.
    + intros ->. discriminate Hblank.
Qed.

Lemma blank_prompt_witness :
  let env := Scenario.batchEnv in
  let file := Scenario.upload "uploads/1.png" "page1.png" in
  let cp := String.String " " (String.String (ascii_of_nat 9) " ") in
  isBlank cp = true ∧
  Client.formPrompt cp = None ∧
  (∀ ev, ev ∈ issued (analyzeImageHandler env (Some file) None) Scenario.batchDisk →
         carriesPrompt (DEFAULT_PROMPT) ev) ∧
  (cp ≠ "" → Client.historyPrompt cp = cp ∧ cp ≠ DEFAULT_PROMPT).
Proof.
  intros env file cp. split; [reflexivity|].
  apply (blank_prompt_never_leaves_the_client env file cp Scenario.batchDisk).
  reflexivity.
Defined.



(** ** The file filter and the case of the extension *)

Section FilterCase.

Lemma lowerAscii_eqb_slash c : Ascii.eqb (Js.lowerAscii c) "/" = Ascii.eqb c "/".
Proof. by destruct c as [[] [] [] [] [] [] [] []]. Qed.

Lemma lowerAscii_eqb_dot c : Ascii.eqb (Js.lowerAscii c) "." = Ascii.eqb c ".".
Proof. by destruct c as [[] [] [] [] [] [] [] []]. Qed.

Lemma lowerAscii_idemp c : Js.lowerAscii (Js.lowerAscii c) = Js.lowerAscii c.
Proof. by destruct c as [[] [] [] [] [] [] [] []]. Qed.

Lemma toLowerCase_idemp s : Js.toLowerCase (Js.toLowerCase s) = Js.toLowerCase s.
Proof. induction s as [|c s IH]; [done|]. simpl. by rewrite lowerAscii_idemp, IH. Qed.

Lemma hasSlash_lower s : Js.hasSlash (Js.toLowerCase s) = Js.hasSlash s.
Proof. induction s as [|c s IH]; [done|]. simpl. by rewrite lowerAscii_eqb_slash, IH. Qed.

Lemma basename_lower s : Js.basename (Js.toLowerCase s) = Js.toLowerCase (Js.basename s).
Proof.
  induction s as [|c s IH]; [done|].
  cbn [Js.toLowerCase Js.basename]. rewrite hasSlash_lower, lowerAscii_eqb_slash, IH.
  destruct (Js.hasSlash s); [done|]. by destruct (Ascii.eqb c "/").
Qed.

Lemma lastDot_lower s : Js.lastDot (Js.toLowerCase s) = Js.toLowerCase <$> Js.lastDot s.
Proof.
  induction s as [|c s IH]; [done|].
  cbn [Js.toLowerCase Js.lastDot]. rewrite IH, lowerAscii_eqb_dot.
  destruct (Js.lastDot s); [done|]. by destruct (Ascii.eqb c ".").
Qed.

Lemma eqb_dotdot_lower s : String.eqb (Js.toLowerCase s) ".." = String.eqb s "..".
Proof.
  destruct s as [|c1 [|c2 [|c3 s]]]; cbn [Js.toLowerCase String.eqb]; try done.
  - by rewrite lowerAscii_eqb_dot.
  - rewrite !lowerAscii_eqb_dot. done.
  - rewrite !lowerAscii_eqb_dot. done.
Qed.

Lemma extname_lower s : Js.extname (Js.toLowerCase s) = Js.toLowerCase (Js.extname s).
Proof.
  unfold Js.extname. rewrite basename_lower.
  destruct (Js.basename s) as [|c rest]; [done|].
  change (Js.toLowerCase (String c rest))
    with (String (Js.lowerAscii c) (Js.toLowerCase rest)) at 1.
  cbv iota.
  change (String (Js.lowerAscii c) (Js.toLowerCase rest))
    with (Js.toLowerCase (String c rest)).
  rewrite eqb_dotdot_lower, lastDot_lower.
  destruct (String.eqb (String c rest) ".."); [done|].
  by destruct (Js.lastDot rest).
Qed.

End FilterCase.

(** X23: the file filter ignores case.  Two original names that differ only
    in the case of their ASCII letters are both let through or both turned
    away by [fileFilter] (["Scan.PNG"] passes as ["scan.png"] does); in
    particular a name passes exactly when its lower-case form does. *)
Theorem file_filter_ignores_case (a b : string) :
  Js.toLowerCase a = Js.toLowerCase b →
  fileFilter a = fileFilter b ∧ fileFilter (Js.toLowerCase a) = fileFilter a.
Proof.
  intros Hab.
  assert (H : ∀ s, fileFilter s =
                   if existsb (String.eqb (Js.extname (Js.toLowerCase s))) ALLOWED_EXTENSIONS
                   then Ok true
                   else Throw (newError ("File type not allowed. Use: "
                                         +:+ Js.join ", " ALLOWED_EXTENSIONS))).
  { intros s. unfold fileFilter. cbv zeta. by rewrite extname_lower. }
  split.
  - by rewrite (H a), (H b), Hab.
  - by rewrite (H (Js.toLowerCase a)), (H a), toLowerCase_idemp.
Qed.

Lemma file_filter_witness :
  fileFilter "Scan.PNG" = fileFilter "scan.png" ∧
  fileFilter (Js.toLowerCase "Scan.PNG") = fileFilter "Scan.PNG".
Proof. apply (file_filter_ignores_case "Scan.PNG" "scan.png"). reflexivity. Defined.

(** X24: a file with a disallowed extension.  When the first file part of
    a request has an extension outside the allowed list, nothing is written
    and the handler does not run; the error of the file filter is not a
    multer error, so the error middleware answers 500 "Internal server
    error" (not 400), and the list of allowed extensions that the filter's
    message carries reaches the caller only when [NODE_ENV] is
    ["development"]; otherwise the message is "Something went wrong". *)
Theorem disallowed_extension_is_answered_500 env part rest bodyPrompt w :
  existsb (String.eqb (Js.toLowerCase (Js.extname (part_originalname part))))
    ALLOWED_EXTENSIONS = false →
  sendFault env (clock w) = None →
  let response :=
    {| status := 500;
       body := BodyErrorMessage "Internal server error"
                 (if bool_decide (env_NODE_ENV (processEnv env) = Some "development")
                  then "File type not allowed. Use: .png, .jpg, .jpeg, .gif, .webp"
                  else "Something went wrong") |} in
  postAnalyzeImage env (part :: rest) bodyPrompt w = (Ok response, step (EvSend response) w) ∧
  postBatchAnalyze env (part :: rest) bodyPrompt w = (Ok response, step (EvSend response) w).
Proof.
  intros Hext Hsend response.
  assert (Hfilter : fileFilter (part_originalname part)
                    = Throw (newError
                        "File type not allowed. Use: .png, .jpg, .jpeg, .gif, .webp")).
  { unfold fileFilter. cbv zeta. by rewrite Hext. }
  split.
  - unfold postAnalyzeImage, route. cbn [multerUpload]. rewrite Hfilter, multerAbort_eq.
    cbn [forEach ret snd]. unfold errorMiddleware, resJson. cbn [isMulterError newError].
    rewrite Hsend. subst response. cbn [message]. by case_bool_decide.
  - unfold postBatchAnalyze, route. cbn [multerUpload]. rewrite Hfilter, multerAbort_eq.
    cbn [forEach ret snd]. unfold errorMiddleware, resJson. cbn [isMulterError newError].
    rewrite Hsend. subst response. cbn [message]. by case_bool_decide.
Qed.

Lemma disallowed_extension_witness :
  let env := Scenario.batchEnv in
  let part := {| part_originalname := "notes.txt"; part_bytes := Scenario.png |} in
  let w := Scenario.disk [] in
  let response :=
    {| status := 500;
       body := BodyErrorMessage "Internal server error" "Something went wrong" |} in
  postAnalyzeImage env [part] None w = (Ok response, step (EvSend response) w) ∧
  postBatchAnalyze env [part] None w = (Ok response, step (EvSend response) w).
Proof.
  intros env part w response.
  apply (disallowed_extension_is_answered_500 env part [] None w); reflexivity.
Defined.
